(** * Learnella: the conversation engine of [bot.py]

    A shallow embedding of the handlers of [src/bot.py] (an aiogram bot in
    front of a REST backend) and the properties of its session engine.

    - Python values that travel through the handlers (JSON bodies, session
      fields) are the inductive [pyval].
    - [USER_SESSIONS] is a [gmap] from user ids to Python dicts, each a
      [gmap string pyval]; a missing key is a [KeyError], as in Python.
    - A handler is a computation in the monad [py]: it threads the [world]
      (sessions, FSM storage, temporary files, outbound trace) and may raise.
      What a handler wrote before it raised stays written.
    - The backend is an oracle [api : request -> response]; every call a
      handler issues is appended to the trace.
    - A [string] is a Python [str] of ASCII characters: [py_strip],
      [py_lower] and [py_int] are [str.strip], [str.lower] and [int] on such
      text, and the properties of what they compute are stated for texts
      that satisfy [isascii].
    - A Python [float] is an IEEE 754 double, with the arithmetic of the
      Standard Library's [SpecFloat]. *)

From Stdlib Require Import ZArith String Ascii List Lia.
From Stdlib Require Import Floats.SpecFloat.
From stdpp Require Import base option gmap strings list.

Set Warnings "-register-all".
Local Open Scope string_scope.
Local Open Scope Z_scope.

(** ** Python values *)

(** A Python [float]: a double, that is binary64. *)
Definition float : Type := spec_float.

Inductive pyval : Type :=
| PNone
| PBool (b : bool)
| PInt (n : Z)
| PFloat (x : float)
| PStr (s : string)
| PList (l : list pyval)
| PDict (kv : list (string * pyval)).  (* items of a dict, keys distinct *)

Inductive exn : Type :=
| KeyError (k : pyval)
| IndexError
| TypeError
| AttributeError
| ZeroDivisionError
| JSONDecodeError        (* response.json() on a body that is not JSON *)
| FileNotFoundError
| OverflowError.

Inductive outcome (A : Type) : Type :=
| Ok (a : A)
| Raise (e : exn).
Arguments Ok {A} a.
Arguments Raise {A} e.

(** ** Strings: [strip], [lower], [split], [int] *)

Module PyStr.

(** [s.isascii()] *)
Definition isascii (s : string) : bool :=
  forallb (fun c => (nat_of_ascii c <? 128)%nat) (list_ascii_of_string s).

(** What [str.strip] removes, on ASCII: TAB, LF, VT, FF, CR, FS, GS, RS,
    US, SPACE. *)
Definition is_space (c : ascii) : bool :=
  let n := nat_of_ascii c in
  ((9 <=? n) && (n <=? 13) || (28 <=? n) && (n <=? 32))%nat.

(** What [int] skips around a numeral: C's [isspace], that is TAB, LF, VT,
    FF, CR, SPACE. The separators FS, GS, RS and US are not skipped. *)
Definition is_int_space (c : ascii) : bool :=
  let n := nat_of_ascii c in
  ((9 <=? n) && (n <=? 13) || (n =? 32))%nat.

(** Leading characters that satisfy [space] are dropped. *)
Fixpoint lstrip (space : ascii -> bool) (s : string) : string :=
  match s with
  | String c r => if space c then lstrip space r else s
  | EmptyString => EmptyString
  end.

(** A suffix made only of characters that satisfy [space] is dropped. *)
Fixpoint rstrip (space : ascii -> bool) (s : string) : string :=
  match s with
  | EmptyString => EmptyString
  | String c r =>
      match rstrip space r with
      | EmptyString => if space c then EmptyString else String c EmptyString
      | r' => String c r'
      end
  end.

Definition py_strip (s : string) : string := rstrip is_space (lstrip is_space s).

Definition lower_char (c : ascii) : ascii :=
  let n := nat_of_ascii c in
  if ((65 <=? n) && (n <=? 90))%nat then ascii_of_nat (n + 32) else c.

Fixpoint py_lower (s : string) : string :=
  match s with
  | EmptyString => EmptyString
  | String c r => String (lower_char c) (py_lower r)
  end.

(** [s.startswith(p)] *)
Fixpoint startswith (p s : string) : bool :=
  match p, s with
  | EmptyString, _ => true
  | String a p', String b s' => if Ascii.eqb a b then startswith p' s' else false
  | String _ _, EmptyString => false
  end.

(** [p in s] for strings *)
Fixpoint contains (p s : string) : bool :=
  startswith p s ||
  match s with
  | EmptyString => false
  | String _ s' => contains p s'
  end.

(** [s.split(sep)] for a one-character separator: all the fields. *)
Fixpoint split (sep : ascii) (s : string) : list string :=
  match s with
  | EmptyString => [EmptyString]
  | String c r =>
      if Ascii.eqb c sep then EmptyString :: split sep r
      else match split sep r with
           | f :: fs => String c f :: fs
           | [] => [String c EmptyString]
           end
  end.

(** [s.split(sep, 1)]: cut at the first separator only. *)
Fixpoint split1 (sep : ascii) (s : string) : list string :=
  match s with
  | EmptyString => [EmptyString]
  | String c r =>
      if Ascii.eqb c sep then [EmptyString; r]
      else match split1 sep r with
           | f :: fs => String c f :: fs
           | [] => [String c EmptyString]
           end
  end.

Definition is_digit (c : ascii) : bool :=
  let n := nat_of_ascii c in ((48 <=? n) && (n <=? 57))%nat.

Definition digit_value (c : ascii) : Z := Z.of_nat (nat_of_ascii c) - 48.

(** Digits with single underscores between them; [sep] says that the
    previous character was not a digit (start of the text, or [_]). *)
Fixpoint digits (acc : Z) (sep : bool) (s : string) : option Z :=
  match s with
  | EmptyString => if sep then None else Some acc
  | String c r =>
      if is_digit c then digits (acc * 10 + digit_value c) false r
      else if Ascii.eqb c "_" then (if sep then None else digits acc true r)
      else None
  end.

(** [int(s)]: [None] stands for [ValueError]. The numeral may have
    whitespace around it, in the sense of [is_int_space]. *)
Definition py_int (s : string) : option Z :=
  match rstrip is_int_space (lstrip is_int_space s) with
  | String c r =>
      if Ascii.eqb c "-" then Z.opp <$> digits 0 true r
      else if Ascii.eqb c "+" then digits 0 true r
      else digits 0 true (String c r)
  | EmptyString => None
  end.

End PyStr.
Export PyStr.

(** ** Floats

    The doubles of Python: 53 bits of precision, exponents up to 1024,
    rounding to nearest with ties to even. *)

Module PyFloat.

Definition prec : Z := 53.
Definition emax : Z := 1024.

(** [float(n)] for an int [n]. *)
Definition of_int (n : Z) : float := binary_normalize prec emax n 0 false.

(** [a / b] on two ints, Python's true division: the double nearest to the
    quotient of the two integers. A zero quotient has the sign of the
    operands; a quotient beyond the doubles is an [OverflowError]. *)
Definition int_truediv (a b : Z) : outcome float :=
  if b =? 0 then Raise ZeroDivisionError
  else
    let negate := xorb (a <? 0) (b <? 0) in
    if a =? 0 then Ok (S754_zero negate)
    else
      let '(q, e, l) := SFdiv_core_binary prec emax (Z.abs a) 0 (Z.abs b) 0 in
      match binary_round_aux prec emax negate q e l with
      | S754_infinity _ => Raise OverflowError
      | x => Ok x
      end.

(** [x * y] on two floats. *)
Definition mul (x y : float) : float := SFmul prec emax x y.

(** The number that the double [x] stands for lies between 0 and the
    integer [n]: a finite double [m * 2 ^ e] stands for that number. *)
Definition from_0_to (n : Z) (x : float) : Prop :=
  match x with
  | S754_zero _ => 0 <= n
  | S754_finite false m e => Z.pos m * 2 ^ Z.max e 0 <= n * 2 ^ Z.max (- e) 0
  | _ => False
  end.

End PyFloat.

(** ** Operations on Python values *)

Module PyVal.

Fixpoint dict_lookup (kv : list (string * pyval)) (k : string) : option pyval :=
  match kv with
  | [] => None
  | (k', v) :: rest => if String.eqb k' k then Some v else dict_lookup rest k
  end.

(** [v[k]] for a string key [k]. *)
Definition getitem_str (v : pyval) (k : string) : outcome pyval :=
  match v with
  | PDict kv => match dict_lookup kv k with
                | Some x => Ok x
                | None => Raise (KeyError (PStr k))
                end
  | _ => Raise TypeError
  end.

(** [l[i]] on a Python list: negative indices count from the end. *)
Definition list_index {A} (l : list A) (i : Z) : option A :=
  let n := Z.of_nat (length l) in
  if (0 <=? i) && (i <? n) then l !! Z.to_nat i
  else if (- n <=? i) && (i <? 0) then l !! Z.to_nat (n + i)
  else None.

(** [v[i]] for an integer [i]. *)
Definition getitem_int (v : pyval) (i : Z) : outcome pyval :=
  match v with
  | PList l => match list_index l i with
               | Some x => Ok x
               | None => Raise IndexError
               end
  | PStr s => match list_index (list_ascii_of_string s) i with
              | Some c => Ok (PStr (String c EmptyString))
              | None => Raise IndexError
              end
  | PDict _ => Raise (KeyError (PInt i))
  | _ => Raise TypeError
  end.

(** [v.get(k, default)] *)
Definition get (v : pyval) (k : string) (default : pyval) : outcome pyval :=
  match v with
  | PDict kv => Ok (match dict_lookup kv k with Some x => x | None => default end)
  | _ => Raise AttributeError
  end.

(** [len(v)] *)
Definition len (v : pyval) : outcome Z :=
  match v with
  | PList l => Ok (Z.of_nat (length l))
  | PDict kv => Ok (Z.of_nat (length kv))
  | PStr s => Ok (Z.of_nat (String.length s))
  | _ => Raise TypeError
  end.

(** Truth value of [v], as in [if not v]. *)
Definition truthy (v : pyval) : bool :=
  match v with
  | PNone => false
  | PBool b => b
  | PInt n => negb (n =? 0)
  | PFloat x => match x with S754_zero _ => false | _ => true end
  | PStr s => negb (String.eqb s "")
  | PList l => match l with [] => false | _ => true end
  | PDict kv => match kv with [] => false | _ => true end
  end.

(** What [for x in v] visits. *)
Definition iter (v : pyval) : outcome (list pyval) :=
  match v with
  | PList l => Ok l
  | PDict kv => Ok (map (fun p => PStr (fst p)) kv)
  | PStr s => Ok (map (fun c => PStr (String c EmptyString)) (list_ascii_of_string s))
  | _ => Raise TypeError
  end.

(** [v == s] for a string literal [s]. *)
Definition eq_str (v : pyval) (s : string) : bool :=
  match v with
  | PStr t => String.eqb t s
  | _ => false
  end.

End PyVal.

(** ** FSM storage, chat transport and backend *)

(** The states of [AuthStates], [TeacherStates] and [StudentStates]. *)
Inductive fsm_state : Type :=
| Auth_waiting_for_username
| Auth_waiting_for_password
| Teacher_waiting_for_audio
| Teacher_waiting_for_title
| Teacher_waiting_for_description
| Teacher_waiting_for_subject
| Teacher_waiting_for_content_type
| Teacher_waiting_for_count
| Student_waiting_for_subject
| Student_waiting_for_term
| Student_in_learning_session
| Student_in_review_session.

#[global] Instance fsm_state_eq_dec : EqDecision fsm_state.
Proof. solve_decision. Defined.

Inductive endpoint : Type :=
| ApiToken                       (* POST /api/token/ *)
| ApiSubjects                    (* GET  /api/core/subjects/ *)
| ApiUpload                      (* POST /api/core/upload/ *)
| ApiGenerate                    (* POST /api/core/generate-ai-content/ *)
| ApiNewCards                    (* GET  /api/core/flashcards/new-cards/ *)
| ApiDueReviews                  (* GET  /api/core/flashcards/due-reviews/ *)
| ApiSwipe (card_id : pyval)     (* POST /api/core/flashcards/{id}/swipe/ *)
| ApiReview (card_id : pyval)    (* POST /api/core/flashcards/{id}/review/ *)
| ApiAllQuizzes                  (* GET  /api/core/all-quizzes/ *)
| ApiQuiz (quiz_id : string)     (* GET  /api/core/quizzes/{quiz_id}/ *)
| ApiQuizComplete (quiz_id : pyval). (* POST /api/core/quizzes/{id}/complete/ *)

Record request : Type := Request {
  endpoint_of : endpoint;
  bearer : option pyval;         (* the token of the Authorization header *)
  payload : pyval                (* JSON body or form fields; [PNone] for a GET *)
}.

Inductive body : Type :=
| NotJson                        (* a body [response.json()] cannot decode *)
| Json (v : pyval).

Record response : Type := Response { status : Z; body_of : body }.

(** Outbound texts. A literal text is kept as it is; a formatted one keeps
    the values that are interpolated into it. *)
Inductive outmsg : Type :=
| Text (s : string)
| UploadFailed (err : pyval)     (* f"Audio upload failed: {err}" *)
| GenerationFailed (err : pyval) (* f"Content generation failed: {err}" *)
| Generated (flashcard_count question_count : option pyval)
                                 (* "Content generated successfully!" and the counts *)
| CardFront (number total : Z) (definition : pyval)
| CardBack (number total : Z) (definition term : pyval)
| StartingQuiz (title description : pyval)
| QuizQuestion (number total : Z) (question_text : pyval)
| QuizCompleted (correct total : Z) (percentage : float)
| TeacherMenu                    (* "Teacher Dashboard - ..." and its four buttons *)
| StudentMenu.                   (* "Student Dashboard - ..." and its four buttons *)

(** The [callback_data] of an inline button. *)
Inductive cbdata : Type :=
| Lit (s : string)
| Fmt (prefix : string) (v : pyval).  (* f"{prefix}{v}" *)

Inductive event : Type :=
| Answer (m : outmsg)            (* message.answer / bot.send_message *)
| AnswerButtons (m : outmsg) (buttons : list (pyval * cbdata)) (* with an inline keyboard *)
| EditMessage (m : outmsg) (buttons : list (pyval * cbdata))   (* bot.edit_message_text *)
| DeleteMessage                  (* bot.delete_message *)
| AnswerCallback (note : option string) (* bot.answer_callback_query *)
| Call (r : request).            (* a request sent to the backend *)

Record world : Type := World {
  USER_SESSIONS : gmap Z (gmap string pyval);
  fsm : gmap Z fsm_state;        (* MemoryStorage: no entry is the state None *)
  fsm_data : gmap Z (gmap string pyval);
  files : gset string;           (* the temporary files on disk *)
  trace : list event             (* what went out, oldest first *)
}.

Definition empty_world : world := World ∅ ∅ ∅ ∅ [].

(** ** The handler monad *)

Definition py (A : Type) : Type := world -> outcome A * world.

#[global] Instance py_ret : MRet py := fun A a w => (Ok a, w).
#[global] Instance py_bind : MBind py := fun A B k m w =>
  match m w with
  | (Ok a, w') => k a w'
  | (Raise e, w') => (Raise e, w')
  end.

Definition raise {A} (e : exn) : py A := fun w => (Raise e, w).

Definition lift {A} (o : outcome A) : py A := fun w => (o, w).

Definition emit (e : event) : py unit := fun w =>
  (Ok tt, World (USER_SESSIONS w) (fsm w) (fsm_data w) (files w) (trace w ++ [e])).

Definition answer (m : outmsg) : py unit := emit (Answer m).

Module Sessions.

(** [user_id not in USER_SESSIONS or "access_token" not in USER_SESSIONS[user_id]] *)
Definition not_logged_in (user_id : Z) : py bool := fun w =>
  (Ok (match USER_SESSIONS w !! user_id with
       | None => true
       | Some d => match d !! "access_token" with None => true | Some _ => false end
       end), w).

(** [USER_SESSIONS[user_id][key]] *)
Definition read (user_id : Z) (key : string) : py pyval := fun w =>
  match USER_SESSIONS w !! user_id with
  | None => (Raise (KeyError (PInt user_id)), w)
  | Some d => match d !! key with
              | None => (Raise (KeyError (PStr key)), w)
              | Some v => (Ok v, w)
              end
  end.

(** [USER_SESSIONS[user_id][key] = v] *)
Definition write (user_id : Z) (key : string) (v : pyval) : py unit := fun w =>
  match USER_SESSIONS w !! user_id with
  | None => (Raise (KeyError (PInt user_id)), w)
  | Some d => (Ok tt, World (<[user_id := <[key := v]> d]> (USER_SESSIONS w))
                             (fsm w) (fsm_data w) (files w) (trace w))
  end.

(** [USER_SESSIONS[user_id] = d] *)
Definition replace (user_id : Z) (d : gmap string pyval) : py unit := fun w =>
  (Ok tt, World (<[user_id := d]> (USER_SESSIONS w))
                (fsm w) (fsm_data w) (files w) (trace w)).

(** [USER_SESSIONS[user_id][key] += 1] *)
Definition incr (user_id : Z) (key : string) : py unit :=
  v ← read user_id key;
  match v with
  | PInt n => write user_id key (PInt (n + 1))
  | _ => raise TypeError
  end.

(** The [Authorization] header built from the session's token. *)
Definition headers (user_id : Z) : py (option pyval) :=
  t ← read user_id "access_token"; mret (Some t).

End Sessions.

Module Fsm.

(** [await SomeState.set()] *)
Definition set (user_id : Z) (s : fsm_state) : py unit := fun w =>
  (Ok tt, World (USER_SESSIONS w) (<[user_id := s]> (fsm w)) (fsm_data w) (files w) (trace w)).

(** [await state.finish()]: the state and its data are dropped. *)
Definition finish (user_id : Z) : py unit := fun w =>
  (Ok tt, World (USER_SESSIONS w) (delete user_id (fsm w)) (delete user_id (fsm_data w))
                (files w) (trace w)).

(** [await state.get_state()] *)
Definition get_state (user_id : Z) : py (option fsm_state) := fun w =>
  (Ok (fsm w !! user_id), w).

(** [data[key] = v] under [state.proxy()] *)
Definition put (user_id : Z) (key : string) (v : pyval) : py unit := fun w =>
  (Ok tt, World (USER_SESSIONS w) (fsm w)
                (<[user_id := <[key := v]> (default ∅ (fsm_data w !! user_id))]> (fsm_data w))
                (files w) (trace w)).

(** [data[key]] under [state.proxy()] *)
Definition fetch (user_id : Z) (key : string) : py pyval := fun w =>
  match default ∅ (fsm_data w !! user_id) !! key with
  | Some v => (Ok v, w)
  | None => (Raise (KeyError (PStr key)), w)
  end.

End Fsm.

Module Files.

(** [tempfile.NamedTemporaryFile(delete=False, ...)]: a file is created
    under the name the system picked, and stays when it is closed. *)
Definition create (name : string) : py unit := fun w =>
  (Ok tt, World (USER_SESSIONS w) (fsm w) (fsm_data w) ({[name]} ∪ files w) (trace w)).

(** [open(path, 'rb')] *)
Definition open_rb (path : pyval) : py string := fun w =>
  match path with
  | PStr p => if decide (p ∈ files w) then (Ok p, w) else (Raise FileNotFoundError, w)
  | _ => (Raise TypeError, w)
  end.

(** [os.unlink(path)] *)
Definition unlink (path : string) : py unit := fun w =>
  if decide (path ∈ files w)
  then (Ok tt, World (USER_SESSIONS w) (fsm w) (fsm_data w) (files w ∖ {[path]}) (trace w))
  else (Raise FileNotFoundError, w).

End Files.

(** [await response.json()] *)
Definition json (r : response) : py pyval :=
  match body_of r with
  | Json v => mret v
  | NotJson => raise JSONDecodeError
  end.

Record message : Type := Message { from_user : Z; text : string }.
Record callback_query : Type := CallbackQuery { cb_from_user : Z; data : string }.

(** ** The handlers *)

Definition teacher_button : string := "👨‍🏫 Login as Teacher".
Definition student_button : string := "👨‍🎓 Login as Student".

(** An integer read from a session field. *)
Definition as_int (v : pyval) : py Z :=
  match v with
  | PInt n => mret n
  | _ => raise TypeError
  end.

(** A value on which a [str] method is called. *)
Definition as_str (v : pyval) : py string :=
  match v with
  | PStr s => mret s
  | _ => raise AttributeError
  end.

(** [s.split("_")[1]] and [s.split("_", 1)[1]] *)
Definition field1 (fields : list string) : py pyval :=
  match fields !! 1%nat with
  | Some f => mret (PStr f)
  | None => raise IndexError
  end.

Section Handlers.

(** The backend: what it answers to each request. *)
Variable api : request -> response.

Definition call (r : request) : py response :=
  emit (Call r);; mret (api r).

(** *** Authentication *)

Definition login_handler (m : message) : py unit :=
  let user_id := from_user m in
  Sessions.replace user_id
    {[ "role" := PStr (if contains "Teacher" (text m) then "teacher" else "student") ]};;
  Fsm.set user_id Auth_waiting_for_username;;
  answer (Text "Please enter your Attendo username:").

Definition process_username (m : message) : py unit :=
  let user_id := from_user m in
  Sessions.write user_id "username" (PStr (text m));;
  Fsm.set user_id Auth_waiting_for_password;;
  answer (Text "Please enter your password:").

Definition show_teacher_menu : py unit := answer TeacherMenu.
Definition show_student_menu : py unit := answer StudentMenu.

Definition process_password (m : message) : py unit :=
  let user_id := from_user m in
  username ← Sessions.read user_id "username";
  let password := PStr (text m) in
  role ← Sessions.read user_id "role";
  emit DeleteMessage;;
  resp ← call (Request ApiToken None
                 (PDict [("username", username); ("password", password)]));
  if status resp =? 200 then
    d ← json resp;
    access ← lift (PyVal.getitem_str d "access");
    Sessions.write user_id "access_token" access;;
    refresh ← lift (PyVal.getitem_str d "refresh");
    Sessions.write user_id "refresh_token" refresh;;
    Fsm.finish user_id;;
    if PyVal.eq_str role "teacher" then show_teacher_menu else show_student_menu
  else
    answer (Text "❌ Login failed. Please try again.");;
    Fsm.set user_id Auth_waiting_for_username;;
    answer (Text "Please enter your Attendo username:").

(** *** Teacher: the upload wizard *)

Definition upload_audio_handler (m : message) : py unit :=
  let user_id := from_user m in
  out ← Sessions.not_logged_in user_id;
  if out : bool then answer (Text "Please login first.")
  else
    h ← Sessions.headers user_id;
    resp ← call (Request ApiSubjects h PNone);
    if status resp =? 200 then
      subjects ← json resp;
      items ← lift (PyVal.iter subjects);
      buttons ← mapM (fun subject =>
                        name ← lift (PyVal.getitem_str subject "name");
                        id ← lift (PyVal.getitem_str subject "id");
                        mret (name, Fmt "subject_" id)) items;
      Fsm.set user_id Teacher_waiting_for_subject;;
      emit (AnswerButtons (Text "Please select a subject:") buttons)
    else answer (Text "❌ Failed to load subjects. Please try again later.").

Definition process_subject_selection (c : callback_query) : py unit :=
  let user_id := cb_from_user c in
  subject_id ← field1 (split "_" (data c));
  Fsm.put user_id "subject_id" subject_id;;
  emit (AnswerCallback None);;
  answer (Text "Please send an audio recording of your lesson.");;
  Fsm.set user_id Teacher_waiting_for_audio.

(** [temp_name] is the name the system gives the temporary file. *)
Definition process_audio (m : message) (temp_name : string) : py unit :=
  let user_id := from_user m in
  answer (Text "⏳ Downloading audio file...");;
  Files.create temp_name;;
  answer (Text "Please enter a title for this lesson:");;
  Fsm.set user_id Teacher_waiting_for_title;;
  Fsm.put user_id "audio_file_path" (PStr temp_name).

Definition process_title (m : message) : py unit :=
  let user_id := from_user m in
  Fsm.put user_id "title" (PStr (text m));;
  answer (Text "Please enter a brief description:");;
  Fsm.set user_id Teacher_waiting_for_description.

Definition process_description (m : message) : py unit :=
  let user_id := from_user m in
  Fsm.put user_id "description" (PStr (text m));;
  emit (AnswerButtons (Text "What type of content would you like to generate?")
          [(PStr "Flashcards Only", Lit "content_flashcards");
           (PStr "Quiz Only", Lit "content_quiz");
           (PStr "Both Flashcards and Quiz", Lit "content_both")]);;
  Fsm.set user_id Teacher_waiting_for_content_type.

Definition process_content_type (c : callback_query) : py unit :=
  let user_id := cb_from_user c in
  content_type ← field1 (split "_" (data c));
  Fsm.put user_id "content_type" content_type;;
  emit (AnswerCallback None);;
  answer (Text "How many items would you like to generate? (default: 10)");;
  Fsm.set user_id Teacher_waiting_for_count.

(** [count = int(message.text)], or 10 on [ValueError]. *)
Definition requested_count (t : string) : Z :=
  match py_int t with
  | Some n => n
  | None => 10
  end.

(** [subject_id] is the text [process_subject_selection] stored, on which
    [str(subject_id)] is the identity. *)
Definition process_count_and_upload (m : message) : py unit :=
  let user_id := from_user m in
  let count := requested_count (text m) in
  subject_id ← Fsm.fetch user_id "subject_id";
  audio_file_path ← Fsm.fetch user_id "audio_file_path";
  title ← Fsm.fetch user_id "title";
  description ← Fsm.fetch user_id "description";
  content_type ← Fsm.fetch user_id "content_type";
  answer (Text "⏳ Uploading audio file and generating content... This may take a minute.");;
  h ← Sessions.headers user_id;
  f ← Files.open_rb audio_file_path;
  resp ← call (Request ApiUpload h
                 (PDict [("file", PStr f); ("title", title);
                         ("description", description); ("subject_id", subject_id)]));
  if status resp =? 201 then
    audio_data ← json resp;
    audio_id ← lift (PyVal.getitem_str audio_data "id");
    let gen_data := PDict [("input_type", PStr "audio"); ("content_type", content_type);
                           ("audio_id", audio_id); ("count", PInt count);
                           ("subject_id", subject_id)] in
    gen_response ← call (Request ApiGenerate h gen_data);
    if status gen_response =? 201 then
      gen_result ← json gen_response;
      flashcard_count ←
        (if PyVal.eq_str content_type "flashcards" || PyVal.eq_str content_type "both"
         then n ← lift (PyVal.get gen_result "flashcard_count" (PInt 0)); mret (Some n)
         else mret None);
      question_count ←
        (if PyVal.eq_str content_type "quiz" || PyVal.eq_str content_type "both"
         then n ← lift (PyVal.get gen_result "question_count" (PInt 0)); mret (Some n)
         else mret None);
      answer (Generated flashcard_count question_count);;
      Files.unlink f;;
      Fsm.finish user_id;;
      show_teacher_menu
    else
      error_data ← json gen_response;
      err ← lift (PyVal.get error_data "error" (PStr "Unknown error"));
      answer (GenerationFailed err)
  else
    error_data ← json resp;
    err ← lift (PyVal.get error_data "error" (PStr "Unknown error"));
    answer (UploadFailed err).

(** *** Student: card review *)

Definition show_current_flashcard (user_id : Z) : py unit :=
  flashcards ← Sessions.read user_id "current_flashcards";
  current_index ← Sessions.read user_id "current_index" ≫= as_int;
  n ← lift (PyVal.len flashcards);
  if current_index >=? n then
    answer (Text "You've reviewed all the flashcards in this session! 🎉");;
    show_student_menu
  else
    current_card ← lift (PyVal.getitem_int flashcards current_index);
    definition ← lift (PyVal.getitem_str current_card "definition");
    emit (AnswerButtons (CardFront (current_index + 1) n definition)
            [(PStr "Show Answer", Lit "show_answer"); (PStr "Skip", Lit "skip_card")]).

(** [learn_new_flashcards_handler] and [review_flashcards_handler] differ
    in the text they send, the endpoint they read and the state they set. *)
Definition load_flashcards (loading : string) (ep : endpoint) (nothing : string)
    (s : fsm_state) (m : message) : py unit :=
  let user_id := from_user m in
  out ← Sessions.not_logged_in user_id;
  if out : bool then answer (Text "Please login first.")
  else
    answer (Text loading);;
    h ← Sessions.headers user_id;
    resp ← call (Request ep h PNone);
    if status resp =? 200 then
      flashcards ← json resp;
      if negb (PyVal.truthy flashcards) then answer (Text nothing)
      else
        Sessions.write user_id "current_flashcards" flashcards;;
        Sessions.write user_id "current_index" (PInt 0);;
        Fsm.set user_id s;;
        show_current_flashcard user_id
    else answer (Text "❌ Failed to load flashcards. Please try again later.").

Definition learn_new_flashcards_handler : message -> py unit :=
  load_flashcards "⏳ Loading new flashcards..." ApiNewCards
    "You don't have any new flashcards to learn. Try reviewing existing ones!"
    Student_in_learning_session.

Definition review_flashcards_handler : message -> py unit :=
  load_flashcards "⏳ Loading flashcards due for review..." ApiDueReviews
    "You don't have any flashcards due for review!"
    Student_in_review_session.

Definition show_answer_handler (c : callback_query) : py unit :=
  let user_id := cb_from_user c in
  flashcards ← Sessions.read user_id "current_flashcards";
  current_index ← Sessions.read user_id "current_index" ≫= as_int;
  current_card ← lift (PyVal.getitem_int flashcards current_index);
  n ← lift (PyVal.len flashcards);
  definition ← lift (PyVal.getitem_str current_card "definition");
  term ← lift (PyVal.getitem_str current_card "term");
  emit (EditMessage (CardBack (current_index + 1) n definition term)
          [(PStr "I knew it ✅", Lit "knew_it");
           (PStr "Still learning ❌", Lit "learning")]).

Definition skip_card_handler (c : callback_query) : py unit :=
  let user_id := cb_from_user c in
  Sessions.incr user_id "current_index";;
  emit (AnswerCallback None);;
  emit DeleteMessage;;
  show_current_flashcard user_id.

(** [knew_it_handler] ([knew = true]) and [still_learning_handler]
    ([knew = false]): the grade goes to [swipe] in a learning session and
    to [review] otherwise; the backend's answer is not looked at. *)
Definition grade_handler (knew : bool) (c : callback_query) : py unit :=
  let user_id := cb_from_user c in
  flashcards ← Sessions.read user_id "current_flashcards";
  current_index ← Sessions.read user_id "current_index" ≫= as_int;
  current_card ← lift (PyVal.getitem_int flashcards current_index);
  h ← Sessions.headers user_id;
  st ← Fsm.get_state user_id;
  card_id ← lift (PyVal.getitem_str current_card "id");
  (if decide (st = Some Student_in_learning_session)
   then call (Request (ApiSwipe card_id) h
                (PDict [("direction", PStr (if knew then "left" else "right"))]))
   else call (Request (ApiReview card_id) h
                (PDict [("was_correct", PBool knew)])));;
  Sessions.incr user_id "current_index";;
  emit (AnswerCallback None);;
  emit DeleteMessage;;
  answer (Text (if knew then "👍 Great job! Marked as known."
                else "📝 No problem! This card will come back for review."));;
  show_current_flashcard user_id.

Definition knew_it_handler : callback_query -> py unit := grade_handler true.
Definition still_learning_handler : callback_query -> py unit := grade_handler false.

(** *** Student: quizzes *)

Definition take_quiz_handler (m : message) : py unit :=
  let user_id := from_user m in
  out ← Sessions.not_logged_in user_id;
  if out : bool then answer (Text "Please login first.")
  else
    h ← Sessions.headers user_id;
    resp ← call (Request ApiAllQuizzes h PNone);
    if status resp =? 200 then
      quizzes ← json resp;
      if negb (PyVal.truthy quizzes) then answer (Text "No quizzes available at the moment.")
      else
        items ← lift (PyVal.iter quizzes);
        buttons ← mapM (fun quiz =>
                          title ← lift (PyVal.getitem_str quiz "title");
                          id ← lift (PyVal.getitem_str quiz "id");
                          mret (title, Fmt "quiz_" id)) items;
        emit (AnswerButtons (Text "Select a quiz to take:") buttons)
    else answer (Text "❌ Failed to load quizzes. Please try again later.").

(** [(correct / total) * 100] *)
Definition percentage_of (correct total : Z) : py float :=
  ratio ← lift (PyFloat.int_truediv correct total);
  mret (PyFloat.mul ratio (PyFloat.of_int 100)).

Definition show_quiz_question (user_id : Z) : py unit :=
  quiz ← Sessions.read user_id "current_quiz";
  current_question_idx ← Sessions.read user_id "current_question" ≫= as_int;
  questions ← lift (PyVal.getitem_str quiz "questions");
  n ← lift (PyVal.len questions);
  if current_question_idx >=? n then
    correct ← Sessions.read user_id "correct_answers" ≫= as_int;
    let total := n in
    percentage ← percentage_of correct total;
    answer (QuizCompleted correct total percentage);;
    h ← Sessions.headers user_id;
    quiz_id ← lift (PyVal.getitem_str quiz "id");
    call (Request (ApiQuizComplete quiz_id) h
            (PDict [("quiz_id", quiz_id); ("score", PFloat percentage);
                    ("completed", PBool true)]));;
    answer (Text "Returning to the main menu.");;
    show_student_menu
  else
    current_question ← lift (PyVal.getitem_int questions current_question_idx);
    options ← lift (PyVal.getitem_str current_question "options") ≫= (fun o => lift (PyVal.iter o));
    let buttons := map (fun option => (option, Fmt "option_" option)) options in
    question_text ← lift (PyVal.getitem_str current_question "question_text");
    emit (AnswerButtons (QuizQuestion (current_question_idx + 1) n question_text) buttons).

Definition start_quiz (c : callback_query) : py unit :=
  let user_id := cb_from_user c in
  quiz_id ← field1 (split "_" (data c)) ≫= as_str;
  h ← Sessions.headers user_id;
  resp ← call (Request (ApiQuiz quiz_id) h PNone);
  if status resp =? 200 then
    quiz ← json resp;
    Sessions.write user_id "current_quiz" quiz;;
    Sessions.write user_id "current_question" (PInt 0);;
    Sessions.write user_id "correct_answers" (PInt 0);;
    emit (AnswerCallback None);;
    emit DeleteMessage;;
    title ← lift (PyVal.getitem_str quiz "title");
    description ← lift (PyVal.get quiz "description" (PStr ""));
    answer (StartingQuiz title description);;
    show_quiz_question user_id
  else emit (AnswerCallback (Some "Failed to load quiz. Please try again.")).

(** The grading test of [quiz_answer_handler]. *)
Definition matches (selected_option correct_answer : string) : bool :=
  String.eqb (py_lower (py_strip selected_option)) (py_lower (py_strip correct_answer)).

Definition quiz_answer_handler (c : callback_query) : py unit :=
  let user_id := cb_from_user c in
  quiz ← Sessions.read user_id "current_quiz";
  current_question_idx ← Sessions.read user_id "current_question" ≫= as_int;
  questions ← lift (PyVal.getitem_str quiz "questions");
  current_question ← lift (PyVal.getitem_int questions current_question_idx);
  selected_option ← field1 (split1 "_" (data c)) ≫= as_str;
  correct_answer ← lift (PyVal.getitem_str current_question "correct_answer") ≫= as_str;
  (if matches selected_option correct_answer
   then Sessions.incr user_id "correct_answers"
   else mret tt);;
  Sessions.incr user_id "current_question";;
  emit (AnswerCallback None);;
  emit DeleteMessage;;
  show_quiz_question user_id.

(** *** Routing of button taps

    The callback handlers in the order they are registered, each behind
    its filter. A handler registered without [state=] runs only when the
    user has no state. An exception ends the handler; what it had written
    stays. *)
Definition in_card_session (st : option fsm_state) : bool :=
  bool_decide (st = Some Student_in_learning_session) ||
  bool_decide (st = Some Student_in_review_session).

Definition route_callback (c : callback_query) : py unit :=
  st ← Fsm.get_state (cb_from_user c);
  if startswith "subject_" (data c) && bool_decide (st = Some Teacher_waiting_for_subject)
  then process_subject_selection c
  else if startswith "content_" (data c) && bool_decide (st = Some Teacher_waiting_for_content_type)
  then process_content_type c
  else if String.eqb (data c) "show_answer" && in_card_session st then show_answer_handler c
  else if String.eqb (data c) "skip_card" && in_card_session st then skip_card_handler c
  else if String.eqb (data c) "knew_it" && in_card_session st then knew_it_handler c
  else if String.eqb (data c) "learning" && in_card_session st then still_learning_handler c
  else if startswith "quiz_" (data c) && bool_decide (st = None) then start_quiz c
  else if startswith "option_" (data c) && bool_decide (st = None) then quiz_answer_handler c
  else mret tt.

(** The world after a button tap, whatever the handler's outcome. *)
Definition tap (w : world) (c : callback_query) : world := snd (route_callback c w).

Definition taps (w : world) (cs : list callback_query) : world := fold_left tap cs w.

End Handlers.

(** * What the properties talk about *)

(** ** Outcome and world of a handler *)

Definition run {A} (m : py A) (w : world) : outcome A := fst (m w).
Definition after {A} (m : py A) (w : world) : world := snd (m w).

(** The world [w] once the events [es] went out. *)
Definition say (w : world) (es : list event) : world :=
  World (USER_SESSIONS w) (fsm w) (fsm_data w) (files w) (trace w ++ es).

(** The world [w] with the session table [s]. *)
Definition with_sessions (w : world) (s : gmap Z (gmap string pyval)) : world :=
  World s (fsm w) (fsm_data w) (files w) (trace w).

(** A computation that only talks reads the world and sends events;
    sessions, FSM storage and files are as they were when it ends, also when
    it raises. *)
Definition talks {A} (m : py A) : Prop :=
  forall w : world, exists es : list event, snd (m w) = say w es.

(** ** The requests of the login and of the upload wizard *)

Definition token_request (m : message) (username : pyval) : request :=
  Request ApiToken None (PDict [("username", username); ("password", PStr (text m))]).

Definition upload_request (token subject_id title description : pyval) (path : string)
    : request :=
  Request ApiUpload (Some token)
    (PDict [("file", PStr path); ("title", title);
            ("description", description); ("subject_id", subject_id)]).

Definition generate_request (token subject_id content_type audio_id : pyval) (count : Z)
    : request :=
  Request ApiGenerate (Some token)
    (PDict [("input_type", PStr "audio"); ("content_type", content_type);
            ("audio_id", audio_id); ("count", PInt count); ("subject_id", subject_id)]).

Definition uploading : event :=
  Answer (Text "⏳ Uploading audio file and generating content... This may take a minute.").

(** What [process_count_and_upload] does with the answer to the generation
    request. *)
Definition after_generate (m : message) (content_type : pyval) (path : string)
    (gen_response : response) : py unit :=
  if status gen_response =? 201 then
    gen_result ← json gen_response;
    flashcard_count ←
      (if PyVal.eq_str content_type "flashcards" || PyVal.eq_str content_type "both"
       then n ← lift (PyVal.get gen_result "flashcard_count" (PInt 0)); mret (Some n)
       else mret None);
    question_count ←
      (if PyVal.eq_str content_type "quiz" || PyVal.eq_str content_type "both"
       then n ← lift (PyVal.get gen_result "question_count" (PInt 0)); mret (Some n)
       else mret None);
    answer (Generated flashcard_count question_count);;
    Files.unlink path;;
    Fsm.finish (from_user m);;
    show_teacher_menu
  else
    error_data ← json gen_response;
    err ← lift (PyVal.get error_data "error" (PStr "Unknown error"));
    answer (GenerationFailed err).

(** What it does with the answer to the upload request. *)
Definition after_upload (api : request -> response) (m : message)
    (token subject_id content_type : pyval) (path : string) (resp : response) : py unit :=
  if status resp =? 201 then
    audio_data ← json resp;
    audio_id ← lift (PyVal.getitem_str audio_data "id");
    gen_response ← call api (generate_request token subject_id content_type audio_id
                               (requested_count (text m)));
    after_generate m content_type path gen_response
  else
    error_data ← json resp;
    err ← lift (PyVal.get error_data "error" (PStr "Unknown error"));
    answer (UploadFailed err).

(** ** Card sessions *)

(** The three actions that move to the next card. *)
Inductive card_action : Type := Skip | KnewIt | StillLearning.

Definition action_data (a : card_action) : string :=
  match a with
  | Skip => "skip_card"
  | KnewIt => "knew_it"
  | StillLearning => "learning"
  end.

Definition press (user_id : Z) (a : card_action) : callback_query :=
  CallbackQuery user_id (action_data a).

(** A card session of [user_id] over the batch [cards], at cursor [i]. *)
Definition card_session (w : world) (user_id : Z) (cards : list pyval) (i : Z) : Prop :=
  exists d : gmap string pyval,
    USER_SESSIONS w !! user_id = Some d /\
    d !! "current_flashcards" = Some (PList cards) /\
    d !! "current_index" = Some (PInt i) /\
    is_Some (d !! "access_token") /\
    in_card_session (fsm w !! user_id) = true.

(** The cursor of the session, as the handlers read it. *)
Definition cursor (w : world) (user_id : Z) : option pyval :=
  USER_SESSIONS w !! user_id ≫= (fun d => d !! "current_index").

(** ** Quiz attempts *)

(** The tap on the button of option [s]: its data is [f"option_{s}"]. *)
Definition choose (user_id : Z) (s : string) : callback_query :=
  CallbackQuery user_id ("option_" ++ s).

(** The world after the options [sels] were tapped one after the other. *)
Definition answer_all (api : request -> response) (user_id : Z)
    (w : world) (sels : list string) : world :=
  fold_left (fun w s => after (quiz_answer_handler api (choose user_id s)) w) sels w.

(** How many of the selected options match the answer of their question. *)
Fixpoint count_correct (sels answers : list string) : Z :=
  match sels, answers with
  | s :: sels', a :: answers' => (if matches s a then 1 else 0) + count_correct sels' answers'
  | _, _ => 0
  end.

(** A quiz attempt of [user_id] on [quiz], at question [idx] with [c]
    answers counted correct. *)
Definition quiz_attempt (w : world) (user_id : Z) (quiz : pyval) (idx c : Z) : Prop :=
  exists d : gmap string pyval,
    USER_SESSIONS w !! user_id = Some d /\
    d !! "current_quiz" = Some quiz /\
    d !! "current_question" = Some (PInt idx) /\
    d !! "correct_answers" = Some (PInt c).

(** The completion message for [c] correct answers, when [c / total] is
    the double [ratio]. *)
Definition reported (questions : list pyval) (c : Z) (ratio : float) : event :=
  Answer (QuizCompleted c (Z.of_nat (length questions))
            (PyFloat.mul ratio (PyFloat.of_int 100))).

(** ** Disciplines of a handler

    [sends P m]: whatever the world and the outcome, [m] only adds events to
    the trace, and each of them satisfies [P]. *)
Definition sends {A} (P : event -> Prop) (m : py A) : Prop :=
  forall w : world, exists es : list event,
    trace (snd (m w)) = (trace w ++ es)%list /\ Forall P es.

(** [local u m]: [m] leaves the session, the flow state and the draft of
    every user but [u] as they are. *)
Definition local {A} (u : Z) (m : py A) : Prop :=
  forall (w : world) (v : Z), v <> u ->
    USER_SESSIONS (snd (m w)) !! v = USER_SESSIONS w !! v /\
    fsm (snd (m w)) !! v = fsm w !! v /\
    fsm_data (snd (m w)) !! v = fsm_data w !! v.

(** A request to the backend. *)
Definition is_call (e : event) : bool :=
  match e with
  | Call _ => true
  | _ => false
  end.

(** What the password step may send: the deletion of the password message,
    the token request, the two texts of a failed login and the two menus. *)
Definition password_step_event (e : event) : Prop :=
  match e with
  | DeleteMessage => True
  | Call r => endpoint_of r = ApiToken
  | Answer (Text t) =>
      t = "❌ Login failed. Please try again." \/ t = "Please enter your Attendo username:"
  | Answer TeacherMenu | Answer StudentMenu => True
  | _ => False
  end.

(** The text of [s] before its first [_]: what [("x_" + s).split("_")[1]] is. *)
Fixpoint first_field (s : string) : string :=
  match s with
  | EmptyString => EmptyString
  | String c r => if Ascii.eqb c "_" then EmptyString else String c (first_field r)
  end.

(** The request a grade sends for the card [card_id]: [swipe] in a learning
    session, [review] in any other state. *)
Definition grade_request (st : option fsm_state) (knew : bool)
    (token : pyval) (card_id : pyval) : request :=
  if decide (st = Some Student_in_learning_session)
  then Request (ApiSwipe card_id) (Some token)
         (PDict [("direction", PStr (if knew then "left" else "right"))])
  else Request (ApiReview card_id) (Some token) (PDict [("was_correct", PBool knew)]).

(** The text that acknowledges a grade. *)
Definition grade_ack (knew : bool) : event :=
  Answer (Text (if knew then "👍 Great job! Marked as known."
                else "📝 No problem! This card will come back for review.")).

(** The world of a card session once the cursor of [u], which was [i],
    has moved by one and the events [es] went out. *)
Definition moved_on (w : world) (u : Z) (d : gmap string pyval) (i : Z)
    (es : list event) : world :=
  World (<[u := <["current_index" := PInt (i + 1)]> d]> (USER_SESSIONS w))
        (fsm w) (fsm_data w) (files w) (trace w ++ es).

(** The two buttons under the front of a card. *)
Definition front_buttons : list (pyval * cbdata) :=
  [(PStr "Show Answer", Lit "show_answer"); (PStr "Skip", Lit "skip_card")].

(** The characters a text that [int] accepts is made of: digits, [_], the
    two signs and the whitespace that [int] skips. *)
Definition count_char (c : ascii) : bool :=
  is_digit c || Ascii.eqb c "_" || Ascii.eqb c "+" || Ascii.eqb c "-" || is_int_space c.

(** The scores that the completion messages of a trace report: count, number
    of questions and percentage. *)
Definition reported_scores (es : list event) : list (Z * Z * float) :=
  flat_map (fun e => match e with
                     | Answer (QuizCompleted c total p) => [(c, total, p)]
                     | _ => []
                     end) es.

(** The scores that the requests of a trace post to the completion
    endpoint: the [score] entry of their bodies. *)
Definition posted_scores (es : list event) : list pyval :=
  flat_map (fun e => match e with
                     | Call (Request (ApiQuizComplete _) _ (PDict kv)) =>
                         match PyVal.dict_lookup kv "score" with
                         | Some v => [v]
                         | None => []
                         end
                     | _ => []
                     end) es.

(** ** The words of the specification

    What the specification means by "equal after trimming whitespace and
    folding case" and by "the text parses as an integer", said without the
    functions of the code: these relations are what [matches] and [py_int]
    are compared with. *)

Definition first_char (s : string) : option ascii :=
  match s with
  | String c _ => Some c
  | EmptyString => None
  end.

Fixpoint last_char (s : string) : option ascii :=
  match s with
  | EmptyString => None
  | String c EmptyString => Some c
  | String _ r => last_char r
  end.

(** The text is made of characters of the class [cls] (given by their
    codes) only. *)
Definition spec_all (cls : list nat) (s : string) : Prop :=
  Forall (fun c => In (nat_of_ascii c) cls) (list_ascii_of_string s).

(** [t] is [s] without the characters of the class [cls] at its two ends:
    [s] is [t] with such characters around it, and [t] neither begins nor
    ends with one. *)
Definition spec_stripped (cls : list nat) (s t : string) : Prop :=
  exists l r : string,
    s = l ++ t ++ r /\ spec_all cls l /\ spec_all cls r /\
    (forall c, first_char t = Some c -> ~ In (nat_of_ascii c) cls) /\
    (forall c, last_char t = Some c -> ~ In (nat_of_ascii c) cls).

(** Whitespace, for a text: TAB, LF, VT, FF, CR, FS, GS, RS, US, SPACE. *)
Definition spec_whitespace : list nat := [9; 10; 11; 12; 13; 28; 29; 30; 31; 32]%nat.

(** The same letter, in either case, or the same character. *)
Definition spec_same_letter (c d : ascii) : Prop :=
  let m := nat_of_ascii c in
  let n := nat_of_ascii d in
  (m = n \/ (65 <= m <= 90 /\ n = m + 32) \/ (65 <= n <= 90 /\ m = n + 32))%nat.

(** The two texts are equal but for the case of their letters. *)
Definition spec_same_letters (t u : string) : Prop :=
  Forall2 spec_same_letter (list_ascii_of_string t) (list_ascii_of_string u).

(** The selected option equals the correct answer after trimming
    whitespace and folding case on both sides. *)
Definition spec_same_answer (s a : string) : Prop :=
  exists t u : string,
    spec_stripped spec_whitespace s t /\ spec_stripped spec_whitespace a u /\
    spec_same_letters t u.

(** The decimal digit [c] and its value. *)
Definition spec_digit (c : ascii) (v : Z) : Prop :=
  0 <= v <= 9 /\ Z.of_nat (nat_of_ascii c) = 48 + v.

(** Decimal digits, the most significant first, where a single [_] may
    stand between two digits: the text and its digits. *)
Inductive spec_digits : string -> list Z -> Prop :=
| spec_digits_one c v :
    spec_digit c v -> spec_digits (String c "") [v]
| spec_digits_next c v s vs :
    spec_digit c v -> spec_digits s vs -> spec_digits (String c s) (v :: vs)
| spec_digits_group c v s vs :
    spec_digit c v -> spec_digits s vs -> spec_digits (String c (String "_" s)) (v :: vs).

Definition spec_value (vs : list Z) : Z := fold_left (fun n v => 10 * n + v) vs 0.

(** The blanks that may stand around a numeral: TAB, LF, VT, FF, CR, SPACE. *)
Definition spec_blank : list nat := [9; 10; 11; 12; 13; 32]%nat.

(** The text [t] is the integer [n]: a decimal numeral, with or without a
    sign in front of it, and blanks around it at most. *)
Definition spec_integer_text (t : string) (n : Z) : Prop :=
  exists (l r sign body : string) (vs : list Z),
    t = l ++ sign ++ body ++ r /\ spec_all spec_blank l /\ spec_all spec_blank r /\
    spec_digits body vs /\
    (sign = "" /\ n = spec_value vs \/ sign = "+" /\ n = spec_value vs \/
     sign = "-" /\ n = - spec_value vs).

(** The longest text of a Telegram message, in characters. CPython from
    3.11 on refuses numerals of more than 4300 digits; no message text is
    that long. *)
Definition max_message_length : nat := 4096.

(** ** Sample inputs *)

(** Sample inputs: user 7, logged in as a student. *)
Module Sample.

Definition alice : Z := 7.

Definition session : gmap string pyval :=
  {[ "role" := PStr "student"; "username" := PStr "alice";
     "access_token" := PStr "tok-a"; "refresh_token" := PStr "tok-r" ]}.

Definition logged_in : world :=
  World {[ alice := session ]} ∅ ∅ ∅ [].

End Sample.

Module SampleLogin.

Definition awaiting_password : world :=
  World {[ Sample.alice := {[ "role" := PStr "student"; "username" := PStr "alice" ]} ]}
        {[ Sample.alice := Auth_waiting_for_password ]} ∅ ∅ [].

Definition tokens : pyval :=
  PDict [("refresh", PStr "tok-r"); ("access", PStr "tok-a")].

(** A backend that answers every request with the given status and a
    token pair. *)
Definition backend (st : Z) : request -> response := fun _ => Response st (Json tokens).

Definition secret : message := Message Sample.alice "s3cret".

End SampleLogin.

(** A teacher (user 9) who went through the wizard up to the count. *)
Module SampleUpload.

Definition teacher : Z := 9.
Definition temp_file : string := "/tmp/tmpq3x7.ogg".

Definition session : gmap string pyval :=
  {[ "role" := PStr "teacher"; "username" := PStr "bob";
     "access_token" := PStr "tok-t"; "refresh_token" := PStr "tok-u" ]}.

Definition logged_in : world := World {[ teacher := session ]} ∅ ∅ ∅ [].

(** The draft the wizard has collected when it asks for the count. *)
Definition draft : gmap string pyval :=
  {[ "subject_id" := PStr "3"; "audio_file_path" := PStr temp_file;
     "title" := PStr "Lesson 1"; "description" := PStr "Cells and tissues";
     "content_type" := PStr "both" ]}.

(** A backend that lists one subject and answers the upload and the
    generation request as given. *)
Definition backend (upload generate : response) (r : request) : response :=
  match endpoint_of r with
  | ApiSubjects => Response 200 (Json (PList [PDict [("id", PInt 3); ("name", PStr "Biology")]]))
  | ApiUpload => upload
  | ApiGenerate => generate
  | _ => Response 404 NotJson
  end.

Definition at_count (api : request -> response) : world :=
  after (process_content_type (CallbackQuery teacher "content_both"))
    (after (process_description (Message teacher "Cells and tissues"))
       (after (process_title (Message teacher "Lesson 1"))
          (after (process_audio (Message teacher "") temp_file)
             (after (process_subject_selection (CallbackQuery teacher "subject_3"))
                (after (upload_audio_handler api
                          (Message teacher "📝 Upload Audio for Content Generation"))
                   logged_in))))).

Definition created : response := Response 201 (Json (PDict [("id", PInt 41)])).
Definition generated : response :=
  Response 201 (Json (PDict [("flashcard_count", PInt 10); ("question_count", PInt 4)])).

(** The upload is refused with an error message in a JSON body. *)
Definition refused : response :=
  Response 500 (Json (PDict [("error", PStr "storage unavailable")])).
Definition refusing : request -> response := backend refused generated.

(** The upload is refused with a body that is not JSON. *)
Definition failing : request -> response := backend (Response 502 NotJson) generated.

Definition count_5 : message := Message teacher "5".

Definition is_generate (e : event) : bool :=
  match e with
  | Call (Request ApiGenerate _ _) => true
  | _ => false
  end.

Definition is_failure_text (e : event) : bool :=
  match e with
  | Answer (UploadFailed _) | Answer (GenerationFailed _) => true
  | _ => false
  end.

End SampleUpload.

(** A student (user 7) who starts learning a batch of one card. *)
Module SampleCards.

Definition card : pyval :=
  PDict [("id", PInt 1); ("term", PStr "mitosis"); ("definition", PStr "cell division")].

Definition backend (r : request) : response :=
  match endpoint_of r with
  | ApiNewCards => Response 200 (Json (PList [card]))
  | _ => Response 200 (Json (PDict []))
  end.

Definition started : world :=
  after (learn_new_flashcards_handler backend (Message Sample.alice "📚 Learn New Flashcards"))
    Sample.logged_in.

Definition skip : callback_query := press Sample.alice Skip.

End SampleCards.

(** A student (user 7) and two quizzes: one of two questions, one of none. *)
Module SampleQuiz.

Definition capitals : pyval :=
  PDict [("id", PInt 5); ("title", PStr "Capitals"); ("description", PStr "A warm-up");
         ("questions",
          PList [PDict [("question_text", PStr "Capital of France?");
                        ("options", PList [PStr "Paris"; PStr "Rome"]);
                        ("correct_answer", PStr "Paris")];
                 PDict [("question_text", PStr "2 + 2?");
                        ("options", PList [PStr "3"; PStr "4"]);
                        ("correct_answer", PStr "4")]])].

Definition no_questions : pyval :=
  PDict [("id", PInt 6); ("title", PStr "Draft"); ("questions", PList [])].

Definition backend (r : request) : response :=
  match endpoint_of r with
  | ApiAllQuizzes =>
      Response 200 (Json (PList [PDict [("id", PInt 5); ("title", PStr "Capitals")];
                                 PDict [("id", PInt 6); ("title", PStr "Draft")]]))
  | ApiQuiz "5" => Response 200 (Json capitals)
  | ApiQuiz "6" => Response 200 (Json no_questions)
  | _ => Response 404 NotJson
  end.

(** The attempt on the first quiz, once it is selected. *)
Definition started : world :=
  after (start_quiz backend (CallbackQuery Sample.alice "quiz_5")) Sample.logged_in.

Definition questions : list pyval :=
  match PyVal.getitem_str capitals "questions" with
  | Ok (PList l) => l
  | _ => []
  end.

(** A quiz of twenty questions, and the attempt in which eleven of them are
    answered right. *)
Definition sum : pyval :=
  PDict [("question_text", PStr "2 + 2?"); ("options", PList [PStr "3"; PStr "4"]);
         ("correct_answer", PStr "4")].

Definition sums : pyval :=
  PDict [("id", PInt 8); ("title", PStr "Sums"); ("questions", PList (repeat sum 20))].

Definition sums_backend (r : request) : response :=
  match endpoint_of r with
  | ApiQuiz "8" => Response 200 (Json sums)
  | _ => Response 404 NotJson
  end.

Definition sums_started : world :=
  after (start_quiz sums_backend (CallbackQuery Sample.alice "quiz_8")) Sample.logged_in.

Definition eleven_right : list string := (repeat "4" 11 ++ repeat "3" 9)%list.

End SampleQuiz.

(** More outcomes of the upload wizard. *)
Module SampleOutcomes.

(** Both requests succeed. *)
Definition all_good : request -> response :=
  SampleUpload.backend SampleUpload.created SampleUpload.generated.

(** The upload succeeds, the generation is refused without a message. *)
Definition no_generation : request -> response :=
  SampleUpload.backend SampleUpload.created (Response 500 (Json (PDict []))).

(** The wizard at the count step, with the temporary file gone from disk. *)
Definition lost_file : world :=
  World (USER_SESSIONS (SampleUpload.at_count all_good)) (fsm (SampleUpload.at_count all_good))
        (fsm_data (SampleUpload.at_count all_good)) ∅ (trace (SampleUpload.at_count all_good)).

End SampleOutcomes.

(** * Properties *)

(** ** Strings *)

Example strip_ex : py_strip "  paris
 " = "paris".
Proof. reflexivity. Qed.

Example int_ex :
  py_int "25" = Some 25 /\ py_int " -7 " = Some (-7) /\ py_int "1_000" = Some 1000 /\
  py_int "007" = Some 7 /\ py_int "-0" = Some 0 /\
  py_int "abc" = None /\ py_int "" = None /\ py_int "1__0" = None /\
  py_int "5_" = None /\ py_int "3.5" = None /\ py_int "+ 4" = None /\
  py_int "--5" = None /\ py_int "+_5" = None /\ py_int " " = None.
Proof. repeat split; reflexivity. Qed.

(** The separator FS (code 28) is whitespace for [strip] and not for
    [int]. *)
Example separator_ex :
  let fs := String (ascii_of_nat 28) "" in
  py_strip (fs ++ "5") = "5" /\ py_int (fs ++ "5") = None /\ py_int ("5" ++ fs) = None.
Proof. repeat split; reflexivity. Qed.

Example float_ex :
  PyFloat.int_truediv 11 20 = Ok (S754_finite false 4953959590107546 (-53)) /\
  PyFloat.int_truediv 1 0 = Raise ZeroDivisionError /\
  PyFloat.int_truediv 0 (-5) = Ok (S754_zero true) /\
  PyFloat.int_truediv (10 ^ 400) 1 = Raise OverflowError /\
  PyFloat.of_int 100 = S754_finite false 7036874417766400 (-46) /\
  PyFloat.mul (PyFloat.of_int 1) (PyFloat.of_int 100) = PyFloat.of_int 100.
Proof. repeat split; vm_compute; reflexivity. Qed.

Example split_ex :
  split "_" "quiz_12_x" = ["quiz"; "12"; "x"] /\
  split1 "_" "option_a_b" = ["option"; "a_b"] /\
  split1 "_" "plain" = ["plain"].
Proof. repeat split; reflexivity. Qed.

Lemma append_cons (c : ascii) (s t : string) : String c s ++ t = String c (s ++ t).
Proof. reflexivity. Qed.

Lemma append_nil_r (s : string) : s ++ "" = s.
Proof. induction s as [|c s IH]; [reflexivity|]. now rewrite append_cons, IH. Qed.

Lemma append_assoc (s t u : string) : (s ++ t) ++ u = s ++ t ++ u.
Proof. induction s as [|c s IH]; [reflexivity|]. now rewrite !append_cons, IH. Qed.

Lemma last_char_cons (c : ascii) (s : string) :
  s <> "" -> last_char (String c s) = last_char s.
Proof. now destruct s. Qed.

Section Strip.

Variable space : ascii -> bool.
Variable cls : list nat.
Hypothesis space_cls : forall c, space c = true <-> In (nat_of_ascii c) cls.

Local Abbreviation blank := (spec_all cls).
Local Abbreviation clean c := (~ In (nat_of_ascii c) cls).

Lemma blank_nil : blank "".
Proof. constructor. Qed.

Lemma blank_cons (c : ascii) (s : string) :
  blank (String c s) <-> space c = true /\ blank s.
Proof.
  unfold spec_all. cbn [list_ascii_of_string]. rewrite Forall_cons, space_cls. reflexivity.
Qed.

Lemma clean_space (c : ascii) : clean c <-> space c = false.
Proof. rewrite <- space_cls. now destruct (space c). Qed.

Lemma lstrip_blank (r : string) : blank r -> lstrip space r = "".
Proof.
  induction r as [|c r IH]; [reflexivity|].
  intros [Hc Hr]%blank_cons. cbn [lstrip]. rewrite Hc. now apply IH.
Qed.

Lemma lstrip_app_blank (l x : string) : blank l -> lstrip space (l ++ x) = lstrip space x.
Proof.
  induction l as [|c l IH]; [reflexivity|].
  intros [Hc Hl]%blank_cons. rewrite append_cons. cbn [lstrip]. rewrite Hc. now apply IH.
Qed.

Lemma lstrip_clean (t : string) :
  (forall c, first_char t = Some c -> clean c) -> lstrip space t = t.
Proof.
  destruct t as [|c t]; [reflexivity|]. intros H. cbn [lstrip].
  now rewrite (proj1 (clean_space c) (H c eq_refl)).
Qed.

Lemma rstrip_blank (r : string) : blank r -> rstrip space r = "".
Proof.
  induction r as [|c r IH]; [reflexivity|].
  intros [Hc Hr]%blank_cons. cbn [rstrip]. now rewrite (IH Hr), Hc.
Qed.

Lemma rstrip_app_blank (t r : string) : blank r -> rstrip space (t ++ r) = rstrip space t.
Proof.
  intros Hr. induction t as [|c t IH]; [now apply rstrip_blank|].
  rewrite append_cons. cbn [rstrip]. now rewrite IH.
Qed.

Lemma rstrip_clean (t : string) :
  (forall c, last_char t = Some c -> clean c) -> rstrip space t = t.
Proof.
  induction t as [|c t IH]; [reflexivity|]. intros H. cbn [rstrip].
  destruct t as [|d t].
  - cbn [rstrip]. now rewrite (proj1 (clean_space c) (H c eq_refl)).
  - rewrite IH; [reflexivity|]. intros b Hb. apply H. exact Hb.
Qed.

Lemma lstrip_split (s : string) : exists l, s = l ++ lstrip space s /\ blank l.
Proof.
  induction s as [|c s (l & E & Hl)]; [exists ""; split; [reflexivity | apply blank_nil]|].
  cbn [lstrip]. destruct (space c) eqn:Ec.
  - exists (String c l). split; [now rewrite append_cons, <- E | now apply blank_cons].
  - exists "". split; [reflexivity | apply blank_nil].
Qed.

Lemma lstrip_first_char (s : string) (c : ascii) :
  first_char (lstrip space s) = Some c -> clean c.
Proof.
  induction s as [|b s IH]; [discriminate|]. cbn [lstrip].
  destruct (space b) eqn:Eb; [exact IH|].
  cbn [first_char]. intros [= <-]. now apply clean_space.
Qed.

Lemma rstrip_split (s : string) : exists r, s = rstrip space s ++ r /\ blank r.
Proof.
  induction s as [|c s (r & E & Hr)]; [exists ""; split; [reflexivity | apply blank_nil]|].
  cbn [rstrip]. destruct (rstrip space s) as [|d t] eqn:Es.
  - change ("" ++ r) with r in E. subst r. destruct (space c) eqn:Ec.
    + exists (String c s). split; [reflexivity | now apply blank_cons].
    + exists s. split; [reflexivity | exact Hr].
  - exists r. split; [now rewrite append_cons, <- E | exact Hr].
Qed.

Lemma rstrip_last_char (s : string) (c : ascii) :
  last_char (rstrip space s) = Some c -> clean c.
Proof.
  induction s as [|b s IH]; [discriminate|]. cbn [rstrip].
  destruct (rstrip space s) as [|d t] eqn:Es.
  - destruct (space b) eqn:Eb; [discriminate|].
    cbn [last_char]. intros [= <-]. now apply clean_space.
  - rewrite last_char_cons by discriminate. exact IH.
Qed.

Lemma rstrip_first_char (s : string) (c : ascii) :
  first_char (rstrip space s) = Some c -> first_char s = Some c.
Proof.
  destruct (rstrip_split s) as (r & E & _). intros H. rewrite E.
  destruct (rstrip space s); [discriminate|]. exact H.
Qed.

(** [rstrip (lstrip s)] is [s] without the characters of the class at its
    two ends, and nothing else is. *)
Lemma strip_spec (s t : string) :
  spec_stripped cls s t <-> rstrip space (lstrip space s) = t.
Proof.
  split.
  - intros (l & r & -> & Hl & Hr & Hfirst & Hlast).
    rewrite lstrip_app_blank by exact Hl.
    destruct t as [|c t].
    + change ("" ++ r) with r. now rewrite (lstrip_blank r Hr).
    + rewrite lstrip_clean, rstrip_app_blank, rstrip_clean; [reflexivity | exact Hlast | exact Hr |].
      intros b Hb. apply Hfirst. exact Hb.
  - intros <-.
    destruct (lstrip_split s) as (l & El & Hl).
    destruct (rstrip_split (lstrip space s)) as (r & Er & Hr).
    exists l, r. split; [now rewrite <- Er|]. split; [exact Hl|]. split; [exact Hr|]. split.
    + intros c Hc. apply (lstrip_first_char s), rstrip_first_char, Hc.
    + intros c. apply rstrip_last_char.
Qed.

End Strip.

Lemma is_space_spec (c : ascii) :
  is_space c = true <-> In (nat_of_ascii c) spec_whitespace.
Proof.
  unfold is_space, spec_whitespace. cbn [In].
  rewrite orb_true_iff, !andb_true_iff, !Nat.leb_le. lia.
Qed.

Lemma is_int_space_spec (c : ascii) :
  is_int_space c = true <-> In (nat_of_ascii c) spec_blank.
Proof.
  unfold is_int_space, spec_blank. cbn [In].
  rewrite orb_true_iff, !andb_true_iff, !Nat.leb_le, Nat.eqb_eq. lia.
Qed.

Lemma py_strip_spec (s t : string) : spec_stripped spec_whitespace s t <-> py_strip s = t.
Proof. apply strip_spec, is_space_spec. Qed.

(** *** Case *)

Lemma nat_of_lower_char (c : ascii) :
  nat_of_ascii (lower_char c) =
    (if (65 <=? nat_of_ascii c) && (nat_of_ascii c <=? 90)
     then nat_of_ascii c + 32 else nat_of_ascii c)%nat.
Proof.
  unfold lower_char.
  destruct ((65 <=? nat_of_ascii c)%nat && (nat_of_ascii c <=? 90)%nat) eqn:E; [|reflexivity].
  apply andb_true_iff in E as [_ E%Nat.leb_le].
  apply nat_ascii_embedding. lia.
Qed.

Lemma nat_of_ascii_inj (c d : ascii) : nat_of_ascii c = nat_of_ascii d -> c = d.
Proof. intros E. now rewrite <- (ascii_nat_embedding c), E, ascii_nat_embedding. Qed.

Lemma lower_char_spec (c d : ascii) : lower_char c = lower_char d <-> spec_same_letter c d.
Proof.
  unfold spec_same_letter.
  assert (E : lower_char c = lower_char d
              <-> nat_of_ascii (lower_char c) = nat_of_ascii (lower_char d))
    by (split; [now intros -> | apply nat_of_ascii_inj]).
  rewrite E, !nat_of_lower_char.
  destruct (Nat.leb_spec 65 (nat_of_ascii c)), (Nat.leb_spec (nat_of_ascii c) 90),
    (Nat.leb_spec 65 (nat_of_ascii d)), (Nat.leb_spec (nat_of_ascii d) 90); cbn [andb]; lia.
Qed.

Lemma py_lower_spec (t u : string) : py_lower t = py_lower u <-> spec_same_letters t u.
Proof.
  unfold spec_same_letters. revert u.
  induction t as [|c t IH]; intros [|d u]; cbn [py_lower list_ascii_of_string].
  - split; [constructor | reflexivity].
  - split; [discriminate | inversion 1].
  - split; [discriminate | inversion 1].
  - rewrite Forall2_cons, <- IH, <- lower_char_spec. split; [now intros [= -> ->] | now intros [-> ->]].
Qed.

(** The grading test of the code says what the specification says. *)
Lemma matches_same_answer (s a : string) : matches s a = true <-> spec_same_answer s a.
Proof.
  unfold matches, spec_same_answer. rewrite String.eqb_eq. split.
  - intros E. exists (py_strip s), (py_strip a).
    split; [now apply py_strip_spec|]. split; [now apply py_strip_spec|].
    now apply py_lower_spec.
  - intros (t & u & <-%py_strip_spec & <-%py_strip_spec & H). now apply py_lower_spec.
Qed.

(** *** Numerals *)

Lemma spec_digit_is_digit (c : ascii) (v : Z) :
  spec_digit c v -> is_digit c = true /\ digit_value c = v.
Proof.
  intros [Hv Hc]. unfold is_digit, digit_value.
  split; [|lia]. apply andb_true_iff. split; apply Nat.leb_le; lia.
Qed.

Lemma is_digit_spec_digit (c : ascii) : is_digit c = true -> spec_digit c (digit_value c).
Proof.
  unfold is_digit, digit_value, spec_digit.
  intros [H1%Nat.leb_le H2%Nat.leb_le]%andb_true_iff. lia.
Qed.

Lemma is_digit_not_sep (c : ascii) : is_digit c = true -> Ascii.eqb c "_" = false.
Proof.
  intros H. apply Ascii.eqb_neq. intros ->. discriminate H.
Qed.

Lemma digits_sound (s : string) (vs : list Z) :
  spec_digits s vs ->
  forall (acc : Z) (sep : bool),
    digits acc sep s = Some (fold_left (fun n v => 10 * n + v) vs acc).
Proof.
  induction 1 as [c v Hc | c v s vs Hc _ IH | c v s vs Hc _ IH]; intros acc sep;
    destruct (spec_digit_is_digit c v Hc) as [Hd <-];
    cbn [digits fold_left]; rewrite Hd, (Z.mul_comm acc 10).
  - reflexivity.
  - apply IH.
  - change (is_digit "_") with false. cbn [Ascii.eqb Bool.eqb]. apply IH.
Qed.

Lemma digits_complete (s : string) :
  forall (acc : Z) (sep : bool) (n : Z),
    digits acc sep s = Some n ->
    (exists vs, spec_digits s vs /\ n = fold_left (fun n v => 10 * n + v) vs acc) \/
    (sep = false /\ s = "" /\ n = acc) \/
    (sep = false /\ exists s' vs, s = String "_" s' /\ spec_digits s' vs /\
                                  n = fold_left (fun n v => 10 * n + v) vs acc).
Proof.
  induction s as [|c s IH]; intros acc sep n; cbn [digits].
  - destruct sep; [discriminate|]. intros [= <-]. right. left. now repeat split.
  - destruct (is_digit c) eqn:Hd.
    + intros H. left. pose proof (is_digit_spec_digit c Hd) as Hc.
      destruct (IH _ _ _ H) as [(vs & Hs & ->) | [(_ & -> & ->) | (_ & s' & vs & -> & Hs & ->)]].
      * exists (digit_value c :: vs). split; [now constructor|].
        cbn [fold_left]. now rewrite (Z.mul_comm acc 10).
      * exists [digit_value c]. split; [now constructor|]. cbn [fold_left]. lia.
      * exists (digit_value c :: vs). split; [now apply spec_digits_group|].
        cbn [fold_left]. now rewrite (Z.mul_comm acc 10).
    + destruct (Ascii.eqb_spec c "_") as [->|]; [|discriminate].
      destruct sep; [discriminate|]. intros H. right. right. split; [reflexivity|].
      destruct (IH _ _ _ H) as [(vs & Hs & ->) | [(? & _) | (? & _)]]; [|discriminate..].
      now exists s, vs.
Qed.

Lemma spec_digits_first (s : string) (vs : list Z) :
  spec_digits s vs -> exists c r, s = String c r /\ is_digit c = true.
Proof.
  destruct 1 as [c v Hc | c v s vs Hc _ | c v s vs Hc _];
    destruct (spec_digit_is_digit c v Hc) as [Hd _]; eauto.
Qed.

Lemma spec_digits_last (s : string) (vs : list Z) :
  spec_digits s vs -> exists c, last_char s = Some c /\ is_digit c = true.
Proof.
  induction 1 as [c v Hc | c v s vs Hc Hs IH | c v s vs Hc Hs IH].
  - destruct (spec_digit_is_digit c v Hc) as [Hd _]. now exists c.
  - destruct (spec_digits_first s vs Hs) as (d & r & -> & _).
    rewrite last_char_cons by discriminate. exact IH.
  - destruct (spec_digits_first s vs Hs) as (d & r & -> & _).
    rewrite !last_char_cons by discriminate. exact IH.
Qed.

Lemma is_digit_not_blank (c : ascii) : is_digit c = true -> ~ In (nat_of_ascii c) spec_blank.
Proof.
  unfold is_digit, spec_blank. cbn [In].
  intros [H1%Nat.leb_le H2%Nat.leb_le]%andb_true_iff. lia.
Qed.

Lemma is_digit_not_sign (c : ascii) :
  is_digit c = true -> Ascii.eqb c "-" = false /\ Ascii.eqb c "+" = false.
Proof. intros H. split; apply Ascii.eqb_neq; intros ->; discriminate H. Qed.

(** [int] accepts the texts that are integers, and reads their value. *)
Lemma py_int_spec (t : string) (n : Z) : py_int t = Some n <-> spec_integer_text t n.
Proof.
  unfold py_int, spec_integer_text. split.
  - destruct (proj2 (strip_spec _ _ is_int_space_spec t _) eq_refl)
      as (l & r & E & Hl & Hr & _).
    destruct (rstrip is_int_space (lstrip is_int_space t)) as [|c core]; [discriminate|].
    destruct (Ascii.eqb_spec c "-") as [->|Hminus]; [|destruct (Ascii.eqb_spec c "+") as [->|Hplus]].
    + destruct (digits 0 true core) as [v|] eqn:Ed; [|discriminate]. intros [= <-].
      destruct (digits_complete _ _ _ _ Ed) as [(vs & Hs & ->) | [(? & _) | (? & _)]];
        [|discriminate..].
      exists l, r, "-", core, vs. rewrite E. repeat split; auto.
    + intros Ed.
      destruct (digits_complete _ _ _ _ Ed) as [(vs & Hs & ->) | [(? & _) | (? & _)]];
        [|discriminate..].
      exists l, r, "+", core, vs. rewrite E. repeat split; auto.
    + intros Ed.
      destruct (digits_complete _ _ _ _ Ed) as [(vs & Hs & ->) | [(? & _) | (? & _)]];
        [|discriminate..].
      exists l, r, "", (String c core), vs. rewrite E. repeat split; auto.
  - intros (l & r & sign & body & vs & -> & Hl & Hr & Hs & Hsign).
    destruct (spec_digits_first body vs Hs) as (d & rest & Ebody & Hd).
    destruct (spec_digits_last body vs Hs) as (z & Hlast & Hz).
    destruct (is_digit_not_sign d Hd) as [Hd1 Hd2].
    assert (Hstrip : rstrip is_int_space (lstrip is_int_space (l ++ sign ++ body ++ r))
                     = sign ++ body).
    { apply (strip_spec _ _ is_int_space_spec). exists l, r.
      split; [now rewrite append_assoc|]. split; [exact Hl|]. split; [exact Hr|]. split.
      - intros c Hc.
        destruct Hsign as [(-> & _) | [(-> & _) | (-> & _)]].
        + rewrite Ebody in Hc. injection Hc as <-. now apply is_digit_not_blank.
        + injection Hc as <-. vm_compute. intuition discriminate.
        + injection Hc as <-. vm_compute. intuition discriminate.
      - intros c Hc.
        assert (last_char (sign ++ body) = last_char body).
        { destruct Hsign as [(-> & _) | [(-> & _) | (-> & _)]]; [reflexivity| |];
            rewrite append_cons; apply last_char_cons; rewrite Ebody; discriminate. }
        rewrite H, Hlast in Hc. injection Hc as <-. now apply is_digit_not_blank. }
    rewrite Hstrip.
    destruct Hsign as [(-> & ->) | [(-> & ->) | (-> & ->)]].
    + change ("" ++ body) with body. rewrite Ebody, Hd1, Hd2, <- Ebody.
      now rewrite (digits_sound body vs Hs).
    + rewrite append_cons. change ("" ++ body) with body. cbn [Ascii.eqb Bool.eqb].
      now rewrite (digits_sound body vs Hs).
    + rewrite append_cons. change ("" ++ body) with body. cbn [Ascii.eqb Bool.eqb].
      now rewrite (digits_sound body vs Hs).
Qed.

Lemma requested_count_spec (t : string) :
  (forall n, spec_integer_text t n -> requested_count t = n) /\
  ((forall n, ~ spec_integer_text t n) -> requested_count t = 10).
Proof.
  unfold requested_count. split.
  - intros n Hn%py_int_spec. now rewrite Hn.
  - intros Hnone. destruct (py_int t) as [n|] eqn:E; [|reflexivity].
    now destruct (Hnone n); apply py_int_spec.
Qed.

(** ** Floats

    What rounding to the format does to a number that is at most
    [B * 2 ^ g], a bound that the format holds: the result is at most the
    bound. *)

Lemma shr_1_m (m : Z) (r s : bool) :
  0 <= m -> shr_m (shr_1 (Build_shr_record m r s)) = m / 2.
Proof.
  intros Hm. rewrite <- Z.div2_div.
  destruct m as [|[p|p|]|]; try reflexivity. lia.
Qed.

Lemma pow_xI (p : positive) : 2 ^ Z.pos p~1 = 2 * (2 ^ Z.pos p * 2 ^ Z.pos p).
Proof.
  replace (Z.pos p~1) with (Z.pos p + Z.pos p + 1) by lia.
  rewrite !Z.pow_add_r by lia. change (2 ^ 1) with 2. ring.
Qed.

Lemma pow_xO (p : positive) : 2 ^ Z.pos p~0 = 2 ^ Z.pos p * 2 ^ Z.pos p.
Proof.
  replace (Z.pos p~0) with (Z.pos p + Z.pos p) by lia.
  now rewrite Z.pow_add_r by lia.
Qed.

Lemma shr_iter_m (p : positive) :
  forall mrs, 0 <= shr_m mrs -> shr_m (SpecFloat.iter_pos shr_1 p mrs) = shr_m mrs / 2 ^ Z.pos p.
Proof.
  assert (Hpos : forall q, 0 < 2 ^ Z.pos q) by (intros; apply Z.pow_pos_nonneg; lia).
  induction p as [p IH|p IH|]; intros [m r s] Hm; cbn [SpecFloat.iter_pos shr_m] in *.
  - set (x := shr_1 (Build_shr_record m r s)).
    assert (Hx : shr_m x = m / 2) by now apply shr_1_m.
    assert (Hx0 : 0 <= shr_m x) by (rewrite Hx; apply Z.div_pos; lia).
    assert (Hy : shr_m (SpecFloat.iter_pos shr_1 p x) = shr_m x / 2 ^ Z.pos p) by now apply IH.
    assert (Hy0 : 0 <= shr_m (SpecFloat.iter_pos shr_1 p x))
      by (rewrite Hy; apply Z.div_pos; [lia | apply Hpos]).
    pose proof (Hpos p).
    rewrite (IH _ Hy0), Hy, Hx, !Z.div_div by lia. rewrite pow_xI. f_equal; ring.
  - set (x := Build_shr_record m r s).
    assert (Hy : shr_m (SpecFloat.iter_pos shr_1 p x) = m / 2 ^ Z.pos p) by now apply IH.
    assert (Hy0 : 0 <= shr_m (SpecFloat.iter_pos shr_1 p x))
      by (rewrite Hy; apply Z.div_pos; [lia | apply Hpos]).
    pose proof (Hpos p).
    rewrite (IH _ Hy0), Hy, Z.div_div by lia. now rewrite pow_xO.
  - now apply shr_1_m.
Qed.

Lemma shr_1_exact (a : Z) :
  0 <= a -> shr_1 (Build_shr_record (2 * a) false false) = Build_shr_record a false false.
Proof. intros Ha. now destruct a. Qed.

Lemma shr_iter_exact (p : positive) :
  forall a, 0 <= a ->
    SpecFloat.iter_pos shr_1 p (Build_shr_record (a * 2 ^ Z.pos p) false false)
    = Build_shr_record a false false.
Proof.
  induction p as [p IH|p IH|]; intros a Ha; cbn [SpecFloat.iter_pos].
  - replace (a * 2 ^ Z.pos p~1) with (2 * ((a * 2 ^ Z.pos p) * 2 ^ Z.pos p))
      by (rewrite pow_xI; ring).
    assert (0 < 2 ^ Z.pos p) by (apply Z.pow_pos_nonneg; lia).
    rewrite shr_1_exact by nia. rewrite IH by nia. now apply IH.
  - replace (a * 2 ^ Z.pos p~0) with ((a * 2 ^ Z.pos p) * 2 ^ Z.pos p)
      by (rewrite pow_xO; ring).
    assert (0 < 2 ^ Z.pos p) by (apply Z.pow_pos_nonneg; lia).
    rewrite IH by nia. now apply IH.
  - replace (a * 2 ^ 1) with (2 * a) by lia. now apply shr_1_exact.
Qed.

Lemma digits2_size (p : positive) : digits2_pos p = Pos.size p.
Proof. induction p; cbn; congruence. Qed.

Lemma Zdigits2_le (x n : Z) : 0 <= n -> 0 <= x < 2 ^ n -> Zdigits2 x <= n.
Proof.
  intros Hn [H0 Hx]. destruct x as [|p|p]; cbn; [lia| |lia].
  rewrite digits2_size.
  pose proof (Pos.size_le p) as Hs.
  apply Pos2Z.pos_le_pos in Hs. rewrite Pos2Z.inj_pow in Hs.
  pose proof (Pos2Z.inj_xO p) as H2.
  assert (2 ^ Z.pos (Pos.size p) < 2 ^ (n + 1)) by (rewrite Z.pow_add_r by lia; change (2 ^ 1) with 2; lia).
  apply Z.pow_lt_mono_r_iff in H; lia.
Qed.

Lemma Zdigits2_nonneg (x : Z) : 0 <= Zdigits2 x.
Proof. destruct x; cbn; lia. Qed.

(** One shift to the exponent of the format. *)
Lemma shr_fexp_spec (m e : Z) (l : location) :
  0 <= m ->
  let e1 := Z.max e (fexp PyFloat.prec PyFloat.emax (Zdigits2 m + e)) in
  snd (shr_fexp PyFloat.prec PyFloat.emax m e l) = e1 /\
  shr_m (fst (shr_fexp PyFloat.prec PyFloat.emax m e l)) = m / 2 ^ (e1 - e) /\
  (l = loc_Exact -> m mod 2 ^ (e1 - e) = 0 ->
   loc_of_shr_record (fst (shr_fexp PyFloat.prec PyFloat.emax m e l)) = loc_Exact).
Proof.
  intros Hm e1. unfold shr_fexp, shr.
  assert (Hrec : shr_m (shr_record_of_loc m l) = m) by (now destruct l as [|[]]).
  destruct (fexp PyFloat.prec PyFloat.emax (Zdigits2 m + e) - e) as [|k|k] eqn:Ek; cbn [fst snd].
  - replace (e1 - e) with 0 by lia. rewrite Z.div_1_r.
    split; [lia|]. split; [exact Hrec|]. now intros ->.
  - replace (e1 - e) with (Z.pos k) by lia.
    split; [lia|]. split.
    + rewrite shr_iter_m; rewrite Hrec; [reflexivity | exact Hm].
    + intros -> Hmod. cbn [shr_record_of_loc].
      apply Z.div_exact in Hmod; [|apply Z.pow_nonzero; lia].
      rewrite Hmod at 1. rewrite Z.mul_comm, shr_iter_exact; [reflexivity|].
      apply Z.div_pos; [lia|]. apply Z.pow_pos_nonneg; lia.
  - replace (e1 - e) with 0 by lia. rewrite Z.div_1_r.
    split; [lia|]. split; [exact Hrec|]. now intros ->.
Qed.

Lemma round_nearest_even_le (m : Z) (l : location) :
  m <= round_nearest_even m l <= m + 1 /\ (l = loc_Exact -> round_nearest_even m l = m).
Proof.
  split; [|now intros ->].
  destruct l as [|[]]; cbn; try lia. destruct (Z.even m); lia.
Qed.

(** Rounding does not go beyond a bound [B * 2 ^ g] that the format holds. *)
Lemma round_below (B g : Z) (sx : bool) (mx ex : Z) (l : location) :
  0 < B < 2 ^ PyFloat.prec -> emin PyFloat.prec PyFloat.emax <= g <= PyFloat.emax - PyFloat.prec -> ex <= g -> 0 <= mx ->
  (mx < B * 2 ^ (g - ex) \/ (mx = B * 2 ^ (g - ex) /\ l = loc_Exact)) ->
  binary_round_aux PyFloat.prec PyFloat.emax sx mx ex l = S754_zero sx \/
  exists (m : positive) (e : Z),
    binary_round_aux PyFloat.prec PyFloat.emax sx mx ex l = S754_finite sx m e /\
    e <= g /\ Z.pos m <= B * 2 ^ (g - e).
Proof.
  intros HB Hg Hex Hmx Hle. unfold binary_round_aux.
  destruct (shr_fexp_spec mx ex l Hmx) as (He1 & Hm1 & Hl1).
  destruct (shr_fexp PyFloat.prec PyFloat.emax mx ex l) as [mrs1 e1]. cbn [fst snd] in *.
  rewrite <- He1 in Hm1, Hl1.
  set (k := e1 - ex) in *.
  assert (Hpow : forall n, 0 <= n -> 0 < 2 ^ n) by (intros; apply Z.pow_pos_nonneg; lia).
  assert (Hmx_lt : mx < 2 ^ (PyFloat.prec + g - ex)).
  { replace (PyFloat.prec + g - ex) with (PyFloat.prec + (g - ex)) by lia. rewrite Z.pow_add_r by (unfold PyFloat.prec; lia).
    pose proof (Hpow (g - ex) ltac:(lia)). nia. }
  assert (Hd : Zdigits2 mx + ex <= PyFloat.prec + g).
  { pose proof (Zdigits2_le mx (PyFloat.prec + g - ex) ltac:(unfold PyFloat.prec; lia) ltac:(lia)). lia. }
  assert (He1g : e1 <= g) by (subst e1; unfold fexp, PyFloat.prec in *; lia).
  assert (Hk : 0 <= k) by (subst k e1; lia).
  set (N1 := B * 2 ^ (g - e1)).
  assert (HN : B * 2 ^ (g - ex) = N1 * 2 ^ k).
  { subst N1 k. rewrite <- Z.mul_assoc, <- Z.pow_add_r by lia. f_equal. f_equal. lia. }
  set (m1 := round_nearest_even (shr_m mrs1) (loc_of_shr_record mrs1)).
  assert (Hm1' : 0 <= m1 <= N1).
  { pose proof (round_nearest_even_le (shr_m mrs1) (loc_of_shr_record mrs1)) as [Hr Hrx].
    fold m1 in Hr, Hrx. pose proof (Hpow k Hk) as Hpk.
    assert (0 <= shr_m mrs1) by (rewrite Hm1; apply Z.div_pos; lia).
    split; [lia|]. destruct Hle as [Hlt | [Heq Hl]].
    - assert (shr_m mrs1 < N1); [|lia].
      rewrite Hm1. apply Z.div_lt_upper_bound; [lia|]. now rewrite (Z.mul_comm _ N1), <- HN.
    - rewrite Hrx.
      + rewrite Hm1, Heq, HN, Z.div_mul by lia. lia.
      + apply Hl1; [exact Hl|]. rewrite Heq, HN. apply Z.mod_mul. lia. }
  destruct (shr_fexp_spec m1 e1 loc_Exact ltac:(lia)) as (He2 & Hm2 & _).
  fold m1. destruct (shr_fexp PyFloat.prec PyFloat.emax m1 e1 loc_Exact) as [mrs2 e2]. cbn [fst snd] in *.
  rewrite <- He2 in Hm2.
  assert (HN1 : N1 < 2 ^ (PyFloat.prec + g - e1)).
  { subst N1. replace (PyFloat.prec + g - e1) with (PyFloat.prec + (g - e1)) by lia.
    rewrite Z.pow_add_r by (unfold PyFloat.prec; lia). pose proof (Hpow (g - e1) ltac:(lia)). nia. }
  assert (Hd1 : Zdigits2 m1 + e1 <= PyFloat.prec + g).
  { pose proof (Zdigits2_le m1 (PyFloat.prec + g - e1) ltac:(unfold PyFloat.prec; lia) ltac:(lia)). lia. }
  assert (He2g : e2 <= g) by (subst e2; unfold fexp, PyFloat.prec in *; lia).
  assert (Hj : 0 <= e2 - e1) by (subst e2; lia).
  assert (Hm2' : 0 <= shr_m mrs2 <= B * 2 ^ (g - e2)).
  { rewrite Hm2. pose proof (Hpow (e2 - e1) Hj) as Hpj. split; [apply Z.div_pos; lia|].
    apply Z.div_le_upper_bound; [lia|].
    rewrite (Z.mul_comm (2 ^ _)), <- Z.mul_assoc, <- Z.pow_add_r by lia.
    replace (g - e2 + (e2 - e1)) with (g - e1) by lia. fold N1. lia. }
  destruct (shr_m mrs2) as [|m|m] eqn:Em; [now left | | lia].
  right. exists m, e2.
  replace (e2 <=? PyFloat.emax - PyFloat.prec) with true by (symmetry; apply Z.leb_le; lia).
  split; [reflexivity|]. split; [exact He2g | lia].
Qed.

Lemma div_eucl_eq (a b : Z) : Z.div_eucl a b = (a / b, a mod b).
Proof. unfold Z.div, Z.modulo. now destruct (Z.div_eucl a b). Qed.

Lemma new_location_exact (n : Z) : new_location n 0 = loc_Exact.
Proof. unfold new_location. now destruct (Z.even n). Qed.

(** The quotient of [c] by [t], for [0 < c <= t]: what is rounded. *)
Lemma div_core_fraction (c t : Z) :
  0 < c <= t ->
  exists (q e : Z) (l : location),
    SFdiv_core_binary PyFloat.prec PyFloat.emax c 0 t 0 = (q, e, l) /\
    e <= 0 /\ 0 <= q /\ (q < 2 ^ (- e) \/ (q = 2 ^ (- e) /\ l = loc_Exact)).
Proof.
  intros Hc. unfold SFdiv_core_binary.
  set (e := Z.min (fexp PyFloat.prec PyFloat.emax (Zdigits2 c + 0 - (Zdigits2 t + 0))) (0 - 0)).
  assert (He : e <= 0) by (subst e; lia).
  assert (Hp : 0 < 2 ^ (- e)) by (apply Z.pow_pos_nonneg; lia).
  assert (Hm : match 0 - 0 - e with
               | 0 => c
               | Z.pos _ => Z.shiftl c (0 - 0 - e)
               | Z.neg _ => 0
               end = c * 2 ^ (- e)).
  { replace (0 - 0 - e) with (- e) by lia.
    destruct (- e) as [|k|k] eqn:Ek; [lia | | lia].
    rewrite Z.shiftl_mul_pow2 by lia. reflexivity. }
  rewrite Hm, div_eucl_eq.
  exists (c * 2 ^ (- e) / t), e, (new_location t ((c * 2 ^ (- e)) mod t)).
  split; [reflexivity|]. split; [exact He|].
  split; [apply Z.div_pos; nia|].
  destruct (Z.eq_dec c t) as [->|Hne].
  - right. rewrite Z.mul_comm, Z.div_mul, Z.mod_mul by lia.
    split; [reflexivity | apply new_location_exact].
  - left. apply Z.div_lt_upper_bound; [lia|]. nia.
Qed.

(** [c / t] for [0 <= c <= t]: a double between 0 and 1. *)
Lemma int_truediv_fraction (c t : Z) :
  0 <= c <= t -> 0 < t ->
  PyFloat.int_truediv c t = Ok (S754_zero false) \/
  exists (m : positive) (e : Z),
    PyFloat.int_truediv c t = Ok (S754_finite false m e) /\ e <= 0 /\ Z.pos m <= 2 ^ (- e).
Proof.
  intros Hc Ht. unfold PyFloat.int_truediv.
  rewrite (proj2 (Z.eqb_neq t 0)) by lia.
  replace (c <? 0) with false by (symmetry; apply Z.ltb_ge; lia).
  replace (t <? 0) with false by (symmetry; apply Z.ltb_ge; lia).
  cbn [xorb].
  destruct (Z.eqb_spec c 0) as [->|Hc0]; [now left|].
  rewrite !Z.abs_eq by lia.
  destruct (div_core_fraction c t ltac:(lia)) as (q & e & l & -> & He & Hq & Hle).
  destruct (round_below 1 0 false q e l) as [E | (m & e2 & E & He2 & Hm)];
    try (unfold PyFloat.prec, PyFloat.emax, emin; cbn; lia).
  - rewrite Z.mul_1_l, Z.sub_0_l. exact Hle.
  - rewrite E. now left.
  - rewrite E. right. exists m, e2. rewrite Z.mul_1_l, Z.sub_0_l in Hm. now split.
Qed.

Lemma int_truediv_self (t : Z) : t <> 0 -> PyFloat.int_truediv t t = Ok (PyFloat.of_int 1).
Proof.
  intros Ht. unfold PyFloat.int_truediv.
  rewrite (proj2 (Z.eqb_neq t 0) Ht), xorb_nilpotent.
  unfold SFdiv_core_binary.
  replace (Zdigits2 (Z.abs t) + 0 - (Zdigits2 (Z.abs t) + 0)) with 0 by lia.
  change (Z.min (fexp PyFloat.prec PyFloat.emax 0) (0 - 0)) with (-53).
  change (0 - 0 - -53) with 53. cbv iota beta.
  rewrite Z.shiftl_mul_pow2 by lia.
  rewrite div_eucl_eq, Z.mul_comm, Z.div_mul, Z.mod_mul by lia.
  rewrite new_location_exact. reflexivity.
Qed.

(** A double between 0 and 1, times 100: a double between 0 and 100. *)
Lemma mul_100_within (m : positive) (e : Z) :
  e <= 0 -> Z.pos m <= 2 ^ (- e) ->
  PyFloat.from_0_to 100 (PyFloat.mul (S754_finite false m e) (PyFloat.of_int 100)).
Proof.
  intros He Hm.
  change (PyFloat.of_int 100) with (S754_finite false 7036874417766400 (-46)).
  unfold PyFloat.mul, SFmul. cbn [xorb].
  assert (Hp : 0 < 2 ^ (- e)) by (apply Z.pow_pos_nonneg; lia).
  assert (Hpow : 2 ^ (2 - (e + -46)) = 2 ^ 48 * 2 ^ (- e)).
  { rewrite <- Z.pow_add_r by lia. f_equal. lia. }
  destruct (round_below 25 2 false (Z.pos (m * 7036874417766400)) (e + -46) loc_Exact)
    as [E | (m2 & e2 & E & He2 & Hm2)]; try (unfold PyFloat.prec, PyFloat.emax, emin; cbn; lia).
  - rewrite Hpow, Pos2Z.inj_mul.
    change (Z.pos 7036874417766400) with (25 * 2 ^ 48).
    destruct (Z.eq_dec (Z.pos m) (2 ^ (- e))) as [Heq|Hne].
    + right. split; [rewrite Heq; ring | reflexivity].
    + left. nia.
  - rewrite E. cbn. lia.
  - rewrite E. cbn [PyFloat.from_0_to].
    destruct (Z.le_gt_cases e2 0) as [Hneg|Hpos].
    + rewrite Z.max_r, Z.max_l by lia. change (2 ^ 0) with 1.
      replace (2 - e2) with (2 + - e2) in Hm2 by lia.
      rewrite Z.pow_add_r in Hm2 by lia. change (2 ^ 2) with 4 in Hm2. lia.
    + rewrite Z.max_l, Z.max_r by lia. change (2 ^ 0) with 1.
      assert (e2 = 1 \/ e2 = 2) as [-> | ->] by lia.
      * change (2 - 1) with 1 in Hm2. change (2 ^ 1) with 2 in *. lia.
      * change (2 - 2) with 0 in Hm2. change (2 ^ 0) with 1 in Hm2. change (2 ^ 2) with 4. lia.
Qed.

(** [(c / t) * 100] for [0 <= c <= t]: the division succeeds, and the
    percentage is a double between 0 and 100. *)
Lemma percentage_within (c t : Z) :
  0 <= c <= t -> 0 < t ->
  exists ratio : float,
    PyFloat.int_truediv c t = Ok ratio /\
    PyFloat.from_0_to 100 (PyFloat.mul ratio (PyFloat.of_int 100)).
Proof.
  intros Hc Ht.
  destruct (int_truediv_fraction c t Hc Ht) as [E | (m & e & E & He & Hm)].
  - exists (S754_zero false). split; [exact E|]. change (0 <= 100). lia.
  - exists (S754_finite false m e). split; [exact E|]. now apply mul_100_within.
Qed.

(** ** Running a handler step by step *)


Lemma say_say (w : world) (es es' : list event) : say (say w es) es' = say w (es ++ es').
Proof. unfold say; cbn. now rewrite <- app_assoc. Qed.

Lemma say_nil (w : world) : say w [] = w.
Proof. destruct w; unfold say; cbn. now rewrite app_nil_r. Qed.

Section Steps.

Context {A B : Type}.
Implicit Types (k : A -> py B) (w : world).

Lemma bind_ok (m : py A) k w w' (a : A) :
  m w = (Ok a, w') -> (m ≫= k) w = k a w'.
Proof. intros E. unfold mbind, py_bind. now rewrite E. Qed.

Lemma bind_raise (m : py A) k w w' (e : exn) :
  m w = (Raise e, w') -> (m ≫= k) w = (Raise e, w').
Proof. intros E. unfold mbind, py_bind. now rewrite E. Qed.

Lemma bind_ret (a : A) k w : (mret a ≫= k) w = k a w.
Proof. reflexivity. Qed.

Lemma bind_lift (a : A) k w : (lift (Ok a) ≫= k) w = k a w.
Proof. reflexivity. Qed.

Lemma bind_assoc {C} (m : py C) (f : C -> py A) k w :
  ((m ≫= f) ≫= k) w = (m ≫= (fun c => f c ≫= k)) w.
Proof. unfold mbind, py_bind. destruct (m w) as [[c|e] w']; reflexivity. Qed.

End Steps.

Lemma bind_emit {B} (e : event) (k : unit -> py B) (w : world) :
  (emit e ≫= k) w = k tt (say w [e]).
Proof. reflexivity. Qed.

Lemma bind_answer {B} (m : outmsg) (k : unit -> py B) (w : world) :
  (answer m ≫= k) w = k tt (say w [Answer m]).
Proof. reflexivity. Qed.

Lemma bind_call {B} (api : request -> response) (r : request)
    (k : response -> py B) (w : world) :
  (call api r ≫= k) w = k (api r) (say w [Call r]).
Proof. reflexivity. Qed.

Lemma answer_eq (m : outmsg) (w : world) : answer m w = (Ok tt, say w [Answer m]).
Proof. reflexivity. Qed.

Lemma read_ok (w : world) (user_id : Z) (d : gmap string pyval) (key : string) (v : pyval) :
  USER_SESSIONS w !! user_id = Some d -> d !! key = Some v ->
  Sessions.read user_id key w = (Ok v, w).
Proof. intros E1 E2. unfold Sessions.read. now rewrite E1, E2. Qed.

Lemma read_int_ok {B} (w : world) (user_id : Z) (d : gmap string pyval) (key : string)
    (n : Z) (k : Z -> py B) :
  USER_SESSIONS w !! user_id = Some d -> d !! key = Some (PInt n) ->
  ((Sessions.read user_id key ≫= as_int) ≫= k) w = k n w.
Proof.
  intros E1 E2.
  rewrite (bind_assoc (Sessions.read user_id key) as_int).
  now rewrite (bind_ok _ _ _ _ _ (read_ok _ _ _ _ _ E1 E2)).
Qed.

Lemma write_ok (w : world) (user_id : Z) (d : gmap string pyval) (key : string) (v : pyval) :
  USER_SESSIONS w !! user_id = Some d ->
  Sessions.write user_id key v w =
    (Ok tt, with_sessions w (<[user_id := <[key := v]> d]> (USER_SESSIONS w))).
Proof. intros E. unfold Sessions.write. now rewrite E. Qed.

Lemma incr_ok (w : world) (user_id : Z) (d : gmap string pyval) (key : string) (n : Z) :
  USER_SESSIONS w !! user_id = Some d -> d !! key = Some (PInt n) ->
  Sessions.incr user_id key w =
    (Ok tt, with_sessions w (<[user_id := <[key := PInt (n + 1)]> d]> (USER_SESSIONS w))).
Proof.
  intros E1 E2. unfold Sessions.incr.
  rewrite (bind_ok _ _ _ _ _ (read_ok _ _ _ _ _ E1 E2)). now apply write_ok.
Qed.

Lemma headers_ok (w : world) (user_id : Z) (d : gmap string pyval) (t : pyval) :
  USER_SESSIONS w !! user_id = Some d -> d !! "access_token" = Some t ->
  Sessions.headers user_id w = (Ok (Some t), w).
Proof.
  intros E1 E2. unfold Sessions.headers.
  now rewrite (bind_ok _ _ _ _ _ (read_ok _ _ _ _ _ E1 E2)).
Qed.

Lemma headers_no_session (w : world) (user_id : Z) :
  USER_SESSIONS w !! user_id = None ->
  Sessions.headers user_id w = (Raise (KeyError (PInt user_id)), w).
Proof.
  intros E. unfold Sessions.headers, mbind, py_bind, Sessions.read. now rewrite E.
Qed.

Lemma json_ok (r : response) (v : pyval) (w : world) :
  body_of r = Json v -> json r w = (Ok v, w).
Proof. intros E. unfold json. now rewrite E. Qed.

Lemma json_raise (r : response) (w : world) :
  body_of r = NotJson -> json r w = (Raise JSONDecodeError, w).
Proof. intros E. unfold json. now rewrite E. Qed.

(** Projections of the worlds the steps build. *)
Ltac world_simpl :=
  cbn [USER_SESSIONS fsm fsm_data files trace say with_sessions] in *.

(** ** Login: the session record is replaced *)

(** C10: a user who holds tokens and taps a login button gets a session
    record that holds the chosen role and nothing else: the tokens and every
    other field of the old record are gone; the handler does not raise. *)
Theorem login_handler_replaces_session
    (w : world) (m : message) (d : gmap string pyval) (access refresh : pyval) :
  USER_SESSIONS w !! from_user m = Some d ->
  d !! "access_token" = Some access ->
  d !! "refresh_token" = Some refresh ->
  text m = teacher_button \/ text m = student_button ->
  let role := if String.eqb (text m) teacher_button then "teacher" else "student" in
  run (login_handler m) w = Ok tt /\
  exists d' : gmap string pyval,
    USER_SESSIONS (after (login_handler m) w) !! from_user m = Some d' /\
    d' = {[ "role" := PStr role ]} /\
    d' !! "access_token" = None /\ d' !! "refresh_token" = None /\
    (forall k : string, k <> "role" -> d' !! k = None) /\
    (forall u : Z, u <> from_user m ->
       USER_SESSIONS (after (login_handler m) w) !! u = USER_SESSIONS w !! u).
Proof.
  intros _ _ _ Hbutton role.
  assert (Hrole : (if contains "Teacher" (text m) then "teacher" else "student") = role).
  { subst role. destruct Hbutton as [-> | ->]; reflexivity. }
  split; [reflexivity|].
  exists {[ "role" := PStr role ]}.
  split.
  - unfold after, login_handler, mbind, py_bind. simpl.
    rewrite Hrole. apply lookup_insert_eq.
  - split; [reflexivity|].
    split; [apply lookup_singleton_ne; discriminate|].
    split; [apply lookup_singleton_ne; discriminate|].
    split.
    + intros k Hk. apply lookup_singleton_ne. congruence.
    + intros u Hu. unfold after, login_handler, mbind, py_bind. simpl.
      apply lookup_insert_ne. congruence.
Qed.


Lemma login_handler_replaces_session_witness :
  USER_SESSIONS (after (login_handler (Message Sample.alice teacher_button)) Sample.logged_in)
    !! Sample.alice = Some {[ "role" := PStr "teacher" ]}.
Proof.
  destruct (login_handler_replaces_session Sample.logged_in
              (Message Sample.alice teacher_button) Sample.session
              (PStr "tok-a") (PStr "tok-r"))
    as [_ [d' [Hd' [-> _]]]];
    [reflexivity | reflexivity | reflexivity | left; reflexivity | exact Hd'].
Defined.

(** ** Login: the password step *)

Section Password.

Variable api : request -> response.
Variables (w : world) (m : message) (d : gmap string pyval) (username role : pyval).

Hypothesis Hsession : USER_SESSIONS w !! from_user m = Some d.
Hypothesis Husername : d !! "username" = Some username.
Hypothesis Hrole : d !! "role" = Some role.

Lemma process_password_200 (tokens access refresh : pyval) :
  status (api (token_request m username)) = 200 ->
  body_of (api (token_request m username)) = Json tokens ->
  PyVal.getitem_str tokens "access" = Ok access ->
  PyVal.getitem_str tokens "refresh" = Ok refresh ->
  process_password api m w =
    (Ok tt,
     World (<[from_user m := <["refresh_token" := refresh]> (<["access_token" := access]> d)]>
              (USER_SESSIONS w))
           (delete (from_user m) (fsm w)) (delete (from_user m) (fsm_data w)) (files w)
           (trace w ++ [DeleteMessage; Call (token_request m username);
                        Answer (if PyVal.eq_str role "teacher" then TeacherMenu
                                else StudentMenu)])).
Proof.
  intros Hst Hbody Hacc Href.
  unfold process_password.
  rewrite (bind_ok _ _ _ _ _ (read_ok _ _ _ _ _ Hsession Husername)).
  rewrite (bind_ok _ _ _ _ _ (read_ok _ _ _ _ _ Hsession Hrole)).
  rewrite bind_emit, bind_call. fold (token_request m username).
  rewrite Hst. cbn [Z.eqb Pos.eqb].
  rewrite (bind_ok _ _ _ _ _ (json_ok _ _ _ Hbody)).
  rewrite Hacc, bind_lift.
  erewrite bind_ok by (apply write_ok; world_simpl; exact Hsession).
  rewrite Href, bind_lift.
  erewrite bind_ok by (apply write_ok; world_simpl; apply lookup_insert_eq).
  destruct (PyVal.eq_str role "teacher");
    unfold mbind, py_bind, Fsm.finish, show_teacher_menu, show_student_menu,
      answer, emit, say, with_sessions; cbn;
    rewrite insert_insert_eq, <- !app_assoc; reflexivity.
Qed.

Lemma process_password_other_status :
  status (api (token_request m username)) <> 200 ->
  process_password api m w =
    (Ok tt,
     World (USER_SESSIONS w) (<[from_user m := Auth_waiting_for_username]> (fsm w))
           (fsm_data w) (files w)
           (trace w ++ [DeleteMessage; Call (token_request m username);
                        Answer (Text "❌ Login failed. Please try again.");
                        Answer (Text "Please enter your Attendo username:")])).
Proof.
  intros Hst. apply Z.eqb_neq in Hst.
  unfold process_password.
  rewrite (bind_ok _ _ _ _ _ (read_ok _ _ _ _ _ Hsession Husername)).
  rewrite (bind_ok _ _ _ _ _ (read_ok _ _ _ _ _ Hsession Hrole)).
  rewrite bind_emit, bind_call. fold (token_request m username). rewrite Hst.
  unfold mbind, py_bind, Fsm.set, answer, emit, say; cbn.
  rewrite <- !app_assoc. reflexivity.
Qed.

End Password.


(** C5, as the code has it: the password step accepts the answer of the
    token endpoint exactly when its status is 200. Then the two tokens are
    stored in the session, the flow state and its data are dropped, and the
    menu of the user's role is sent. On every other status, 2xx or not, the
    session is left as it was, the failure notice and the username prompt are
    sent, and the state is [Auth_waiting_for_username]. *)
Theorem process_password_accepts_only_200
    (api : request -> response) (w : world) (m : message)
    (d : gmap string pyval) (username role : pyval) :
  USER_SESSIONS w !! from_user m = Some d ->
  d !! "username" = Some username ->
  d !! "role" = Some role ->
  let resp := api (token_request m username) in
  let w' := after (process_password api m) w in
  (status resp = 200 ->
   forall tokens access refresh : pyval,
     body_of resp = Json tokens ->
     PyVal.getitem_str tokens "access" = Ok access ->
     PyVal.getitem_str tokens "refresh" = Ok refresh ->
     run (process_password api m) w = Ok tt /\
     USER_SESSIONS w' !! from_user m =
       Some (<["refresh_token" := refresh]> (<["access_token" := access]> d)) /\
     fsm w' !! from_user m = None /\
     fsm_data w' !! from_user m = None /\
     trace w' = (trace w ++ [DeleteMessage; Call (token_request m username);
                             Answer (if PyVal.eq_str role "teacher" then TeacherMenu
                                     else StudentMenu)])%list) /\
  (status resp <> 200 ->
   run (process_password api m) w = Ok tt /\
   USER_SESSIONS w' = USER_SESSIONS w /\
   fsm w' !! from_user m = Some Auth_waiting_for_username /\
   trace w' = (trace w ++ [DeleteMessage; Call (token_request m username);
                           Answer (Text "❌ Login failed. Please try again.");
                           Answer (Text "Please enter your Attendo username:")])%list).
Proof.
  intros Hs Hu Hr resp w'. subst resp w'. unfold run, after. split.
  - intros Hst tokens access refresh Hbody Hacc Href.
    rewrite (process_password_200 api w m d username role Hs Hu Hr
               tokens access refresh Hst Hbody Hacc Href).
    cbn. repeat split.
    + apply lookup_insert_eq.
    + apply lookup_delete_eq.
    + apply lookup_delete_eq.
  - intros Hst.
    rewrite (process_password_other_status api w m d username role Hs Hu Hr Hst).
    cbn. repeat split. apply lookup_insert_eq.
Qed.

Lemma process_password_accepts_only_200_witness :
  let w' := after (process_password (SampleLogin.backend 200) SampleLogin.secret)
              SampleLogin.awaiting_password in
  (USER_SESSIONS w' !! Sample.alice) ≫= (fun d => d !! "access_token") = Some (PStr "tok-a") /\
  fsm w' !! Sample.alice = None /\
  fsm (after (process_password (SampleLogin.backend 503) SampleLogin.secret)
         SampleLogin.awaiting_password) !! Sample.alice = Some Auth_waiting_for_username.
Proof.
  pose proof (process_password_accepts_only_200 (SampleLogin.backend 200)
                SampleLogin.awaiting_password SampleLogin.secret
                {[ "role" := PStr "student"; "username" := PStr "alice" ]}
                (PStr "alice") (PStr "student") eq_refl eq_refl eq_refl) as [Hok _].
  pose proof (process_password_accepts_only_200 (SampleLogin.backend 503)
                SampleLogin.awaiting_password SampleLogin.secret
                {[ "role" := PStr "student"; "username" := PStr "alice" ]}
                (PStr "alice") (PStr "student") eq_refl eq_refl eq_refl) as [_ Hbad].
  destruct (Hok eq_refl SampleLogin.tokens (PStr "tok-a") (PStr "tok-r")
              eq_refl eq_refl eq_refl) as (_ & Hsess & Hfsm & _).
  destruct (Hbad ltac:(discriminate)) as (_ & _ & Hfsm' & _).
  change (from_user SampleLogin.secret) with Sample.alice in *.
  cbv zeta. rewrite Hsess. split; [reflexivity|]. split; [exact Hfsm | exact Hfsm'].
Defined.

(** C5 as stated fails on status 201: the answer is 2xx and carries both
    tokens, yet no token is stored and the user is asked for the username
    again. *)
Lemma process_password_rejects_201 :
  let resp := SampleLogin.backend 201 (token_request SampleLogin.secret (PStr "alice")) in
  let w' := after (process_password (SampleLogin.backend 201) SampleLogin.secret)
              SampleLogin.awaiting_password in
  (200 <= status resp < 300) /\
  (USER_SESSIONS w' !! Sample.alice) ≫= (fun d => d !! "access_token") = None /\
  fsm w' !! Sample.alice = Some Auth_waiting_for_username /\
  In (Answer (Text "❌ Login failed. Please try again.")) (trace w').
Proof.
  cbv zeta. split; [cbn; lia|].
  split; [reflexivity|]. split; [reflexivity|].
  cbn. right. right. left. reflexivity.
Qed.

(** ** The upload wizard: its last step *)

Lemma fetch_ok (w : world) (user_id : Z) (dr : gmap string pyval) (key : string) (v : pyval) :
  fsm_data w !! user_id = Some dr -> dr !! key = Some v ->
  Fsm.fetch user_id key w = (Ok v, w).
Proof. intros E1 E2. unfold Fsm.fetch. rewrite E1. cbn. now rewrite E2. Qed.

Lemma open_rb_ok (w : world) (p : string) :
  p ∈ files w -> Files.open_rb (PStr p) w = (Ok p, w).
Proof. intros E. unfold Files.open_rb. now rewrite decide_True. Qed.

Section Upload.

Variable api : request -> response.
Variables (w : world) (m : message) (d dr : gmap string pyval).
Variables (token subject_id title description content_type : pyval) (path : string).

Hypothesis Hsession : USER_SESSIONS w !! from_user m = Some d.
Hypothesis Htoken : d !! "access_token" = Some token.
Hypothesis Hdraft : fsm_data w !! from_user m = Some dr.
Hypothesis Hsubject : dr !! "subject_id" = Some subject_id.
Hypothesis Hpath : dr !! "audio_file_path" = Some (PStr path).
Hypothesis Htitle : dr !! "title" = Some title.
Hypothesis Hdescription : dr !! "description" = Some description.
Hypothesis Hcontent : dr !! "content_type" = Some content_type.
Hypothesis Hfile : path ∈ files w.

Local Abbreviation upload := (upload_request token subject_id title description path).
Local Abbreviation generate := (generate_request token subject_id content_type).
Local Abbreviation then_generate := (after_generate m content_type path).
Local Abbreviation then_upload := (after_upload api m token subject_id content_type path).

(** Whatever the count text is, the draft is read, the notice is sent and
    the upload request goes out. *)
Lemma upload_is_submitted :
  process_count_and_upload api m w =
    then_upload (api upload) (say w [uploading; Call upload]).
Proof.
  unfold process_count_and_upload.
  rewrite (bind_ok _ _ _ _ _ (fetch_ok _ _ _ _ _ Hdraft Hsubject)).
  rewrite (bind_ok _ _ _ _ _ (fetch_ok _ _ _ _ _ Hdraft Hpath)).
  rewrite (bind_ok _ _ _ _ _ (fetch_ok _ _ _ _ _ Hdraft Htitle)).
  rewrite (bind_ok _ _ _ _ _ (fetch_ok _ _ _ _ _ Hdraft Hdescription)).
  rewrite (bind_ok _ _ _ _ _ (fetch_ok _ _ _ _ _ Hdraft Hcontent)).
  rewrite bind_answer.
  erewrite bind_ok by (eapply headers_ok; world_simpl; eassumption).
  erewrite bind_ok by (apply open_rb_ok; world_simpl; assumption).
  rewrite bind_call, say_say. reflexivity.
Qed.

(** The upload failed and its body is a JSON object. *)
Lemma upload_failed_object (kv : list (string * pyval)) :
  status (api upload) <> 201 ->
  body_of (api upload) = Json (PDict kv) ->
  process_count_and_upload api m w =
    (Ok tt, say w [uploading; Call upload;
                   Answer (UploadFailed (match PyVal.dict_lookup kv "error" with
                                         | Some e => e
                                         | None => PStr "Unknown error"
                                         end))]).
Proof.
  intros Hst Hbody. apply Z.eqb_neq in Hst.
  rewrite upload_is_submitted. unfold after_upload. rewrite Hst.
  rewrite (bind_ok _ _ _ _ _ (json_ok _ _ _ Hbody)).
  cbn [PyVal.get]. rewrite bind_lift, answer_eq, say_say. reflexivity.
Qed.

(** The upload failed and its body is not JSON. *)
Lemma upload_failed_not_json :
  status (api upload) <> 201 ->
  body_of (api upload) = NotJson ->
  process_count_and_upload api m w =
    (Raise JSONDecodeError, say w [uploading; Call upload]).
Proof.
  intros Hst Hbody. apply Z.eqb_neq in Hst.
  rewrite upload_is_submitted. unfold after_upload. rewrite Hst.
  now rewrite (bind_raise _ _ _ _ _ (json_raise _ _ Hbody)).
Qed.

(** The upload failed: nothing but the notice, the upload request and at
    most one failure text goes out, and the files on disk are the same. *)
Lemma upload_failed :
  status (api upload) <> 201 ->
  exists rest : list event,
    after (process_count_and_upload api m) w
      = say w ([uploading; Call upload] ++ rest) /\
    (rest = [] \/ exists err, rest = [Answer (UploadFailed err)]).
Proof.
  intros Hst. unfold after.
  destruct (body_of (api upload)) as [|v] eqn:Hbody.
  - rewrite (upload_failed_not_json Hst Hbody). exists []. split; [reflexivity | now left].
  - destruct v; try (
      apply Z.eqb_neq in Hst;
      rewrite upload_is_submitted; unfold after_upload; rewrite Hst;
      rewrite (bind_ok _ _ _ _ _ (json_ok _ _ _ Hbody));
      exists []; split; [reflexivity | now left]).
    rewrite (upload_failed_object kv Hst Hbody).
    eexists. split; [reflexivity | right; eauto].
Qed.

(** Handling the answer to the generation request only adds to the trace. *)
Lemma after_generate_grows (g : response) (w1 : world) :
  path ∈ files w1 ->
  exists rest : list event,
    trace (snd (then_generate g w1)) = (trace w1 ++ rest)%list.
Proof.
  intros Hf.
  unfold after_generate, json, mbind, py_bind, lift, raise, Files.unlink, Fsm.finish,
    show_teacher_menu, answer, emit, mret, py_ret.
  destruct (status g =? 201), (body_of g) as [|v]; cbn;
    try (exists []; now rewrite app_nil_r).
  - destruct (PyVal.eq_str content_type "flashcards" || PyVal.eq_str content_type "both"),
      (PyVal.eq_str content_type "quiz" || PyVal.eq_str content_type "both");
      destruct v; cbn; try (exists []; now rewrite app_nil_r);
      rewrite (decide_True _ _ Hf); cbn; rewrite <- app_assoc; eauto.
  - destruct v; cbn; try (exists []; now rewrite app_nil_r); eauto.
Qed.

(** So does handling the answer to the upload request. *)
Lemma after_upload_grows (r : response) (w1 : world) :
  path ∈ files w1 ->
  exists rest : list event,
    trace (snd (then_upload r w1)) = (trace w1 ++ rest)%list.
Proof.
  intros Hf. unfold after_upload.
  destruct (status r =? 201), (body_of r) as [|v] eqn:Hbody.
  - rewrite (bind_raise _ _ _ _ _ (json_raise _ _ Hbody)).
    exists []. cbn. now rewrite app_nil_r.
  - rewrite (bind_ok _ _ _ _ _ (json_ok _ _ _ Hbody)).
    destruct (PyVal.getitem_str v "id") as [audio_id|e].
    + rewrite bind_lift, bind_call.
      destruct (after_generate_grows (api (generate audio_id (requested_count (text m))))
                  (say w1 [Call (generate audio_id (requested_count (text m)))]) Hf)
        as [rest ->].
      cbn. rewrite <- app_assoc. eauto.
    + exists []. cbn. now rewrite app_nil_r.
  - rewrite (bind_raise _ _ _ _ _ (json_raise _ _ Hbody)).
    exists []. cbn. now rewrite app_nil_r.
  - rewrite (bind_ok _ _ _ _ _ (json_ok _ _ _ Hbody)).
    destruct (PyVal.get v "error" (PStr "Unknown error")) as [err|e].
    + rewrite bind_lift, answer_eq. cbn. eauto.
    + exists []. cbn. now rewrite app_nil_r.
Qed.

(** The upload request always goes out. *)
Lemma upload_goes_out :
  exists rest : list event,
    trace (after (process_count_and_upload api m) w)
      = (trace w ++ [uploading; Call upload] ++ rest)%list.
Proof.
  unfold after. rewrite upload_is_submitted.
  destruct (after_upload_grows (api upload) (say w [uploading; Call upload]) Hfile)
    as [rest ->].
  exists rest. cbn. now rewrite <- app_assoc.
Qed.

(** So a refused upload leaves the temporary file where it is. *)
Lemma upload_failed_keeps_files :
  status (api upload) <> 201 ->
  files (after (process_count_and_upload api m) w) = files w /\
  fsm (after (process_count_and_upload api m) w) = fsm w /\
  forall r : request,
    In (Call r) (trace (after (process_count_and_upload api m) w)) ->
    In (Call r) (trace w) \/ r = upload.
Proof.
  intros Hst. destruct (upload_failed Hst) as (rest & -> & Hrest).
  split; [reflexivity|]. split; [reflexivity|].
  intros r. cbn [trace say app]. rewrite in_app_iff. cbn [In].
  intros [H | [H | [H | H]]]; [now left | discriminate | right; congruence |].
  destruct Hrest as [-> | [err ->]]; [destruct H|].
  destruct H as [H | []]. discriminate.
Qed.

(** The upload succeeded: the generation request carries the count read
    from the text. *)
Lemma generation_is_requested (audio_data audio_id : pyval) :
  status (api upload) = 201 ->
  body_of (api upload) = Json audio_data ->
  PyVal.getitem_str audio_data "id" = Ok audio_id ->
  exists rest : list event,
    trace (after (process_count_and_upload api m) w)
      = (trace w ++ [uploading; Call upload;
                     Call (generate audio_id (requested_count (text m)))] ++ rest)%list.
Proof.
  intros Hst Hbody Hid. unfold after.
  rewrite upload_is_submitted. unfold after_upload. rewrite Hst. cbn [Z.eqb Pos.eqb].
  rewrite (bind_ok _ _ _ _ _ (json_ok _ _ _ Hbody)).
  rewrite Hid, bind_lift, bind_call, say_say.
  set (g := api _). set (w1 := say w _).
  destruct (after_generate_grows g w1 Hfile) as [rest Hrest].
  exists rest. rewrite Hrest. subst w1. cbn. now rewrite <- app_assoc.
Qed.

End Upload.


Example wizard_reaches_count :
  let w := SampleUpload.at_count (SampleUpload.backend SampleUpload.created SampleUpload.generated) in
  fsm w !! SampleUpload.teacher = Some Teacher_waiting_for_count /\
  fsm_data w !! SampleUpload.teacher = Some SampleUpload.draft /\
  elements (files w) = [SampleUpload.temp_file].
Proof. repeat split; reflexivity. Qed.

(** On the path where both requests succeed the temporary file is deleted
    and the flow state is dropped. *)
Example wizard_success_unlinks :
  let api := SampleUpload.backend SampleUpload.created SampleUpload.generated in
  let w' := after (process_count_and_upload api (Message SampleUpload.teacher "12"))
              (SampleUpload.at_count api) in
  run (process_count_and_upload api (Message SampleUpload.teacher "12"))
    (SampleUpload.at_count api) = Ok tt /\
  elements (files w') = [] /\
  fsm w' !! SampleUpload.teacher = None /\
  last (trace w') = Some (Answer TeacherMenu).
Proof. repeat split; reflexivity. Qed.


Lemma temp_file_on_disk (api : request -> response) :
  SampleUpload.temp_file ∈ files (SampleUpload.at_count api).
Proof. apply elem_of_union_l, elem_of_singleton. reflexivity. Qed.


(** C3: when the upload is refused, no generation request is sent, but the
    temporary file is left on disk (and the flow state stays at the count
    step); [wizard_success_unlinks] is the path that deletes it. *)
Theorem upload_failure_keeps_temp_file :
  let w' := after (process_count_and_upload SampleUpload.refusing SampleUpload.count_5)
              (SampleUpload.at_count SampleUpload.refusing) in
  existsb SampleUpload.is_generate (trace w') = false /\
  last (trace w') = Some (Answer (UploadFailed (PStr "storage unavailable"))) /\
  elements (files w') = [SampleUpload.temp_file] /\
  fsm w' !! SampleUpload.teacher = Some Teacher_waiting_for_count.
Proof. repeat split; vm_compute; reflexivity. Qed.

(** C8: a refused upload whose body is not JSON makes the handler raise at
    [response.json()]: no failure text goes out, neither the "Unknown error"
    one nor any other. *)
Theorem unparseable_error_body_raises :
  let act := process_count_and_upload SampleUpload.failing SampleUpload.count_5 in
  run act (SampleUpload.at_count SampleUpload.failing) = Raise JSONDecodeError /\
  existsb SampleUpload.is_failure_text
    (trace (after act (SampleUpload.at_count SampleUpload.failing))) = false.
Proof. split; vm_compute; reflexivity. Qed.

(** The fallback the code does have: the body is a JSON object without an
    [error] entry. *)
Example error_object_without_message :
  let api := SampleUpload.backend (Response 400 (Json (PDict [("detail", PStr "bad")])))
               SampleUpload.generated in
  let act := process_count_and_upload api SampleUpload.count_5 in
  run act (SampleUpload.at_count api) = Ok tt /\
  last (trace (after act (SampleUpload.at_count api)))
    = Some (Answer (UploadFailed (PStr "Unknown error"))).
Proof. split; vm_compute; reflexivity. Qed.

(** ** Computations that only talk

    A computation of this kind reads the world and sends events; sessions,
    FSM storage and files are as they were when it ends, also when it
    raises. *)


Section Talks.

Context {A B : Type}.

Lemma talks_ret (a : A) : talks (mret a : py A).
Proof. intros w. exists []. cbn. now rewrite say_nil. Qed.

Lemma talks_raise (e : exn) : talks (raise e : py A).
Proof. intros w. exists []. cbn. now rewrite say_nil. Qed.

Lemma talks_lift (o : outcome A) : talks (lift o).
Proof. intros w. exists []. cbn. now rewrite say_nil. Qed.

Lemma talks_bind (m : py A) (k : A -> py B) :
  talks m -> (forall a, talks (k a)) -> talks (m ≫= k).
Proof.
  intros Hm Hk w. unfold mbind, py_bind.
  destruct (Hm w) as [es E]. destruct (m w) as [[a|e] w1]; cbn in E; subst w1.
  - destruct (Hk a (say w es)) as [es' E']. exists (es ++ es')%list.
    now rewrite E', say_say.
  - now exists es.
Qed.

Lemma talks_if (b : bool) (m1 m2 : py A) :
  talks m1 -> talks m2 -> talks (if b then m1 else m2).
Proof. now destruct b. Qed.

End Talks.

Lemma talks_emit (e : event) : talks (emit e).
Proof. intros w. now exists [e]. Qed.

Lemma talks_answer (m : outmsg) : talks (answer m).
Proof. intros w. now exists [Answer m]. Qed.

Lemma talks_read (user_id : Z) (key : string) : talks (Sessions.read user_id key).
Proof.
  intros w. exists []. rewrite say_nil. unfold Sessions.read.
  destruct (USER_SESSIONS w !! user_id) as [d|]; [destruct (d !! key)|]; reflexivity.
Qed.

Lemma talks_as_int (v : pyval) : talks (as_int v).
Proof. destruct v; (apply talks_ret || apply talks_raise). Qed.

Lemma talks_as_str (v : pyval) : talks (as_str v).
Proof. destruct v; (apply talks_ret || apply talks_raise). Qed.

Lemma talks_headers (user_id : Z) : talks (Sessions.headers user_id).
Proof. apply talks_bind; [apply talks_read | intros; apply talks_ret]. Qed.

Lemma talks_call (api : request -> response) (r : request) : talks (call api r).
Proof. apply talks_bind; [apply talks_emit | intros; apply talks_ret]. Qed.

Lemma talks_json (r : response) : talks (json r).
Proof. unfold json. destruct (body_of r); (apply talks_ret || apply talks_raise). Qed.

Lemma talks_percentage_of (correct total : Z) : talks (percentage_of correct total).
Proof. apply talks_bind; [apply talks_lift | intros ratio; apply talks_ret]. Qed.

Create HintDb talks.
#[export] Hint Resolve talks_emit talks_answer talks_read talks_as_int talks_as_str
  talks_headers talks_call talks_json talks_percentage_of : talks.

Ltac talks_step :=
  first
    [ solve [auto with talks]
    | apply talks_bind; [| intros ?]
    | apply talks_if
    | apply talks_ret
    | apply talks_raise
    | apply talks_lift ].

Lemma talks_show_student_menu : talks show_student_menu.
Proof. apply talks_answer. Qed.

Lemma talks_show_current_flashcard (user_id : Z) :
  talks (show_current_flashcard user_id).
Proof.
  pose proof talks_show_student_menu.
  unfold show_current_flashcard. repeat talks_step.
Qed.

Lemma talks_show_quiz_question (api : request -> response) (user_id : Z) :
  talks (show_quiz_question api user_id).
Proof.
  pose proof talks_show_student_menu.
  unfold show_quiz_question. repeat talks_step.
Qed.

#[export] Hint Resolve talks_show_student_menu talks_show_current_flashcard
  talks_show_quiz_question : talks.

(** ** Card review *)


Lemma card_session_cursor (w : world) (user_id : Z) (cards : list pyval) (i : Z) :
  card_session w user_id cards i -> cursor w user_id = Some (PInt i).
Proof. intros (d & Hd & _ & Hi & _). unfold cursor. rewrite Hd. exact Hi. Qed.

Lemma get_state_eq (user_id : Z) (w : world) :
  Fsm.get_state user_id w = (Ok (fsm w !! user_id), w).
Proof. reflexivity. Qed.

Section CardReview.

Variable api : request -> response.
Variables (user_id : Z) (cards : list pyval).

(** Every card of the batch has an [id]. *)
Hypothesis Hids : Forall (fun c => exists id, PyVal.getitem_str c "id" = Ok id) cards.

Lemma route_action (a : card_action) (w : world) :
  in_card_session (fsm w !! user_id) = true ->
  route_callback api (press user_id a) w =
    match a with
    | Skip => skip_card_handler (press user_id a) w
    | KnewIt => knew_it_handler api (press user_id a) w
    | StillLearning => still_learning_handler api (press user_id a) w
    end.
Proof.
  intros Hst. unfold route_callback.
  rewrite (bind_ok _ _ _ _ _ (get_state_eq _ _)).
  cbn [cb_from_user press].
  destruct a; cbn [data press action_data]; cbn; rewrite Hst; reflexivity.
Qed.

Lemma card_session_say (w : world) (i : Z) (es : list event) :
  card_session w user_id cards i -> card_session (say w es) user_id cards i.
Proof. intros (d & H1 & H2 & H3 & H4 & H5). now exists d. Qed.

Lemma card_session_incr (w : world) (i : Z) :
  card_session w user_id cards i ->
  exists w1, Sessions.incr user_id "current_index" w = (Ok tt, w1) /\
             card_session w1 user_id cards (i + 1) /\
             trace w1 = trace w.
Proof.
  intros (d & H1 & H2 & H3 & H4 & H5).
  eexists. split; [exact (incr_ok _ _ _ _ _ H1 H3)|].
  split; [|reflexivity].
  exists (<["current_index" := PInt (i + 1)]> d); world_simpl.
  split; [apply lookup_insert_eq|].
  split; [rewrite lookup_insert_ne by discriminate; exact H2|].
  split; [apply lookup_insert_eq|].
  split; [rewrite lookup_insert_ne by discriminate; exact H4 | exact H5].
Qed.

(** After the cursor moved, the handlers only talk. *)
Lemma card_session_show (w : world) (i : Z) (k : py unit) :
  talks k -> card_session w user_id cards i ->
  card_session (snd (k w)) user_id cards i.
Proof. intros Hk Hs. destruct (Hk w) as [es ->]. now apply card_session_say. Qed.

(** Skip moves the cursor, wherever it is. *)
Lemma skip_moves_cursor (w : world) (i : Z) :
  card_session w user_id cards i ->
  card_session (tap api w (press user_id Skip)) user_id cards (i + 1).
Proof.
  intros Hs. unfold tap.
  rewrite route_action by (destruct Hs as (d & _ & _ & _ & _ & H); exact H).
  unfold skip_card_handler. cbn [cb_from_user press].
  destruct (card_session_incr w i Hs) as (w1 & E & Hs1 & _).
  rewrite (bind_ok _ _ _ _ _ E).
  apply card_session_show; [|exact Hs1].
  repeat talks_step.
Qed.

(** A grade moves the cursor when it points at a card. *)
Lemma grade_moves_cursor (knew : bool) (w : world) (i : Z) :
  card_session w user_id cards i ->
  0 <= i < Z.of_nat (length cards) ->
  card_session (snd (grade_handler api knew (CallbackQuery user_id (if knew then "knew_it" else "learning")) w))
    user_id cards (i + 1).
Proof.
  intros Hs Hi. pose proof Hs as (d & H1 & H2 & H3 & [tok H4] & H5).
  unfold grade_handler. cbn [cb_from_user].
  rewrite (bind_ok _ _ _ _ _ (read_ok _ _ _ _ _ H1 H2)).
  rewrite (read_int_ok _ _ _ _ _ _ H1 H3).
  assert (Hcard : exists c, PyVal.getitem_int (PList cards) i = Ok c /\ c ∈ cards).
  { unfold PyVal.getitem_int, PyVal.list_index.
    replace ((0 <=? i) && (i <? Z.of_nat (length cards))) with true
      by (symmetry; apply andb_true_iff; split; [apply Z.leb_le | apply Z.ltb_lt]; lia).
    destruct (cards !! Z.to_nat i) as [c|] eqn:E.
    - exists c. split; [reflexivity|]. eapply list_elem_of_lookup_2. exact E.
    - apply lookup_ge_None in E. lia. }
  destruct Hcard as (c & -> & Hc). rewrite bind_lift.
  rewrite (bind_ok _ _ _ _ _ (headers_ok _ _ _ _ H1 H4)).
  rewrite (bind_ok _ _ _ _ _ (get_state_eq _ _)).
  rewrite Forall_forall in Hids. destruct (Hids c Hc) as [id ->]. rewrite bind_lift.
  assert (Hcall : forall r (k : py unit), talks k ->
            card_session (snd ((call api r ≫= fun _ =>
               Sessions.incr user_id "current_index" ≫= fun _ => k) w)) user_id cards (i + 1)).
  { intros r k Hk. rewrite bind_call.
    destruct (card_session_incr (say w [Call r]) i (card_session_say _ _ _ Hs))
      as (w1 & E & Hs1 & _).
    rewrite (bind_ok _ _ _ _ _ E). now apply card_session_show. }
  destruct (decide (fsm w !! user_id = Some Student_in_learning_session));
    apply Hcall; repeat talks_step.
Qed.

(** Each action taken while the cursor points at a card moves it by one. *)
Lemma action_moves_cursor (a : card_action) (w : world) (i : Z) :
  card_session w user_id cards i ->
  0 <= i < Z.of_nat (length cards) ->
  card_session (tap api w (press user_id a)) user_id cards (i + 1).
Proof.
  intros Hs Hi. destruct a.
  - now apply skip_moves_cursor.
  - unfold tap.
    rewrite route_action by (destruct Hs as (d & _ & _ & _ & _ & H); exact H).
    exact (grade_moves_cursor true w i Hs Hi).
  - unfold tap.
    rewrite route_action by (destruct Hs as (d & _ & _ & _ & _ & H); exact H).
    exact (grade_moves_cursor false w i Hs Hi).
Qed.

(** As long as the batch is not used up, the cursor counts the actions. *)
Lemma cursor_counts_actions (acts : list card_action) (w : world) (i : Z) :
  card_session w user_id cards i ->
  0 <= i ->
  i + Z.of_nat (length acts) <= Z.of_nat (length cards) ->
  card_session (taps api w (map (press user_id) acts)) user_id cards
    (i + Z.of_nat (length acts)).
Proof.
  revert w i. induction acts as [|a acts IH]; intros w i Hs Hi Hlen.
  - cbn. now rewrite Z.add_0_r.
  - cbn [length map taps fold_left] in *.
    replace (i + Z.of_nat (S (length acts))) with ((i + 1) + Z.of_nat (length acts)) by lia.
    apply IH; [apply action_moves_cursor; [exact Hs | lia] | lia | lia].
Qed.

(** What the user is shown when the cursor has reached the end. *)
Lemma completion_is_announced (w : world) (i : Z) :
  card_session w user_id cards i ->
  Z.of_nat (length cards) <= i ->
  show_current_flashcard user_id w =
    (Ok tt, say w [Answer (Text "You've reviewed all the flashcards in this session! 🎉");
                   Answer StudentMenu]).
Proof.
  intros (d & H1 & H2 & H3 & _ & _) Hi. unfold show_current_flashcard.
  rewrite (bind_ok _ _ _ _ _ (read_ok _ _ _ _ _ H1 H2)).
  rewrite (read_int_ok _ _ _ _ _ _ H1 H3).
  cbn [PyVal.len]. rewrite bind_lift.
  replace (i >=? Z.of_nat (length cards)) with true by (symmetry; apply Z.geb_le; lia).
  rewrite bind_answer. unfold show_student_menu. now rewrite answer_eq, say_say.
Qed.

(** Showing a card, or the end of the session, leaves the flow state as
    it is. *)
Lemma show_keeps_flow_state (w : world) :
  fsm (snd (show_current_flashcard user_id w)) = fsm w.
Proof. destruct (talks_show_current_flashcard user_id w) as [es ->]. reflexivity. Qed.

(** A further Skip moves the cursor past the end. *)
Lemma skip_past_the_end (w : world) :
  card_session w user_id cards (Z.of_nat (length cards)) ->
  cursor (tap api w (press user_id Skip)) user_id
    = Some (PInt (Z.of_nat (length cards) + 1)).
Proof. intros Hs. eapply card_session_cursor, skip_moves_cursor, Hs. Qed.

End CardReview.


Example learning_starts_at_zero :
  cursor SampleCards.started Sample.alice = Some (PInt 0) /\
  fsm SampleCards.started !! Sample.alice = Some Student_in_learning_session /\
  last (trace SampleCards.started) =
    Some (AnswerButtons (CardFront 1 1 (PStr "cell division"))
            [(PStr "Show Answer", Lit "show_answer"); (PStr "Skip", Lit "skip_card")]).
Proof. repeat split; vm_compute; reflexivity. Qed.

(** The sample session is a card session at cursor 0; one grade moves the
    cursor to the end of the batch, and one more Skip moves it past the end. *)
Example sample_batch_is_walked :
  card_session SampleCards.started Sample.alice [SampleCards.card] 0 /\
  cursor (taps SampleCards.backend SampleCards.started [press Sample.alice KnewIt])
    Sample.alice = Some (PInt 1) /\
  cursor (taps SampleCards.backend SampleCards.started
            [press Sample.alice KnewIt; press Sample.alice Skip])
    Sample.alice = Some (PInt 2).
Proof.
  assert (Hids : Forall (fun c => exists id, PyVal.getitem_str c "id" = Ok id)
                   [SampleCards.card]).
  { constructor; [now exists (PInt 1) | constructor]. }
  assert (Hs : card_session SampleCards.started Sample.alice [SampleCards.card] 0).
  { eexists. split; [reflexivity|]. split; [reflexivity|]. split; [reflexivity|].
    split; [eexists; reflexivity | reflexivity]. }
  pose proof (cursor_counts_actions SampleCards.backend Sample.alice [SampleCards.card] Hids
                [KnewIt] SampleCards.started 0 Hs ltac:(lia) ltac:(cbn; lia)) as H1.
  split; [exact Hs|]. split.
  - exact (card_session_cursor _ _ _ _ H1).
  - exact (skip_past_the_end SampleCards.backend Sample.alice [SampleCards.card] _ H1).
Qed.

(** C1: on a batch of one card, two taps on Skip (a double tap on the last
    card) leave the cursor at 2: the second tap is still routed to
    [skip_card_handler], which adds 1 without looking at the batch. *)
Theorem skip_overruns_batch :
  let w1 := tap SampleCards.backend SampleCards.started SampleCards.skip in
  let w2 := tap SampleCards.backend w1 SampleCards.skip in
  cursor w1 Sample.alice = Some (PInt 1) /\
  cursor w2 Sample.alice = Some (PInt 2) /\
  (USER_SESSIONS w2 !! Sample.alice ≫= (fun d => d !! "current_flashcards"))
    = Some (PList [SampleCards.card]).
Proof. repeat split; vm_compute; reflexivity. Qed.

(** C6: when the last card is skipped the end of the session is announced
    and the student menu is shown, but the flow state is still
    [Student_in_learning_session]. *)
Theorem completion_keeps_flow_state :
  let w1 := tap SampleCards.backend SampleCards.started SampleCards.skip in
  trace w1 =
    (trace SampleCards.started ++
     [AnswerCallback None; DeleteMessage;
      Answer (Text "You've reviewed all the flashcards in this session! 🎉");
      Answer StudentMenu])%list /\
  fsm w1 !! Sample.alice = Some Student_in_learning_session.
Proof. split; vm_compute; reflexivity. Qed.

(** ** Quizzes *)


Lemma percentage_of_ok {B} (c total : Z) (ratio : float) (k : float -> py B) (w : world) :
  PyFloat.int_truediv c total = Ok ratio ->
  (percentage_of c total ≫= k) w = k (PyFloat.mul ratio (PyFloat.of_int 100)) w.
Proof. intros E. unfold percentage_of. now rewrite E. Qed.

Lemma count_correct_all (sels answers : list string) :
  Forall2 (fun s a => matches s a = true) sels answers ->
  count_correct sels answers = Z.of_nat (length sels).
Proof.
  induction 1 as [|s a sels answers Hm _ IH]; [reflexivity|].
  cbn [count_correct length]. rewrite Hm, IH. lia.
Qed.

Lemma count_correct_bounds (sels answers : list string) :
  0 <= count_correct sels answers <= Z.of_nat (length sels).
Proof.
  revert answers. induction sels as [|s sels IH]; intros [|a answers];
    cbn [count_correct length]; try lia.
  specialize (IH answers). destruct (matches s a); lia.
Qed.

(** The option comes back out of the callback data, underscores and all. *)
Lemma option_data_roundtrip (s : string) : split1 "_" ("option_" ++ s) = ["option"; s].
Proof. reflexivity. Qed.

Lemma field_str_ok {B} (fields : list string) (s : string) (k : string -> py B) (w : world) :
  fields !! 1%nat = Some s -> ((field1 fields ≫= as_str) ≫= k) w = k s w.
Proof.
  intros E. rewrite (bind_assoc (field1 fields) as_str).
  unfold field1. now rewrite E.
Qed.

Lemma lift_str_ok {B} (o : outcome pyval) (s : string) (k : string -> py B) (w : world) :
  o = Ok (PStr s) -> ((lift o ≫= as_str) ≫= k) w = k s w.
Proof. intros ->. now rewrite (bind_assoc (lift (Ok (PStr s))) as_str). Qed.

Section Quiz.

Variable api : request -> response.
Variables (user_id : Z) (quiz : pyval) (questions : list pyval).

Hypothesis Hquestions : PyVal.getitem_str quiz "questions" = Ok (PList questions).

Let total : Z := Z.of_nat (length questions).

Lemma quiz_attempt_say (w : world) (idx c : Z) (es : list event) :
  quiz_attempt w user_id quiz idx c -> quiz_attempt (say w es) user_id quiz idx c.
Proof. intros (d & H1 & H2 & H3 & H4). now exists d. Qed.

(** The score is reported once the cursor has reached the end. *)
Lemma quiz_completion (w : world) (idx c : Z) (ratio : float) :
  quiz_attempt w user_id quiz idx c ->
  total <= idx -> PyFloat.int_truediv c total = Ok ratio ->
  exists rest : list event,
    after (show_quiz_question api user_id) w = say w (reported questions c ratio :: rest).
Proof.
  intros (d & H1 & H2 & H3 & H4) Hidx Hratio. unfold after, show_quiz_question.
  rewrite (bind_ok _ _ _ _ _ (read_ok _ _ _ _ _ H1 H2)).
  rewrite (read_int_ok _ _ _ _ _ _ H1 H3).
  rewrite Hquestions, bind_lift. cbn [PyVal.len]. rewrite bind_lift. fold total.
  replace (idx >=? total) with true by (symmetry; apply Z.geb_le; lia).
  rewrite (read_int_ok _ _ _ _ _ _ H1 H4).
  rewrite (percentage_of_ok _ _ _ _ _ Hratio), bind_answer.
  match goal with |- context [snd (?k (say w ?es))] =>
    assert (Hk : talks k) by (repeat talks_step);
    destruct (Hk (say w es)) as [rest ->]
  end.
  exists rest. now rewrite say_say.
Qed.

(** One answer: the cursor moves by one, the count by one exactly when the
    selected option matches, and then the next question or the score is
    shown. *)
Lemma answer_step (w : world) (idx c : Z) (q : pyval) (s a : string) :
  quiz_attempt w user_id quiz idx c ->
  0 <= idx -> questions !! Z.to_nat idx = Some q ->
  PyVal.getitem_str q "correct_answer" = Ok (PStr a) ->
  exists w1 : world,
    quiz_attempt w1 user_id quiz (idx + 1) (c + if matches s a then 1 else 0) /\
    trace w1 = (trace w ++ [AnswerCallback None; DeleteMessage])%list /\
    quiz_answer_handler api (choose user_id s) w = show_quiz_question api user_id w1.
Proof.
  intros (d & H1 & H2 & H3 & H4) Hidx Hq Ha.
  unfold quiz_answer_handler. cbn [cb_from_user choose data].
  rewrite (bind_ok _ _ _ _ _ (read_ok _ _ _ _ _ H1 H2)).
  rewrite (read_int_ok _ _ _ _ _ _ H1 H3).
  rewrite Hquestions, bind_lift.
  assert (Hget : PyVal.getitem_int (PList questions) idx = Ok q).
  { unfold PyVal.getitem_int, PyVal.list_index.
    pose proof (lookup_lt_Some _ _ _ Hq).
    replace ((0 <=? idx) && (idx <? Z.of_nat (length questions))) with true
      by (symmetry; apply andb_true_iff; split; [apply Z.leb_le | apply Z.ltb_lt]; lia).
    now rewrite Hq. }
  rewrite Hget, bind_lift.
  rewrite (field_str_ok _ s) by reflexivity.
  rewrite (lift_str_ok _ a) by exact Ha.
  destruct (matches s a).
  - erewrite bind_ok by (exact (incr_ok _ _ _ _ _ H1 H4)).
    erewrite bind_ok
      by (eapply incr_ok; world_simpl;
          [apply lookup_insert_eq | rewrite lookup_insert_ne by discriminate; exact H3]).
    rewrite !bind_emit, say_say.
    eexists. split; [|split; [|reflexivity]]; [|reflexivity].
    eexists. world_simpl. split; [apply lookup_insert_eq|].
    split; [now rewrite !lookup_insert_ne by discriminate|].
    split; [apply lookup_insert_eq|].
    rewrite lookup_insert_ne by discriminate. apply lookup_insert_eq.
  - rewrite bind_ret.
    erewrite bind_ok by (exact (incr_ok _ _ _ _ _ H1 H3)).
    rewrite !bind_emit, say_say.
    eexists. split; [|split; [|reflexivity]]; [|reflexivity].
    eexists. world_simpl. split; [apply lookup_insert_eq|].
    split; [now rewrite !lookup_insert_ne by discriminate|].
    split; [apply lookup_insert_eq|].
    rewrite lookup_insert_ne by discriminate. now rewrite Z.add_0_r.
Qed.


Lemma after_answer (w : world) (idx c : Z) (q : pyval) (s a : string) :
  quiz_attempt w user_id quiz idx c ->
  0 <= idx -> questions !! Z.to_nat idx = Some q ->
  PyVal.getitem_str q "correct_answer" = Ok (PStr a) ->
  let w' := after (quiz_answer_handler api (choose user_id s)) w in
  let c' := c + (if matches s a then 1 else 0) in
  quiz_attempt w' user_id quiz (idx + 1) c' /\
  (idx + 1 = total ->
   forall ratio, PyFloat.int_truediv c' total = Ok ratio ->
   exists pre rest : list event, trace w' = (pre ++ reported questions c' ratio :: rest)%list).
Proof.
  intros Hs Hidx Hq Ha w' c'.
  destruct (answer_step w idx c q s a Hs Hidx Hq Ha) as (w1 & Hs1 & _ & E).
  subst w'. unfold after. rewrite E. split.
  - destruct (talks_show_quiz_question api user_id w1) as [es ->].
    now apply quiz_attempt_say.
  - intros Hlast ratio Hratio.
    destruct (quiz_completion w1 (idx + 1) c' ratio Hs1) as [rest Hrest]; [lia | exact Hratio |].
    unfold after in Hrest. rewrite Hrest.
    exists (trace w1), rest. reflexivity.
Qed.

Lemma answers_run (sels : list string) :
  forall (done rest : list pyval) (answers : list string) (w : world) (c : Z),
    questions = (done ++ rest)%list ->
    Forall2 (fun q a => PyVal.getitem_str q "correct_answer" = Ok (PStr a)) rest answers ->
    (length sels <= length rest)%nat ->
    quiz_attempt w user_id quiz (Z.of_nat (length done)) c ->
    let w' := answer_all api user_id w sels in
    let c' := c + count_correct sels answers in
    quiz_attempt w' user_id quiz (Z.of_nat (length done + length sels)) c' /\
    (sels <> [] -> length sels = length rest ->
     forall ratio, PyFloat.int_truediv c' total = Ok ratio ->
     exists pre post : list event,
       trace w' = (pre ++ reported questions c' ratio :: post)%list).
Proof.
  induction sels as [|s sels IH]; intros done rest answers w c Hqs Hans Hlen Hs w' c'.
  - subst w' c'. cbn. rewrite Nat.add_0_r, Z.add_0_r. split; [exact Hs | congruence].
  - destruct Hans as [|q a rest answers Ha Hans]; [cbn in Hlen; lia|].
    assert (Hq : questions !! Z.to_nat (Z.of_nat (length done)) = Some q).
    { rewrite Nat2Z.id, Hqs. apply list_lookup_middle. reflexivity. }
    destruct (after_answer w (Z.of_nat (length done)) c q s a Hs ltac:(lia) Hq Ha)
      as [Hs1 Hdone].
    set (w1 := after (quiz_answer_handler api (choose user_id s)) w) in *.
    assert (Hqs' : questions = ((done ++ [q]) ++ rest)%list)
      by (now rewrite <- app_assoc).
    assert (Hs1' : quiz_attempt w1 user_id quiz (Z.of_nat (length (done ++ [q])))
                     (c + (if matches s a then 1 else 0))).
    { rewrite length_app. cbn [length]. now rewrite Nat2Z.inj_add. }
    destruct (IH (done ++ [q])%list rest answers w1 _ Hqs' Hans
                ltac:(cbn in Hlen; lia) Hs1') as [Hrun Hend].
    assert (Hc : c + (if matches s a then 1 else 0) + count_correct sels answers = c')
      by (subst c'; cbn [count_correct]; lia).
    rewrite Hc in Hrun, Hend.
    change (answer_all api user_id w1 sels) with w' in Hrun, Hend.
    split.
    + rewrite length_app in Hrun. cbn [length] in *.
      now replace (length done + S (length sels))%nat
        with (length done + 1 + length sels)%nat by lia.
    + intros _ Hall ratio Hratio. destruct sels as [|s' sels].
      * destruct rest; [|discriminate Hall].
        subst c'. cbn [count_correct] in *. rewrite Z.add_0_r in *.
        apply Hdone; [|exact Hratio].
        unfold total. rewrite Hqs, length_app. cbn [length]. lia.
      * apply Hend; [discriminate | cbn in *; lia | exact Hratio].
Qed.

End Quiz.





(** ** Selecting a quiz *)

Lemma startswith_app (p s : string) :
  startswith p s = true -> exists r : string, s = p ++ r.
Proof.
  revert s. induction p as [|a p IH]; intros s H.
  - now exists s.
  - destruct s as [|b s]; [discriminate|]. cbn in H.
    destruct (Ascii.eqb_spec a b) as [->|]; [|discriminate].
    destruct (IH s H) as [r ->]. now exists r.
Qed.

Lemma split_not_nil (sep : ascii) (s : string) : split sep s <> [].
Proof.
  induction s as [|c s IH]; cbn; [discriminate|].
  destruct (Ascii.eqb c sep); [discriminate|].
  destruct (split sep s); [contradiction | discriminate].
Qed.

(** The data of a quiz button always has a field after the first [_]. *)
Lemma quiz_id_exists (d : string) :
  startswith "quiz_" d = true -> exists id : string, split "_" d !! 1%nat = Some id.
Proof.
  intros H. destruct (startswith_app _ _ H) as [r ->].
  change (split "_" ("quiz_" ++ r)) with ("quiz" :: split "_" r).
  destruct (split "_" r) as [|id l] eqn:E; [now apply split_not_nil in E|].
  now exists id.
Qed.

(** A user without a session, or whose session holds no token, taps a quiz
    button: [start_quiz] raises when it builds the headers; nothing is sent. *)
Lemma start_quiz_not_logged_in (api : request -> response) (c : callback_query) (w : world) :
  startswith "quiz_" (data c) = true ->
  (USER_SESSIONS w !! cb_from_user c = None ->
   start_quiz api c w = (Raise (KeyError (PInt (cb_from_user c))), w)) /\
  (forall d, USER_SESSIONS w !! cb_from_user c = Some d -> d !! "access_token" = None ->
   start_quiz api c w = (Raise (KeyError (PStr "access_token")), w)).
Proof.
  intros H. destruct (quiz_id_exists _ H) as [id Hid]. unfold start_quiz.
  split.
  - intros Hnone. rewrite (field_str_ok _ id) by exact Hid.
    now rewrite (bind_raise _ _ _ _ _ (headers_no_session _ _ Hnone)).
  - intros d Hd Htok. rewrite (field_str_ok _ id) by exact Hid.
    unfold Sessions.headers. rewrite bind_assoc.
    unfold Sessions.read at 1. unfold mbind at 1, py_bind. now rewrite Hd, Htok.
Qed.

(** The entry points that do check: without a session or a token they ask
    for a login and send nothing to the backend. *)
Lemma guarded_entry_points (api : request -> response) (m : message) (w : world) :
  Sessions.not_logged_in (from_user m) w = (Ok true, w) ->
  let prompt := (Ok tt, say w [Answer (Text "Please login first.")]) in
  upload_audio_handler api m w = prompt /\
  learn_new_flashcards_handler api m w = prompt /\
  review_flashcards_handler api m w = prompt /\
  take_quiz_handler api m w = prompt.
Proof.
  intros H prompt.
  unfold upload_audio_handler, learn_new_flashcards_handler, review_flashcards_handler,
    load_flashcards, take_quiz_handler.
  rewrite !(bind_ok _ _ _ _ _ H). repeat split.
Qed.

(** C9: a user without a session taps a quiz button. [take_quiz_handler]
    asks for a login; [start_quiz], which has no such check, raises
    [KeyError] on the session lookup and sends nothing. *)
Theorem start_quiz_lacks_login_check :
  let tap := CallbackQuery Sample.alice "quiz_5" in
  take_quiz_handler SampleQuiz.backend (Message Sample.alice "📝 Take Quiz") empty_world
    = (Ok tt, say empty_world [Answer (Text "Please login first.")]) /\
  start_quiz SampleQuiz.backend tap empty_world
    = (Raise (KeyError (PInt Sample.alice)), empty_world).
Proof.
  split.
  - apply (guarded_entry_points SampleQuiz.backend (Message Sample.alice "📝 Take Quiz")).
    reflexivity.
  - apply (start_quiz_not_logged_in SampleQuiz.backend (CallbackQuery Sample.alice "quiz_5"));
      reflexivity.
Qed.

(** A quiz without questions is accepted when it is selected and the
    percentage is computed at once: the division by zero is reached. *)
Lemma empty_quiz_divides_by_zero (api : request -> response) (w : world) (user_id : Z)
    (quiz : pyval) (d : gmap string pyval) :
  USER_SESSIONS w !! user_id = Some d ->
  d !! "current_quiz" = Some quiz ->
  d !! "current_question" = Some (PInt 0) ->
  d !! "correct_answers" = Some (PInt 0) ->
  PyVal.getitem_str quiz "questions" = Ok (PList []) ->
  show_quiz_question api user_id w = (Raise ZeroDivisionError, w).
Proof.
  intros H1 H2 H3 H4 Hq. unfold show_quiz_question.
  rewrite (bind_ok _ _ _ _ _ (read_ok _ _ _ _ _ H1 H2)).
  rewrite (read_int_ok _ _ _ _ _ _ H1 H3).
  rewrite Hq, bind_lift. cbn [PyVal.len]. rewrite bind_lift.
  change (0 >=? Z.of_nat (length (@nil pyval))) with true. cbv iota.
  rewrite (read_int_ok _ _ _ _ _ _ H1 H4). reflexivity.
Qed.

(** C4: the student selects a quiz that has no questions. The quiz is not
    turned away: it is stored as the current quiz and announced, and then
    the percentage is computed with a total of 0. *)
Theorem empty_quiz_is_not_rejected :
  let act := start_quiz SampleQuiz.backend (CallbackQuery Sample.alice "quiz_6") in
  run act Sample.logged_in = Raise ZeroDivisionError /\
  (USER_SESSIONS (after act Sample.logged_in) !! Sample.alice
     ≫= (fun d => d !! "current_quiz")) = Some SampleQuiz.no_questions /\
  last (trace (after act Sample.logged_in))
    = Some (Answer (StartingQuiz (PStr "Draft") (PStr ""))).
Proof. repeat split; vm_compute; reflexivity. Qed.

(** * Further properties of the handlers *)

(** ** What a handler sends *)

Section Sends.

Context {A B : Type} (P : event -> Prop).

Lemma sends_quiet (m : py A) :
  (forall w, trace (snd (m w)) = trace w) -> sends P m.
Proof. intros H w. exists []. rewrite H, app_nil_r. now split. Qed.

Lemma sends_ret (a : A) : sends P (mret a : py A).
Proof. now apply sends_quiet. Qed.

Lemma sends_raise (e : exn) : sends P (raise e : py A).
Proof. now apply sends_quiet. Qed.

Lemma sends_lift (o : outcome A) : sends P (lift o).
Proof. now apply sends_quiet. Qed.

Lemma sends_bind (m : py A) (k : A -> py B) :
  sends P m -> (forall a, sends P (k a)) -> sends P (m ≫= k).
Proof.
  intros Hm Hk w. unfold mbind, py_bind.
  destruct (Hm w) as (es & E & HP). destruct (m w) as [[a|e] w1]; cbn in E.
  - destruct (Hk a w1) as (es' & E' & HP'). exists (es ++ es')%list.
    rewrite E', E, <- app_assoc. split; [reflexivity | now apply Forall_app].
  - now exists es.
Qed.

Lemma sends_if (b : bool) (m1 m2 : py A) :
  sends P m1 -> sends P m2 -> sends P (if b then m1 else m2).
Proof. now destruct b. Qed.

End Sends.

Lemma sends_emit (P : event -> Prop) (e : event) : P e -> sends P (emit e).
Proof. intros H w. exists [e]. split; [reflexivity | now repeat constructor]. Qed.

Lemma sends_answer (P : event -> Prop) (m : outmsg) : P (Answer m) -> sends P (answer m).
Proof. apply sends_emit. Qed.

Lemma sends_call (P : event -> Prop) (api : request -> response) (r : request) :
  P (Call r) -> sends P (call api r).
Proof. intros H. apply sends_bind; [now apply sends_emit | intros; apply sends_ret]. Qed.

Section Quiet.

Context (P : event -> Prop).

Lemma sends_read (u : Z) (key : string) : sends P (Sessions.read u key).
Proof.
  apply sends_quiet. intros w. unfold Sessions.read.
  destruct (USER_SESSIONS w !! u) as [d|]; [destruct (d !! key)|]; reflexivity.
Qed.

Lemma sends_write (u : Z) (key : string) (v : pyval) : sends P (Sessions.write u key v).
Proof.
  apply sends_quiet. intros w. unfold Sessions.write.
  destruct (USER_SESSIONS w !! u); reflexivity.
Qed.

Lemma sends_replace (u : Z) (d : gmap string pyval) : sends P (Sessions.replace u d).
Proof. now apply sends_quiet. Qed.

Lemma sends_incr (u : Z) (key : string) : sends P (Sessions.incr u key).
Proof.
  apply sends_bind; [apply sends_read|]. intros v.
  destruct v; (apply sends_raise || apply sends_write).
Qed.

Lemma sends_headers (u : Z) : sends P (Sessions.headers u).
Proof. apply sends_bind; [apply sends_read | intros; apply sends_ret]. Qed.

Lemma sends_not_logged_in (u : Z) : sends P (Sessions.not_logged_in u).
Proof. now apply sends_quiet. Qed.

Lemma sends_set (u : Z) (s : fsm_state) : sends P (Fsm.set u s).
Proof. now apply sends_quiet. Qed.

Lemma sends_finish (u : Z) : sends P (Fsm.finish u).
Proof. now apply sends_quiet. Qed.

Lemma sends_get_state (u : Z) : sends P (Fsm.get_state u).
Proof. now apply sends_quiet. Qed.

Lemma sends_put (u : Z) (key : string) (v : pyval) : sends P (Fsm.put u key v).
Proof. now apply sends_quiet. Qed.

Lemma sends_fetch (u : Z) (key : string) : sends P (Fsm.fetch u key).
Proof.
  apply sends_quiet. intros w. unfold Fsm.fetch.
  destruct (default ∅ (fsm_data w !! u) !! key); reflexivity.
Qed.

Lemma sends_create (name : string) : sends P (Files.create name).
Proof. now apply sends_quiet. Qed.

Lemma sends_open_rb (path : pyval) : sends P (Files.open_rb path).
Proof.
  apply sends_quiet. intros w. unfold Files.open_rb.
  destruct path; try reflexivity. destruct (decide (s ∈ files w)); reflexivity.
Qed.

Lemma sends_unlink (path : string) : sends P (Files.unlink path).
Proof.
  apply sends_quiet. intros w. unfold Files.unlink.
  destruct (decide (path ∈ files w)); reflexivity.
Qed.

Lemma sends_json (r : response) : sends P (json r).
Proof. unfold json. destruct (body_of r); (apply sends_ret || apply sends_raise). Qed.

Lemma sends_as_int (v : pyval) : sends P (as_int v).
Proof. destruct v; (apply sends_ret || apply sends_raise). Qed.

Lemma sends_as_str (v : pyval) : sends P (as_str v).
Proof. destruct v; (apply sends_ret || apply sends_raise). Qed.

Lemma sends_field1 (fields : list string) : sends P (field1 fields).
Proof. unfold field1. destruct (fields !! 1%nat); (apply sends_ret || apply sends_raise). Qed.

Lemma sends_percentage_of (correct total : Z) : sends P (percentage_of correct total).
Proof. apply sends_bind; [apply sends_lift | intros ratio; apply sends_ret]. Qed.

End Quiet.

Create HintDb sends.
#[export] Hint Resolve sends_read sends_write sends_replace sends_incr sends_headers
  sends_not_logged_in sends_set sends_finish sends_get_state sends_put sends_fetch
  sends_create sends_open_rb sends_unlink sends_json sends_as_int sends_as_str
  sends_field1 sends_percentage_of : sends.

Ltac sends_step :=
  first
    [ solve [auto with sends]
    | apply sends_bind; [| intros ?]
    | apply sends_if
    | apply sends_ret
    | apply sends_raise
    | apply sends_lift
    | apply sends_emit; cbn
    | apply sends_answer; cbn
    | apply sends_call; cbn ].

(** ** Authentication *)

(** X1: an entry point that checks the login, called by a user who has no
    session or whose session holds no token, sends the login prompt and
    nothing else: no request goes to the backend and the world is otherwise
    as it was. *)
Theorem entry_points_ask_for_login
    (api : request -> response) (m : message) (w : world) :
  (USER_SESSIONS w !! from_user m = None \/
   exists d, USER_SESSIONS w !! from_user m = Some d /\ d !! "access_token" = None) ->
  let prompt := (Ok tt, say w [Answer (Text "Please login first.")]) in
  upload_audio_handler api m w = prompt /\
  learn_new_flashcards_handler api m w = prompt /\
  review_flashcards_handler api m w = prompt /\
  take_quiz_handler api m w = prompt.
Proof.
  intros H. apply guarded_entry_points. unfold Sessions.not_logged_in.
  destruct H as [-> | (d & -> & ->)]; reflexivity.
Qed.

Lemma entry_points_ask_for_login_witness :
  take_quiz_handler SampleQuiz.backend (Message Sample.alice "📝 Take Quiz")
    SampleLogin.awaiting_password
  = (Ok tt, say SampleLogin.awaiting_password [Answer (Text "Please login first.")]).
Proof.
  apply (entry_points_ask_for_login SampleQuiz.backend
           (Message Sample.alice "📝 Take Quiz") SampleLogin.awaiting_password).
  right. eexists. split; reflexivity.
Defined.

(** X2: whatever the backend answers and whatever the session holds, the
    password step sends nothing but: the deletion of the password message,
    requests to the token endpoint, the two texts of a failed login and the
    two menus. The password goes to the token endpoint only. *)
Theorem password_step_sends_fixed_texts
    (api : request -> response) (m : message) (w : world) :
  exists es : list event,
    trace (after (process_password api m) w) = (trace w ++ es)%list /\
    Forall password_step_event es.
Proof.
  revert w. change (sends password_step_event (process_password api m)).
  unfold process_password, show_teacher_menu, show_student_menu.
  repeat sends_step; auto.
Qed.

Section Login.

Variable api : request -> response.
Variables (w : world) (button name password : string) (u : Z).
Variables (tokens access refresh : pyval).

Let role : string := if contains "Teacher" button then "teacher" else "student".
Let w1 : world := after (login_handler (Message u button)) w.
Let w2 : world := after (process_username (Message u name)) w1.
Let w3 : world := after (process_password api (Message u password)) w2.

Hypothesis Hstatus : status (api (token_request (Message u password) (PStr name))) = 200.
Hypothesis Hbody : body_of (api (token_request (Message u password) (PStr name))) = Json tokens.
Hypothesis Haccess : PyVal.getitem_str tokens "access" = Ok access.
Hypothesis Hrefresh : PyVal.getitem_str tokens "refresh" = Ok refresh.

Lemma login_steps :
  w3 = World (<[u := <["refresh_token" := refresh]> (<["access_token" := access]>
                       (<["username" := PStr name]> {[ "role" := PStr role ]}))]>
                (USER_SESSIONS w))
             (delete u (fsm w)) (delete u (fsm_data w)) (files w)
             (trace w ++ [Answer (Text "Please enter your Attendo username:");
                          Answer (Text "Please enter your password:");
                          DeleteMessage;
                          Call (token_request (Message u password) (PStr name));
                          Answer (if String.eqb role "teacher" then TeacherMenu
                                  else StudentMenu)]).
Proof.
  assert (H1 : w1 = World (<[u := {[ "role" := PStr role ]}]> (USER_SESSIONS w))
                      (<[u := Auth_waiting_for_username]> (fsm w)) (fsm_data w) (files w)
                      (trace w ++ [Answer (Text "Please enter your Attendo username:")]))
    by reflexivity.
  assert (H2 : w2 = World (<[u := <["username" := PStr name]> {[ "role" := PStr role ]}]>
                         (USER_SESSIONS w))
                      (<[u := Auth_waiting_for_password]> (fsm w)) (fsm_data w) (files w)
                      (trace w ++ [Answer (Text "Please enter your Attendo username:");
                                   Answer (Text "Please enter your password:")])).
  { subst w2. unfold after, process_username. cbn [from_user text].
    erewrite bind_ok by (apply write_ok; rewrite H1; apply lookup_insert_eq).
    rewrite H1. unfold mbind, py_bind, Fsm.set, answer, emit, with_sessions. cbn.
    now rewrite !insert_insert_eq, <- app_assoc. }
  subst w3. unfold after.
  erewrite (process_password_200 api w2 (Message u password) _ (PStr name) (PStr role));
    [ | rewrite H2; apply lookup_insert_eq
      | apply lookup_insert_eq
      | rewrite lookup_insert_ne by discriminate; apply lookup_insert_eq
      | exact Hstatus | exact Hbody | exact Haccess | exact Hrefresh ].
  rewrite H2. cbn.
  rewrite !insert_insert_eq, !delete_insert_eq, <- app_assoc. reflexivity.
Qed.

End Login.

(** X3: a login that goes through. From any world, the role button, the
    username and a password for which the token endpoint answers 200 with
    both tokens leave the user with a session of exactly four entries (the
    role, the username and the two tokens), no flow state and no draft; the
    prompts, the deletion of the password message, the token request and the
    menu of the role went out in this order, and the sessions of the other
    users are untouched. *)
Theorem login_flow_succeeds
    (api : request -> response) (w : world) (button name password : string) (u : Z)
    (tokens access refresh : pyval) :
  button = teacher_button \/ button = student_button ->
  status (api (token_request (Message u password) (PStr name))) = 200 ->
  body_of (api (token_request (Message u password) (PStr name))) = Json tokens ->
  PyVal.getitem_str tokens "access" = Ok access ->
  PyVal.getitem_str tokens "refresh" = Ok refresh ->
  let role := if String.eqb button teacher_button then "teacher" else "student" in
  let w' := after (process_password api (Message u password))
              (after (process_username (Message u name))
                 (after (login_handler (Message u button)) w)) in
  USER_SESSIONS w' !! u =
    Some (<["refresh_token" := refresh]> (<["access_token" := access]>
            (<["username" := PStr name]> {[ "role" := PStr role ]}))) /\
  fsm w' !! u = None /\
  fsm_data w' !! u = None /\
  (forall v, v <> u -> USER_SESSIONS w' !! v = USER_SESSIONS w !! v) /\
  trace w' = (trace w ++ [Answer (Text "Please enter your Attendo username:");
                          Answer (Text "Please enter your password:");
                          DeleteMessage;
                          Call (token_request (Message u password) (PStr name));
                          Answer (if String.eqb button teacher_button then TeacherMenu
                                  else StudentMenu)])%list.
Proof.
  intros Hbutton Hst Hbody Hacc Href role w'.
  assert (Hrole : (if contains "Teacher" button then "teacher" else "student") = role)
    by (subst role; destruct Hbutton as [-> | ->]; reflexivity).
  assert (Hmenu : (if String.eqb role "teacher" then TeacherMenu else StudentMenu)
                  = (if String.eqb button teacher_button then TeacherMenu else StudentMenu))
    by (subst role; destruct Hbutton as [-> | ->]; reflexivity).
  subst w'.
  rewrite (login_steps api w button name password u tokens access refresh Hst Hbody Hacc Href).
  cbn [USER_SESSIONS fsm fsm_data trace]. rewrite Hrole, Hmenu.
  split; [apply lookup_insert_eq|].
  split; [apply lookup_delete_eq|].
  split; [apply lookup_delete_eq|].
  split; [|reflexivity].
  intros v Hv. apply lookup_insert_ne. congruence.
Qed.

Lemma login_flow_succeeds_witness :
  let w' := after (process_password (SampleLogin.backend 200) SampleLogin.secret)
              (after (process_username (Message Sample.alice "alice"))
                 (after (login_handler (Message Sample.alice student_button)) empty_world)) in
  fsm w' !! Sample.alice = None /\
  last (trace w') = Some (Answer StudentMenu).
Proof.
  destruct (login_flow_succeeds (SampleLogin.backend 200) empty_world student_button
              "alice" "s3cret" Sample.alice SampleLogin.tokens (PStr "tok-a") (PStr "tok-r")
              ltac:(right; reflexivity) eq_refl eq_refl eq_refl eq_refl)
    as (_ & Hfsm & _ & _ & Htrace).
  split; [exact Hfsm|].
  change SampleLogin.secret with (Message Sample.alice "s3cret").
  rewrite Htrace. reflexivity.
Defined.

(** X4: the username and the password step of a user who has no session
    raise [KeyError] on the session lookup and leave the world as it was: no
    prompt is sent, the flow state does not move, and the password message is
    not deleted. *)
Theorem auth_steps_need_session
    (api : request -> response) (m : message) (w : world) :
  USER_SESSIONS w !! from_user m = None ->
  process_username m w = (Raise (KeyError (PInt (from_user m))), w) /\
  process_password api m w = (Raise (KeyError (PInt (from_user m))), w).
Proof.
  intros H. unfold process_username, process_password, mbind, py_bind,
    Sessions.write, Sessions.read.
  now rewrite H.
Qed.

Lemma auth_steps_need_session_witness :
  process_password (SampleLogin.backend 200) SampleLogin.secret empty_world
  = (Raise (KeyError (PInt Sample.alice)), empty_world).
Proof.
  apply (auth_steps_need_session (SampleLogin.backend 200) SampleLogin.secret empty_world).
  reflexivity.
Defined.

(** X5: the token endpoint answers 200 with an access token but without a
    refresh token. The access token is stored before the missing entry is
    looked up, so the handler raises [KeyError] with the access token already
    in the session; the flow state is still the password step and no menu is
    sent. *)
Theorem password_step_partial_tokens
    (api : request -> response) (w : world) (m : message)
    (d : gmap string pyval) (username role tokens access : pyval) :
  USER_SESSIONS w !! from_user m = Some d ->
  d !! "username" = Some username ->
  d !! "role" = Some role ->
  status (api (token_request m username)) = 200 ->
  body_of (api (token_request m username)) = Json tokens ->
  PyVal.getitem_str tokens "access" = Ok access ->
  PyVal.getitem_str tokens "refresh" = Raise (KeyError (PStr "refresh")) ->
  process_password api m w =
    (Raise (KeyError (PStr "refresh")),
     World (<[from_user m := <["access_token" := access]> d]> (USER_SESSIONS w))
           (fsm w) (fsm_data w) (files w)
           (trace w ++ [DeleteMessage; Call (token_request m username)])).
Proof.
  intros Hs Hu Hr Hst Hbody Hacc Href. unfold process_password.
  rewrite (bind_ok _ _ _ _ _ (read_ok _ _ _ _ _ Hs Hu)).
  rewrite (bind_ok _ _ _ _ _ (read_ok _ _ _ _ _ Hs Hr)).
  rewrite bind_emit, bind_call. fold (token_request m username).
  rewrite Hst. cbn [Z.eqb Pos.eqb].
  rewrite (bind_ok _ _ _ _ _ (json_ok _ _ _ Hbody)).
  rewrite Hacc, bind_lift.
  erewrite bind_ok by (apply write_ok; world_simpl; exact Hs).
  rewrite Href. unfold mbind, py_bind, lift, say, with_sessions. cbn.
  now rewrite <- app_assoc.
Qed.

Lemma password_step_partial_tokens_witness :
  let api := fun _ : request => Response 200 (Json (PDict [("access", PStr "tok-a")])) in
  run (process_password api SampleLogin.secret) SampleLogin.awaiting_password
    = Raise (KeyError (PStr "refresh")) /\
  fsm (after (process_password api SampleLogin.secret) SampleLogin.awaiting_password)
    !! Sample.alice = Some Auth_waiting_for_password.
Proof.
  intros api.
  pose proof (password_step_partial_tokens api SampleLogin.awaiting_password
                SampleLogin.secret
                (<["username" := PStr "alice"]> {[ "role" := PStr "student" ]})
                (PStr "alice") (PStr "student")
                (PDict [("access", PStr "tok-a")]) (PStr "tok-a")
                eq_refl eq_refl eq_refl eq_refl eq_refl eq_refl eq_refl) as H.
  unfold run, after. rewrite H. split; reflexivity.
Defined.

(** ** The upload wizard *)

Lemma split_first_field (s : string) :
  exists rest : list string, split "_" s = first_field s :: rest.
Proof.
  induction s as [|c s [rest IH]]; [now exists []|].
  cbn [split first_field]. destruct (Ascii.eqb c "_"); [eauto|].
  rewrite IH. eauto.
Qed.

(** The field a handler reads from the data of a button: the text between
    the first [_] and the next one. *)
Lemma button_field (s : string) :
  field1 (split "_" ("subject_" ++ s)) = mret (PStr (first_field s)) /\
  field1 (split "_" ("content_" ++ s)) = mret (PStr (first_field s)) /\
  field1 (split "_" ("quiz_" ++ s)) = mret (PStr (first_field s)).
Proof.
  destruct (split_first_field s) as [rest E].
  change (split "_" ("subject_" ++ s)) with ("subject" :: split "_" s).
  change (split "_" ("content_" ++ s)) with ("content" :: split "_" s).
  change (split "_" ("quiz_" ++ s)) with ("quiz" :: split "_" s).
  rewrite E. repeat split.
Qed.

Section UploadOutcomes.

Variable api : request -> response.
Variables (w : world) (m : message) (d dr : gmap string pyval).
Variables (token subject_id title description content_type : pyval) (path : string).

Hypothesis Hsession : USER_SESSIONS w !! from_user m = Some d.
Hypothesis Htoken : d !! "access_token" = Some token.
Hypothesis Hdraft : fsm_data w !! from_user m = Some dr.
Hypothesis Hsubject : dr !! "subject_id" = Some subject_id.
Hypothesis Hpath : dr !! "audio_file_path" = Some (PStr path).
Hypothesis Htitle : dr !! "title" = Some title.
Hypothesis Hdescription : dr !! "description" = Some description.
Hypothesis Hcontent : dr !! "content_type" = Some content_type.

Local Abbreviation upload := (upload_request token subject_id title description path).
Local Abbreviation generate := (generate_request token subject_id content_type).

(** X10: the temporary file is not on disk any more when the count
    arrives. The notice goes out, then [open] raises [FileNotFoundError]: no
    request is sent to the backend, and session, flow state and draft are as
    they were. *)
Lemma upload_without_file :
  path ∉ files w ->
  process_count_and_upload api m w = (Raise FileNotFoundError, say w [uploading]).
Proof.
  intros Hf. unfold process_count_and_upload.
  rewrite (bind_ok _ _ _ _ _ (fetch_ok _ _ _ _ _ Hdraft Hsubject)).
  rewrite (bind_ok _ _ _ _ _ (fetch_ok _ _ _ _ _ Hdraft Hpath)).
  rewrite (bind_ok _ _ _ _ _ (fetch_ok _ _ _ _ _ Hdraft Htitle)).
  rewrite (bind_ok _ _ _ _ _ (fetch_ok _ _ _ _ _ Hdraft Hdescription)).
  rewrite (bind_ok _ _ _ _ _ (fetch_ok _ _ _ _ _ Hdraft Hcontent)).
  rewrite bind_answer.
  erewrite bind_ok by (eapply headers_ok; world_simpl; eassumption).
  apply bind_raise. unfold Files.open_rb. world_simpl. now rewrite decide_False.
Qed.

Section Uploaded.

Variables (audio_data audio_id : pyval) (kv : list (string * pyval)).

Hypothesis Hfile : path ∈ files w.
Hypothesis Hup : status (api upload) = 201.
Hypothesis Hup_body : body_of (api upload) = Json audio_data.
Hypothesis Hid : PyVal.getitem_str audio_data "id" = Ok audio_id.
Hypothesis Hgen_body :
  body_of (api (generate audio_id (requested_count (text m)))) = Json (PDict kv).

Local Abbreviation the_generate := (generate audio_id (requested_count (text m))).

Lemma upload_then_generate :
  process_count_and_upload api m w =
    after_generate m content_type path (api the_generate)
      (say w [uploading; Call upload; Call the_generate]).
Proof.
  rewrite (upload_is_submitted api w m d dr token subject_id title description content_type
             path Hsession Htoken Hdraft Hsubject Hpath Htitle Hdescription Hcontent Hfile).
  unfold after_upload. rewrite Hup. cbn [Z.eqb Pos.eqb].
  rewrite (bind_ok _ _ _ _ _ (json_ok _ _ _ Hup_body)).
  rewrite Hid, bind_lift, bind_call, say_say. reflexivity.
Qed.



End Uploaded.

End UploadOutcomes.

(** The world after each of the steps that fill the draft. *)
Lemma process_subject_selection_eq (w : world) (u : Z) (sid : string) :
  process_subject_selection (CallbackQuery u ("subject_" ++ sid)) w =
    (Ok tt,
     World (USER_SESSIONS w) (<[u := Teacher_waiting_for_audio]> (fsm w))
           (<[u := <["subject_id" := PStr (first_field sid)]> (default ∅ (fsm_data w !! u))]>
              (fsm_data w))
           (files w)
           (trace w ++ [AnswerCallback None;
                        Answer (Text "Please send an audio recording of your lesson.")])).
Proof.
  unfold process_subject_selection. cbn [cb_from_user data].
  rewrite (proj1 (button_field sid)).
  unfold mbind, py_bind, mret, py_ret, Fsm.put, Fsm.set, answer, emit. cbn.
  now rewrite <- app_assoc.
Qed.

Lemma process_audio_eq (w : world) (m : message) (temp : string) :
  process_audio m temp w =
    (Ok tt,
     World (USER_SESSIONS w) (<[from_user m := Teacher_waiting_for_title]> (fsm w))
           (<[from_user m := <["audio_file_path" := PStr temp]>
                               (default ∅ (fsm_data w !! from_user m))]> (fsm_data w))
           ({[temp]} ∪ files w)
           (trace w ++ [Answer (Text "⏳ Downloading audio file...");
                        Answer (Text "Please enter a title for this lesson:")])).
Proof.
  unfold process_audio, mbind, py_bind, Fsm.put, Fsm.set, Files.create, answer, emit. cbn.
  now rewrite <- app_assoc.
Qed.

Lemma process_title_eq (w : world) (m : message) :
  process_title m w =
    (Ok tt,
     World (USER_SESSIONS w) (<[from_user m := Teacher_waiting_for_description]> (fsm w))
           (<[from_user m := <["title" := PStr (text m)]>
                               (default ∅ (fsm_data w !! from_user m))]> (fsm_data w))
           (files w)
           (trace w ++ [Answer (Text "Please enter a brief description:")])).
Proof. reflexivity. Qed.

Lemma process_description_eq (w : world) (m : message) :
  process_description m w =
    (Ok tt,
     World (USER_SESSIONS w) (<[from_user m := Teacher_waiting_for_content_type]> (fsm w))
           (<[from_user m := <["description" := PStr (text m)]>
                               (default ∅ (fsm_data w !! from_user m))]> (fsm_data w))
           (files w)
           (trace w ++ [AnswerButtons (Text "What type of content would you like to generate?")
                          [(PStr "Flashcards Only", Lit "content_flashcards");
                           (PStr "Quiz Only", Lit "content_quiz");
                           (PStr "Both Flashcards and Quiz", Lit "content_both")]])).
Proof. reflexivity. Qed.

Lemma process_content_type_eq (w : world) (u : Z) (ct : string) :
  process_content_type (CallbackQuery u ("content_" ++ ct)) w =
    (Ok tt,
     World (USER_SESSIONS w) (<[u := Teacher_waiting_for_count]> (fsm w))
           (<[u := <["content_type" := PStr (first_field ct)]> (default ∅ (fsm_data w !! u))]>
              (fsm_data w))
           (files w)
           (trace w ++ [AnswerCallback None;
                        Answer (Text "How many items would you like to generate? (default: 10)")])).
Proof.
  unfold process_content_type. cbn [cb_from_user data].
  rewrite (proj1 (proj2 (button_field ct))).
  unfold mbind, py_bind, mret, py_ret, Fsm.put, Fsm.set, answer, emit. cbn.
  now rewrite <- app_assoc.
Qed.

(** X6: the wizard submits what it collected. A teacher whose session
    holds a token picks a subject, sends the audio, enters title and
    description and picks the content type. Then the flow state is the count
    step, the temporary file is on disk, and whatever the count text is, the
    count step sends the upload request with the token, the file, the title,
    the description and the subject id: the part of the button data between
    the first [_] and the next one. *)
Theorem wizard_submits_what_was_collected
    (api : request -> response) (w : world) (u : Z)
    (sid temp title description ct count_text : string)
    (d : gmap string pyval) (token : pyval) :
  USER_SESSIONS w !! u = Some d ->
  d !! "access_token" = Some token ->
  let w5 :=
    after (process_content_type (CallbackQuery u ("content_" ++ ct)))
      (after (process_description (Message u description))
         (after (process_title (Message u title))
            (after (process_audio (Message u "") temp)
               (after (process_subject_selection (CallbackQuery u ("subject_" ++ sid))) w)))) in
  fsm w5 !! u = Some Teacher_waiting_for_count /\
  temp ∈ files w5 /\
  exists rest : list event,
    trace (after (process_count_and_upload api (Message u count_text)) w5) =
      (trace w5 ++ [uploading;
                    Call (upload_request token (PStr (first_field sid)) (PStr title)
                            (PStr description) temp)] ++ rest)%list.
Proof.
  intros Hs Ht w5. subst w5. unfold after.
  rewrite process_subject_selection_eq. cbn [snd].
  rewrite process_audio_eq. cbn [snd USER_SESSIONS fsm fsm_data files trace from_user].
  rewrite !lookup_insert_eq. cbn [default from_option]. unfold id.
  rewrite process_title_eq. cbn [snd USER_SESSIONS fsm fsm_data files trace from_user text].
  rewrite !lookup_insert_eq. cbn [default from_option]. unfold id.
  rewrite process_description_eq.
  cbn [snd USER_SESSIONS fsm fsm_data files trace from_user text].
  rewrite !lookup_insert_eq. cbn [default from_option]. unfold id.
  rewrite process_content_type_eq. cbn [snd USER_SESSIONS fsm fsm_data files trace].
  rewrite !lookup_insert_eq. cbn [default from_option]. unfold id.
  match goal with |- context [snd (process_count_and_upload _ _ ?w0)] => set (w5 := w0) end.
  split; [reflexivity|].
  assert (Hf : temp ∈ files w5) by (apply elem_of_union_l, elem_of_singleton; reflexivity).
  split; [exact Hf|].
  eapply (upload_goes_out api w5 (Message u count_text) d _ token
            (PStr (first_field sid)) (PStr title) (PStr description)
            (PStr (first_field ct)) temp Hs Ht).
  - apply lookup_insert_eq.
  - now rewrite !lookup_insert_ne by discriminate; rewrite lookup_insert_eq.
  - now rewrite !lookup_insert_ne by discriminate; rewrite lookup_insert_eq.
  - now rewrite !lookup_insert_ne by discriminate; rewrite lookup_insert_eq.
  - now rewrite !lookup_insert_ne by discriminate; rewrite lookup_insert_eq.
  - apply lookup_insert_eq.
  - exact Hf.
Qed.

Lemma wizard_submits_what_was_collected_witness :
  fsm (after (process_content_type (CallbackQuery SampleUpload.teacher "content_both"))
         (after (process_description (Message SampleUpload.teacher "Cells and tissues"))
            (after (process_title (Message SampleUpload.teacher "Lesson 1"))
               (after (process_audio (Message SampleUpload.teacher "") SampleUpload.temp_file)
                  (after (process_subject_selection
                            (CallbackQuery SampleUpload.teacher "subject_3"))
                     SampleUpload.logged_in)))))
    !! SampleUpload.teacher = Some Teacher_waiting_for_count.
Proof.
  exact (proj1 (wizard_submits_what_was_collected SampleOutcomes.all_good
                  SampleUpload.logged_in SampleUpload.teacher "3" SampleUpload.temp_file
                  "Lesson 1" "Cells and tissues" "both" "abc" SampleUpload.session
                  (PStr "tok-t") eq_refl eq_refl)).
Defined.

(** X7: the upload request is answered with a status other than 201. Then
    session, flow state, draft and files are as they were, and the only
    request sent is the upload: no generation request follows. *)
Theorem refused_upload_changes_nothing
    (api : request -> response) (w : world) (m : message) (d dr : gmap string pyval)
    (token subject_id title description content_type : pyval) (path : string) :
  USER_SESSIONS w !! from_user m = Some d ->
  d !! "access_token" = Some token ->
  fsm_data w !! from_user m = Some dr ->
  dr !! "subject_id" = Some subject_id ->
  dr !! "audio_file_path" = Some (PStr path) ->
  dr !! "title" = Some title ->
  dr !! "description" = Some description ->
  dr !! "content_type" = Some content_type ->
  path ∈ files w ->
  status (api (upload_request token subject_id title description path)) <> 201 ->
  let w' := after (process_count_and_upload api m) w in
  USER_SESSIONS w' = USER_SESSIONS w /\ fsm w' = fsm w /\
  fsm_data w' = fsm_data w /\ files w' = files w /\
  exists es : list event,
    trace w' = (trace w ++ es)%list /\
    filter (fun e => is_call e = true) es
      = [Call (upload_request token subject_id title description path)].
Proof.
  intros Hs Ht Hd H1 H2 H3 H4 H5 Hf Hst w'.
  destruct (upload_failed api w m d dr token subject_id title description content_type path
              Hs Ht Hd H1 H2 H3 H4 H5 Hf Hst) as (rest & E & Hrest).
  subst w'. rewrite E. repeat split.
  eexists. split; [reflexivity|].
  destruct Hrest as [-> | [err ->]]; reflexivity.
Qed.

Lemma refused_upload_changes_nothing_witness :
  files (after (process_count_and_upload SampleUpload.refusing SampleUpload.count_5)
           (SampleUpload.at_count SampleUpload.refusing))
  = files (SampleUpload.at_count SampleUpload.refusing).
Proof.
  apply (refused_upload_changes_nothing SampleUpload.refusing
           (SampleUpload.at_count SampleUpload.refusing) SampleUpload.count_5
           SampleUpload.session SampleUpload.draft
           (PStr "tok-t") (PStr "3") (PStr "Lesson 1") (PStr "Cells and tissues")
           (PStr "both") SampleUpload.temp_file
           eq_refl eq_refl eq_refl eq_refl eq_refl eq_refl eq_refl eq_refl
           (temp_file_on_disk SampleUpload.refusing)).
  cbn. lia.
Defined.



Lemma upload_without_file_witness :
  run (process_count_and_upload SampleOutcomes.all_good SampleUpload.count_5)
    SampleOutcomes.lost_file = Raise FileNotFoundError.
Proof.
  unfold run.
  rewrite (upload_without_file SampleOutcomes.all_good SampleOutcomes.lost_file
             SampleUpload.count_5 SampleUpload.session SampleUpload.draft
             (PStr "tok-t") (PStr "3") (PStr "Lesson 1") (PStr "Cells and tissues")
             (PStr "both") SampleUpload.temp_file
             eq_refl eq_refl eq_refl eq_refl eq_refl eq_refl eq_refl eq_refl
             ltac:(apply not_elem_of_empty)).
  reflexivity.
Defined.

(** ** Card review: loading, grading, bounds *)

Section Loading.

Variable api : request -> response.
Variables (w : world) (m : message) (d : gmap string pyval) (token : pyval).
Variables (loading nothing : string) (ep : endpoint) (st : fsm_state).

Hypothesis Hsession : USER_SESSIONS w !! from_user m = Some d.
Hypothesis Htoken : d !! "access_token" = Some token.

Local Abbreviation fetch_cards := (Request ep (Some token) PNone).

Lemma load_flashcards_sent :
  load_flashcards api loading ep nothing st m w =
    (let resp := api fetch_cards in
     if status resp =? 200 then
       flashcards ← json resp;
       if negb (PyVal.truthy flashcards) then answer (Text nothing)
       else
         Sessions.write (from_user m) "current_flashcards" flashcards;;
         Sessions.write (from_user m) "current_index" (PInt 0);;
         Fsm.set (from_user m) st;;
         show_current_flashcard (from_user m)
     else answer (Text "❌ Failed to load flashcards. Please try again later."))
      (say w [Answer (Text loading); Call fetch_cards]).
Proof.
  unfold load_flashcards.
  assert (Hin : Sessions.not_logged_in (from_user m) w = (Ok false, w)).
  { unfold Sessions.not_logged_in. now rewrite Hsession, Htoken. }
  rewrite (bind_ok _ _ _ _ _ Hin). rewrite bind_answer.
  erewrite bind_ok by (eapply headers_ok; world_simpl; eassumption).
  rewrite bind_call, say_say. reflexivity.
Qed.

Lemma load_flashcards_failed :
  status (api fetch_cards) <> 200 ->
  load_flashcards api loading ep nothing st m w =
    (Ok tt, say w [Answer (Text loading); Call fetch_cards;
                   Answer (Text "❌ Failed to load flashcards. Please try again later.")]).
Proof.
  intros H. apply Z.eqb_neq in H. rewrite load_flashcards_sent. cbv zeta. rewrite H.
  now rewrite answer_eq, say_say.
Qed.

Lemma load_flashcards_nothing (v : pyval) :
  status (api fetch_cards) = 200 ->
  body_of (api fetch_cards) = Json v ->
  PyVal.truthy v = false ->
  load_flashcards api loading ep nothing st m w =
    (Ok tt, say w [Answer (Text loading); Call fetch_cards; Answer (Text nothing)]).
Proof.
  intros Hst Hb Hv. rewrite load_flashcards_sent. cbv zeta. rewrite Hst. cbn [Z.eqb Pos.eqb].
  rewrite (bind_ok _ _ _ _ _ (json_ok _ _ _ Hb)). rewrite Hv. cbn [negb].
  now rewrite answer_eq, say_say.
Qed.

Lemma load_flashcards_started (card : pyval) (cards : list pyval) (definition : pyval) :
  status (api fetch_cards) = 200 ->
  body_of (api fetch_cards) = Json (PList (card :: cards)) ->
  PyVal.getitem_str card "definition" = Ok definition ->
  load_flashcards api loading ep nothing st m w =
    (Ok tt,
     World (<[from_user m := <["current_index" := PInt 0]>
                               (<["current_flashcards" := PList (card :: cards)]> d)]>
              (USER_SESSIONS w))
           (<[from_user m := st]> (fsm w)) (fsm_data w) (files w)
           (trace w ++ [Answer (Text loading); Call fetch_cards;
                        AnswerButtons (CardFront 1 (Z.of_nat (S (length cards))) definition)
                          front_buttons])).
Proof.
  intros Hst Hb Hdef. rewrite load_flashcards_sent. cbv zeta. rewrite Hst. cbn [Z.eqb Pos.eqb].
  rewrite (bind_ok _ _ _ _ _ (json_ok _ _ _ Hb)). cbn [PyVal.truthy negb].
  erewrite bind_ok by (apply write_ok; world_simpl; exact Hsession).
  erewrite bind_ok by (apply write_ok; world_simpl; apply lookup_insert_eq).
  unfold Fsm.set at 1. unfold mbind at 1, py_bind at 1. world_simpl.
  rewrite insert_insert_eq.
  unfold show_current_flashcard.
  erewrite bind_ok
    by (eapply read_ok; world_simpl;
        [apply lookup_insert_eq | rewrite lookup_insert_ne by discriminate; apply lookup_insert_eq]).
  erewrite read_int_ok by (world_simpl; apply lookup_insert_eq).
  cbn [PyVal.len]. rewrite bind_lift.
  change (0 >=? Z.of_nat (length (card :: cards))) with false. cbv iota.
  change (PyVal.getitem_int (PList (card :: cards)) 0) with (Ok card : outcome pyval).
  rewrite bind_lift, Hdef, bind_lift.
  unfold emit, front_buttons. cbn. rewrite <- app_assoc. reflexivity.
Qed.

End Loading.

(** X11: a logged-in student asks for new cards or for the cards due, and
    the backend answers with a status other than 200, or with 200 and an
    empty batch (any body that Python takes for false). Then the handler
    sends the loading text, one request and one more text, and nothing else
    happens: no card session is entered, the session and the flow state are
    as they were. *)
Theorem no_batch_no_card_session
    (api : request -> response) (w : world) (m : message)
    (d : gmap string pyval) (token : pyval) (ep : endpoint) (h : message -> py unit)
    (loading nothing : string) :
  USER_SESSIONS w !! from_user m = Some d ->
  d !! "access_token" = Some token ->
  (h = learn_new_flashcards_handler api /\ ep = ApiNewCards /\
   loading = "⏳ Loading new flashcards..." /\
   nothing = "You don't have any new flashcards to learn. Try reviewing existing ones!") \/
  (h = review_flashcards_handler api /\ ep = ApiDueReviews /\
   loading = "⏳ Loading flashcards due for review..." /\
   nothing = "You don't have any flashcards due for review!") ->
  let request := Request ep (Some token) PNone in
  (status (api request) <> 200 ->
   h m w = (Ok tt, say w [Answer (Text loading); Call request;
                          Answer (Text "❌ Failed to load flashcards. Please try again later.")])) /\
  (forall v, status (api request) = 200 -> body_of (api request) = Json v ->
             PyVal.truthy v = false ->
   h m w = (Ok tt, say w [Answer (Text loading); Call request; Answer (Text nothing)])).
Proof.
  intros Hs Ht [(-> & -> & -> & ->) | (-> & -> & -> & ->)] request; split.
  - intros H. exact (load_flashcards_failed api w m d token _ _ _ _ Hs Ht H).
  - intros v H1 H2 H3. exact (load_flashcards_nothing api w m d token _ _ _ _ Hs Ht v H1 H2 H3).
  - intros H. exact (load_flashcards_failed api w m d token _ _ _ _ Hs Ht H).
  - intros v H1 H2 H3. exact (load_flashcards_nothing api w m d token _ _ _ _ Hs Ht v H1 H2 H3).
Qed.

Lemma no_batch_no_card_session_witness :
  review_flashcards_handler SampleQuiz.backend (Message Sample.alice "🔄 Review Due Flashcards")
    Sample.logged_in
  = (Ok tt, say Sample.logged_in
              [Answer (Text "⏳ Loading flashcards due for review...");
               Call (Request ApiDueReviews (Some (PStr "tok-a")) PNone);
               Answer (Text "❌ Failed to load flashcards. Please try again later.")]).
Proof.
  apply (no_batch_no_card_session SampleQuiz.backend Sample.logged_in
           (Message Sample.alice "🔄 Review Due Flashcards") Sample.session (PStr "tok-a")
           ApiDueReviews (review_flashcards_handler SampleQuiz.backend)
           "⏳ Loading flashcards due for review..."
           "You don't have any flashcards due for review!" eq_refl eq_refl).
  - right. repeat split.
  - cbn. lia.
Defined.

(** X12: the backend answers 200 with a batch of at least one card, the
    first of which has a definition. Then the batch is stored with the
    cursor at 0, the other entries of the session are kept, the flow state is
    the learning session for new cards and the review session for cards due,
    and the front of card 1 of N is shown with its two buttons. *)
Theorem batch_starts_at_zero
    (api : request -> response) (w : world) (m : message)
    (d : gmap string pyval) (token card definition : pyval) (cards : list pyval)
    (ep : endpoint) (h : message -> py unit) (st : fsm_state) (loading : string) :
  USER_SESSIONS w !! from_user m = Some d ->
  d !! "access_token" = Some token ->
  (h = learn_new_flashcards_handler api /\ ep = ApiNewCards /\
   st = Student_in_learning_session /\ loading = "⏳ Loading new flashcards...") \/
  (h = review_flashcards_handler api /\ ep = ApiDueReviews /\
   st = Student_in_review_session /\ loading = "⏳ Loading flashcards due for review...") ->
  status (api (Request ep (Some token) PNone)) = 200 ->
  body_of (api (Request ep (Some token) PNone)) = Json (PList (card :: cards)) ->
  PyVal.getitem_str card "definition" = Ok definition ->
  run (h m) w = Ok tt /\
  card_session (after (h m) w) (from_user m) (card :: cards) 0 /\
  fsm (after (h m) w) !! from_user m = Some st /\
  (forall k, k <> "current_flashcards" -> k <> "current_index" ->
     (USER_SESSIONS (after (h m) w) !! from_user m ≫= (fun s => s !! k)) = d !! k) /\
  trace (after (h m) w) =
    (trace w ++ [Answer (Text loading); Call (Request ep (Some token) PNone);
                 AnswerButtons (CardFront 1 (Z.of_nat (S (length cards))) definition)
                   front_buttons])%list.
Proof.
  intros Hs Ht Hh Hst Hb Hdef.
  assert (E : h m w =
    (Ok tt,
     World (<[from_user m := <["current_index" := PInt 0]>
                               (<["current_flashcards" := PList (card :: cards)]> d)]>
              (USER_SESSIONS w))
           (<[from_user m := st]> (fsm w)) (fsm_data w) (files w)
           (trace w ++ [Answer (Text loading); Call (Request ep (Some token) PNone);
                        AnswerButtons (CardFront 1 (Z.of_nat (S (length cards))) definition)
                          front_buttons]))).
  { destruct Hh as [(-> & -> & -> & ->) | (-> & -> & -> & ->)];
      exact (load_flashcards_started api w m d token _ _ _ _ Hs Ht card cards definition
               Hst Hb Hdef). }
  unfold run, after. rewrite E. cbn [fst snd USER_SESSIONS fsm trace].
  split; [reflexivity|]. split; [|split; [apply lookup_insert_eq|split; [|reflexivity]]].
  - eexists. world_simpl. split; [apply lookup_insert_eq|].
    split; [rewrite lookup_insert_ne by discriminate; apply lookup_insert_eq|].
    split; [apply lookup_insert_eq|].
    split.
    + exists token. now rewrite !lookup_insert_ne by discriminate.
    + rewrite lookup_insert_eq.
      destruct Hh as [(_ & _ & -> & _) | (_ & _ & -> & _)]; reflexivity.
  - intros k Hk1 Hk2. rewrite lookup_insert_eq. cbn.
    now rewrite !lookup_insert_ne by congruence.
Qed.

Lemma batch_starts_at_zero_witness :
  card_session SampleCards.started Sample.alice [SampleCards.card] 0.
Proof.
  exact (proj1 (proj2 (batch_starts_at_zero SampleCards.backend Sample.logged_in
           (Message Sample.alice "📚 Learn New Flashcards") Sample.session (PStr "tok-a")
           SampleCards.card (PStr "cell division") [] ApiNewCards
           (learn_new_flashcards_handler SampleCards.backend) Student_in_learning_session
           "⏳ Loading new flashcards..." eq_refl eq_refl
           ltac:(left; repeat split) eq_refl eq_refl eq_refl))).
Defined.

(** At any cursor, what [show_current_flashcard] sends is no request. *)
Lemma show_current_flashcard_no_call (u : Z) :
  sends (fun e => is_call e = false) (show_current_flashcard u).
Proof. unfold show_current_flashcard, show_student_menu. repeat sends_step; reflexivity. Qed.

Section Grading.

Variable api : request -> response.
Variables (w : world) (u : Z) (d : gmap string pyval) (cards : list pyval) (i : Z).

Hypothesis Hsession : USER_SESSIONS w !! u = Some d.
Hypothesis Hcards : d !! "current_flashcards" = Some (PList cards).
Hypothesis Hcursor : d !! "current_index" = Some (PInt i).

Lemma card_at_cursor (card : pyval) :
  0 <= i -> cards !! Z.to_nat i = Some card ->
  PyVal.getitem_int (PList cards) i = Ok card.
Proof.
  intros Hi Hc. unfold PyVal.getitem_int, PyVal.list_index.
  pose proof (lookup_lt_Some _ _ _ Hc).
  replace ((0 <=? i) && (i <? Z.of_nat (length cards))) with true
    by (symmetry; apply andb_true_iff; split; [apply Z.leb_le | apply Z.ltb_lt]; lia).
  now rewrite Hc.
Qed.

Lemma no_card_at_cursor :
  Z.of_nat (length cards) <= i -> PyVal.getitem_int (PList cards) i = Raise IndexError.
Proof.
  intros Hi. unfold PyVal.getitem_int, PyVal.list_index.
  replace (i <? Z.of_nat (length cards)) with false by (symmetry; apply Z.ltb_ge; lia).
  replace (i <? 0) with false by (symmetry; apply Z.ltb_ge; lia).
  now rewrite !andb_false_r.
Qed.

Lemma skip_eq :
  skip_card_handler (press u Skip) w =
    show_current_flashcard u (moved_on w u d i [AnswerCallback None; DeleteMessage]).
Proof.
  unfold skip_card_handler. cbn [cb_from_user press].
  rewrite (bind_ok _ _ _ _ _ (incr_ok _ _ _ _ _ Hsession Hcursor)).
  rewrite !bind_emit, say_say. reflexivity.
Qed.

Lemma grade_eq (knew : bool) (c : callback_query) (token card card_id : pyval) :
  cb_from_user c = u ->
  d !! "access_token" = Some token ->
  0 <= i -> cards !! Z.to_nat i = Some card ->
  PyVal.getitem_str card "id" = Ok card_id ->
  grade_handler api knew c w =
    show_current_flashcard u
      (moved_on w u d i [Call (grade_request (fsm w !! u) knew token card_id);
                 AnswerCallback None; DeleteMessage; grade_ack knew]).
Proof.
  intros Hu Ht Hi Hc Hid. unfold grade_handler. rewrite Hu.
  rewrite (bind_ok _ _ _ _ _ (read_ok _ _ _ _ _ Hsession Hcards)).
  rewrite (read_int_ok _ _ _ _ _ _ Hsession Hcursor).
  rewrite (card_at_cursor card Hi Hc), bind_lift.
  rewrite (bind_ok _ _ _ _ _ (headers_ok _ _ _ _ Hsession Ht)).
  rewrite (bind_ok _ _ _ _ _ (get_state_eq _ _)).
  rewrite Hid, bind_lift.
  unfold grade_request, grade_ack.
  destruct (decide (fsm w !! u = Some Student_in_learning_session));
    rewrite bind_call;
    (erewrite bind_ok by (eapply incr_ok; world_simpl; eassumption));
    rewrite !bind_emit, bind_answer, !say_say;
    unfold moved_on, say, with_sessions;
    cbn [USER_SESSIONS fsm fsm_data files trace app];
    rewrite <- app_assoc; reflexivity.
Qed.

Lemma grade_past_end (knew : bool) (c : callback_query) :
  cb_from_user c = u ->
  Z.of_nat (length cards) <= i ->
  grade_handler api knew c w = (Raise IndexError, w).
Proof.
  intros Hu Hi. unfold grade_handler. rewrite Hu.
  rewrite (bind_ok _ _ _ _ _ (read_ok _ _ _ _ _ Hsession Hcards)).
  rewrite (read_int_ok _ _ _ _ _ _ Hsession Hcursor).
  now rewrite (no_card_at_cursor Hi).
Qed.

Lemma show_answer_past_end (c : callback_query) :
  cb_from_user c = u ->
  Z.of_nat (length cards) <= i ->
  show_answer_handler c w = (Raise IndexError, w).
Proof.
  intros Hu Hi. unfold show_answer_handler. rewrite Hu.
  rewrite (bind_ok _ _ _ _ _ (read_ok _ _ _ _ _ Hsession Hcards)).
  rewrite (read_int_ok _ _ _ _ _ _ Hsession Hcursor).
  now rewrite (no_card_at_cursor Hi).
Qed.

Lemma show_answer_eq (c : callback_query) (card definition term : pyval) :
  cb_from_user c = u ->
  0 <= i -> cards !! Z.to_nat i = Some card ->
  PyVal.getitem_str card "definition" = Ok definition ->
  PyVal.getitem_str card "term" = Ok term ->
  show_answer_handler c w =
    (Ok tt, say w [EditMessage (CardBack (i + 1) (Z.of_nat (length cards)) definition term)
                     [(PStr "I knew it ✅", Lit "knew_it");
                      (PStr "Still learning ❌", Lit "learning")]]).
Proof.
  intros Hu Hi Hc Hdef Hterm. unfold show_answer_handler. rewrite Hu.
  rewrite (bind_ok _ _ _ _ _ (read_ok _ _ _ _ _ Hsession Hcards)).
  rewrite (read_int_ok _ _ _ _ _ _ Hsession Hcursor).
  rewrite (card_at_cursor card Hi Hc), bind_lift.
  cbn [PyVal.len]. rewrite bind_lift, Hdef, bind_lift, Hterm, bind_lift.
  reflexivity.
Qed.

End Grading.

(** X13: a grade on the card under the cursor sends exactly one request,
    with the session's token: to [swipe] with direction left or right when
    the flow state is the learning session, to [review] with [was_correct]
    in any other state; the answer of the backend is not looked at. The
    cursor moves by one, the button message is deleted, the grade is
    acknowledged, and what is shown next contains no request. *)
Theorem grade_sends_one_request
    (api : request -> response) (w : world) (c : callback_query)
    (d : gmap string pyval) (cards : list pyval) (i : Z) (knew : bool)
    (token card card_id : pyval) :
  USER_SESSIONS w !! cb_from_user c = Some d ->
  d !! "current_flashcards" = Some (PList cards) ->
  d !! "current_index" = Some (PInt i) ->
  d !! "access_token" = Some token ->
  0 <= i -> cards !! Z.to_nat i = Some card ->
  PyVal.getitem_str card "id" = Ok card_id ->
  let w' := after (grade_handler api knew c) w in
  let request :=
    if decide (fsm w !! cb_from_user c = Some Student_in_learning_session)
    then Request (ApiSwipe card_id) (Some token)
           (PDict [("direction", PStr (if knew then "left" else "right"))])
    else Request (ApiReview card_id) (Some token) (PDict [("was_correct", PBool knew)]) in
  cursor w' (cb_from_user c) = Some (PInt (i + 1)) /\
  exists shown : list event,
    trace w' = (trace w ++ [Call request; AnswerCallback None; DeleteMessage; grade_ack knew]
                  ++ shown)%list /\
    Forall (fun e => is_call e = false) shown.
Proof.
  intros Hs Hc Hi Ht Hpos Hcard Hid w' request. subst w'. unfold after.
  rewrite (grade_eq api w (cb_from_user c) d cards i Hs Hc Hi knew c token card card_id
             eq_refl Ht Hpos Hcard Hid).
  fold request. change (grade_request _ knew token card_id) with request.
  set (w1 := moved_on _ _ _ _ _).
  destruct (show_current_flashcard_no_call (cb_from_user c) w1) as (shown & E & Hshown).
  destruct (talks_show_current_flashcard (cb_from_user c) w1) as [es Ew].
  split.
  - unfold cursor. rewrite Ew. subst w1. unfold say, moved_on. cbn [USER_SESSIONS].
    rewrite lookup_insert_eq. apply lookup_insert_eq.
  - exists shown. split; [|exact Hshown]. rewrite E. subst w1.
    unfold moved_on. cbn [trace]. now rewrite <- app_assoc.
Qed.

Lemma grade_sends_one_request_witness :
  cursor (after (knew_it_handler SampleCards.backend (press Sample.alice KnewIt))
            SampleCards.started) Sample.alice = Some (PInt 1).
Proof.
  eapply (proj1 (grade_sends_one_request SampleCards.backend SampleCards.started
                   (press Sample.alice KnewIt) _ [SampleCards.card] 0 true
                   (PStr "tok-a") SampleCards.card (PInt 1)
                   eq_refl eq_refl eq_refl eq_refl ltac:(lia) eq_refl eq_refl)).
Defined.

(** X14: Skip never contacts the backend: in any world, whatever the
    handler does, it only adds events to the trace and none of them is a
    request. *)
Theorem skip_sends_no_request (c : callback_query) (w : world) :
  exists es : list event,
    trace (after (skip_card_handler c) w) = (trace w ++ es)%list /\
    Forall (fun e => is_call e = false) es.
Proof.
  revert w. change (sends (fun e => is_call e = false) (skip_card_handler c)).
  pose proof show_current_flashcard_no_call.
  unfold skip_card_handler. repeat sends_step; reflexivity.
Qed.

(** X15: past the end of the batch the grades and Show Answer raise
    [IndexError] when they read the card under the cursor; nothing is sent,
    no request reaches the backend, and the cursor stays where it is: a
    grade cannot move the cursor beyond the batch. *)
Theorem no_card_past_the_end
    (api : request -> response) (w : world) (c : callback_query)
    (d : gmap string pyval) (cards : list pyval) (i : Z) :
  USER_SESSIONS w !! cb_from_user c = Some d ->
  d !! "current_flashcards" = Some (PList cards) ->
  d !! "current_index" = Some (PInt i) ->
  Z.of_nat (length cards) <= i ->
  knew_it_handler api c w = (Raise IndexError, w) /\
  still_learning_handler api c w = (Raise IndexError, w) /\
  show_answer_handler c w = (Raise IndexError, w).
Proof.
  intros Hs Hc Hi Hend. repeat split.
  - exact (grade_past_end api w _ d cards i Hs Hc Hi true c eq_refl Hend).
  - exact (grade_past_end api w _ d cards i Hs Hc Hi false c eq_refl Hend).
  - exact (show_answer_past_end w _ d cards i Hs Hc Hi c eq_refl Hend).
Qed.

Lemma no_card_past_the_end_witness :
  knew_it_handler SampleCards.backend (press Sample.alice KnewIt)
    (tap SampleCards.backend SampleCards.started SampleCards.skip)
  = (Raise IndexError, tap SampleCards.backend SampleCards.started SampleCards.skip).
Proof.
  eapply (proj1 (no_card_past_the_end SampleCards.backend
                   (tap SampleCards.backend SampleCards.started SampleCards.skip)
                   (press Sample.alice KnewIt) _ [SampleCards.card] 1
                   eq_refl eq_refl eq_refl ltac:(cbn; lia))).
Defined.

(** X16: Show Answer on the card under the cursor edits the message in
    place: it shows the card number, the definition and the term with the
    two grading buttons. Nothing else happens: the cursor does not move and
    no request is sent. *)
Theorem show_answer_edits_in_place
    (w : world) (c : callback_query) (d : gmap string pyval) (cards : list pyval) (i : Z)
    (card definition term : pyval) :
  USER_SESSIONS w !! cb_from_user c = Some d ->
  d !! "current_flashcards" = Some (PList cards) ->
  d !! "current_index" = Some (PInt i) ->
  0 <= i -> cards !! Z.to_nat i = Some card ->
  PyVal.getitem_str card "definition" = Ok definition ->
  PyVal.getitem_str card "term" = Ok term ->
  show_answer_handler c w =
    (Ok tt, say w [EditMessage (CardBack (i + 1) (Z.of_nat (length cards)) definition term)
                     [(PStr "I knew it ✅", Lit "knew_it");
                      (PStr "Still learning ❌", Lit "learning")]]).
Proof.
  intros Hs Hc Hi Hpos Hcard Hdef Hterm.
  exact (show_answer_eq w _ d cards i Hs Hc Hi c card definition term
           eq_refl Hpos Hcard Hdef Hterm).
Qed.

Lemma show_answer_edits_in_place_witness :
  run (show_answer_handler (CallbackQuery Sample.alice "show_answer")) SampleCards.started
  = Ok tt.
Proof.
  unfold run.
  erewrite (show_answer_edits_in_place SampleCards.started
              (CallbackQuery Sample.alice "show_answer") _ [SampleCards.card] 0
              SampleCards.card (PStr "cell division") (PStr "mitosis")
              eq_refl eq_refl eq_refl ltac:(lia) eq_refl eq_refl eq_refl).
  reflexivity.
Defined.

(** X17: the four card buttons are served in the two card sessions only.
    In any other flow state, or in none, a tap on Show Answer, Skip, I knew
    it or Still learning is not routed to any handler: the world is as it
    was. *)
Theorem card_taps_need_card_session
    (api : request -> response) (w : world) (u : Z) (button : string) :
  in_card_session (fsm w !! u) = false ->
  button ∈ ["show_answer"; "skip_card"; "knew_it"; "learning"] ->
  route_callback api (CallbackQuery u button) w = (Ok tt, w).
Proof.
  intros Hst Hb. unfold route_callback.
  rewrite (bind_ok _ _ _ _ _ (get_state_eq _ _)). cbn [cb_from_user data].
  rewrite !elem_of_cons, elem_of_nil in Hb.
  destruct Hb as [-> | [-> | [-> | [-> | []]]]]; cbn; rewrite Hst; reflexivity.
Qed.

Lemma card_taps_need_card_session_witness :
  route_callback SampleCards.backend SampleCards.skip Sample.logged_in
  = (Ok tt, Sample.logged_in).
Proof.
  apply (card_taps_need_card_session SampleCards.backend Sample.logged_in Sample.alice
           "skip_card" eq_refl).
  apply elem_of_cons. right. apply elem_of_cons. now left.
Defined.

(** ** Quizzes: selection, bounds, score *)

Lemma quiz_attempt_talks (w : world) (u : Z) (quiz : pyval) (idx c : Z) (k : py unit) :
  talks k -> quiz_attempt w u quiz idx c -> quiz_attempt (snd (k w)) u quiz idx c.
Proof.
  intros Hk (d & H1 & H2 & H3 & H4). destruct (Hk w) as [es ->]. now exists d.
Qed.

(** X18: selecting a quiz starts a fresh attempt. The quiz asked for is
    the one named between the first [_] of the button data and the next; on
    a 200 answer the quiz is stored with the question cursor and the count
    of correct answers both at 0, whatever an earlier attempt had left
    there, and this holds even if showing the first question fails. On any
    other status only the callback is answered with a failure note and the
    session is as it was. *)
Theorem start_quiz_starts_fresh_attempt
    (api : request -> response) (w : world) (u : Z) (s : string)
    (d : gmap string pyval) (token : pyval) :
  USER_SESSIONS w !! u = Some d ->
  d !! "access_token" = Some token ->
  let tapped := CallbackQuery u ("quiz_" ++ s) in
  let request := Request (ApiQuiz (first_field s)) (Some token) PNone in
  (forall quiz, status (api request) = 200 -> body_of (api request) = Json quiz ->
     quiz_attempt (after (start_quiz api tapped) w) u quiz 0 0 /\
     exists es, trace (after (start_quiz api tapped) w)
                = (trace w ++ Call request :: AnswerCallback None :: DeleteMessage :: es)%list) /\
  (status (api request) <> 200 ->
     start_quiz api tapped w =
       (Ok tt, say w [Call request;
                      AnswerCallback (Some "Failed to load quiz. Please try again.")])).
Proof.
  intros Hs Ht tapped request.
  assert (Hfield : split "_" ("quiz_" ++ s) !! 1%nat = Some (first_field s)).
  { destruct (split_first_field s) as [rest E].
    change (split "_" ("quiz_" ++ s)) with ("quiz" :: split "_" s). now rewrite E. }
  assert (Hstart : start_quiz api tapped w =
    (if status (api request) =? 200 then
       quiz ← json (api request);
       Sessions.write u "current_quiz" quiz;;
       Sessions.write u "current_question" (PInt 0);;
       Sessions.write u "correct_answers" (PInt 0);;
       emit (AnswerCallback None);;
       emit DeleteMessage;;
       title ← lift (PyVal.getitem_str quiz "title");
       description ← lift (PyVal.get quiz "description" (PStr ""));
       answer (StartingQuiz title description);;
       show_quiz_question api u
     else emit (AnswerCallback (Some "Failed to load quiz. Please try again.")))
      (say w [Call request])).
  { unfold start_quiz. cbn [cb_from_user data tapped].
    rewrite (field_str_ok _ _ _ _ Hfield).
    rewrite (bind_ok _ _ _ _ _ (headers_ok _ _ _ _ Hs Ht)).
    now rewrite bind_call. }
  split.
  - intros quiz Hst Hb. unfold after. rewrite Hstart, Hst. cbn [Z.eqb Pos.eqb].
    rewrite (bind_ok _ _ _ _ _ (json_ok _ _ _ Hb)).
    erewrite bind_ok by (apply write_ok; world_simpl; exact Hs).
    erewrite bind_ok by (apply write_ok; world_simpl; apply lookup_insert_eq).
    erewrite bind_ok by (apply write_ok; world_simpl; apply lookup_insert_eq).
    rewrite !bind_emit.
    match goal with |- context [snd (?k ?w0)] =>
      assert (Hk : talks k) by (repeat talks_step); set (w1 := w0)
    end.
    assert (H1 : quiz_attempt w1 u quiz 0 0).
    { eexists. subst w1. world_simpl. split; [apply lookup_insert_eq|].
      split; [now rewrite !lookup_insert_ne by discriminate; rewrite lookup_insert_eq|].
      split; [now rewrite !lookup_insert_ne by discriminate; rewrite lookup_insert_eq|].
      apply lookup_insert_eq. }
    split; [now apply quiz_attempt_talks|].
    destruct (Hk w1) as [es ->]. exists es. subst w1. cbn. now rewrite <- !app_assoc.
  - intros Hst. apply Z.eqb_neq in Hst. rewrite Hstart, Hst.
    unfold emit, say. cbn. now rewrite <- app_assoc.
Qed.

Lemma start_quiz_starts_fresh_attempt_witness :
  quiz_attempt SampleQuiz.started Sample.alice SampleQuiz.capitals 0 0.
Proof.
  destruct (start_quiz_starts_fresh_attempt SampleQuiz.backend Sample.logged_in
              Sample.alice "5" Sample.session (PStr "tok-a") eq_refl eq_refl) as [H _].
  exact (proj1 (H SampleQuiz.capitals eq_refl eq_refl)).
Defined.

(** X19: an answer that arrives when the cursor is at or past the last
    question (a second tap on an old option button) raises [IndexError] on
    the question lookup: the count and the cursor are as they were and
    nothing is sent, so the count cannot grow beyond the number of
    questions. *)
Theorem answer_past_the_end
    (api : request -> response) (w : world) (c : callback_query)
    (d : gmap string pyval) (quiz : pyval) (questions : list pyval) (idx : Z) :
  USER_SESSIONS w !! cb_from_user c = Some d ->
  d !! "current_quiz" = Some quiz ->
  d !! "current_question" = Some (PInt idx) ->
  PyVal.getitem_str quiz "questions" = Ok (PList questions) ->
  Z.of_nat (length questions) <= idx ->
  quiz_answer_handler api c w = (Raise IndexError, w).
Proof.
  intros Hs Hq Hi Hqs Hend. unfold quiz_answer_handler.
  rewrite (bind_ok _ _ _ _ _ (read_ok _ _ _ _ _ Hs Hq)).
  rewrite (read_int_ok _ _ _ _ _ _ Hs Hi).
  rewrite Hqs, bind_lift.
  now rewrite (no_card_at_cursor questions idx Hend).
Qed.

Lemma answer_past_the_end_witness :
  run (quiz_answer_handler SampleQuiz.backend (choose Sample.alice "4"))
    (answer_all SampleQuiz.backend Sample.alice SampleQuiz.started [" paris "; "4"])
  = Raise IndexError.
Proof.
  unfold run.
  erewrite (answer_past_the_end SampleQuiz.backend
              (answer_all SampleQuiz.backend Sample.alice SampleQuiz.started [" paris "; "4"])
              (choose Sample.alice "4") _ SampleQuiz.capitals SampleQuiz.questions 2
              eq_refl eq_refl eq_refl eq_refl ltac:(cbn; lia)).
  reflexivity.
Defined.



(** ** The grading test *)

Lemma lower_char_space (c : ascii) : is_space (lower_char c) = is_space c.
Proof. destruct c as [[] [] [] [] [] [] [] []]; reflexivity. Qed.

Lemma lstrip_lower (s : string) :
  lstrip is_space (py_lower s) = py_lower (lstrip is_space s).
Proof.
  induction s as [|c s IH]; [reflexivity|].
  cbn [py_lower lstrip]. rewrite lower_char_space.
  destruct (is_space c); [exact IH | reflexivity].
Qed.

Lemma rstrip_lower (s : string) :
  rstrip is_space (py_lower s) = py_lower (rstrip is_space s).
Proof.
  induction s as [|c s IH]; [reflexivity|].
  cbn [py_lower rstrip]. rewrite IH, lower_char_space.
  destruct (rstrip is_space s); cbn [py_lower]; [destruct (is_space c)|]; reflexivity.
Qed.

Lemma py_strip_lower (s : string) : py_strip (py_lower s) = py_lower (py_strip s).
Proof. unfold py_strip. now rewrite lstrip_lower, rstrip_lower. Qed.

Lemma spec_all_app (cls : list nat) (s t : string) :
  spec_all cls s -> spec_all cls t -> spec_all cls (s ++ t).
Proof.
  intros Hs Ht. induction s as [|c s IH]; [exact Ht|].
  rewrite append_cons. unfold spec_all in *. cbn [list_ascii_of_string] in *.
  apply Forall_cons in Hs as [Hc Hs]. apply Forall_cons. split; [exact Hc | now apply IH].
Qed.

(** Whitespace around a text does not change what [strip] leaves of it. *)
Lemma py_strip_padding (l x r : string) :
  spec_all spec_whitespace l -> spec_all spec_whitespace r ->
  py_strip (l ++ x ++ r) = py_strip x.
Proof.
  intros Hl Hr. apply py_strip_spec.
  destruct (proj2 (py_strip_spec x (py_strip x)) eq_refl)
    as (l0 & r0 & E & Hl0 & Hr0 & Hfirst & Hlast).
  exists (l ++ l0), (r0 ++ r).
  split; [|split; [now apply spec_all_app | split; [now apply spec_all_app | now split]]].
  rewrite E at 1. now rewrite !append_assoc.
Qed.

(** X21: the grading test does not see padding or case. Whitespace put
    around a text, on either side and in any amount, and letters changed
    from one case to the other do not change the verdict, whichever side of
    the comparison the text is on. The texts are ASCII. *)
Theorem matches_ignores_case_and_padding (s s' a l r : string) :
  isascii s = true -> isascii s' = true -> isascii a = true ->
  spec_all spec_whitespace l -> spec_all spec_whitespace r ->
  spec_same_letters s' s ->
  matches (l ++ s' ++ r) a = matches s a /\ matches a (l ++ s' ++ r) = matches a s.
Proof.
  intros _ _ _ Hl Hr Hcase. unfold matches.
  rewrite (py_strip_padding l s' r Hl Hr), <- (py_strip_lower s'), <- (py_strip_lower s).
  apply py_lower_spec in Hcase. now rewrite Hcase.
Qed.

Lemma matches_ignores_case_and_padding_witness :
  matches "  pARIS " "Paris" = true /\ matches "Paris" "  pARIS " = true.
Proof.
  assert (Hcase : spec_same_letters "pARIS" "Paris").
  { unfold spec_same_letters. cbn [list_ascii_of_string].
    repeat (constructor; [cbv; lia|]). constructor. }
  assert (Hl : spec_all spec_whitespace "  ").
  { unfold spec_all. cbn [list_ascii_of_string].
    repeat (constructor; [cbv; lia|]). constructor. }
  assert (Hr : spec_all spec_whitespace " ").
  { unfold spec_all. cbn [list_ascii_of_string].
    repeat (constructor; [cbv; lia|]). constructor. }
  destruct (matches_ignores_case_and_padding "Paris" "pARIS" "Paris" "  " " "
              eq_refl eq_refl eq_refl Hl Hr Hcase) as [H1 H2].
  split; [exact H1 | exact H2].
Defined.

(** ** One user's handlers leave the other users alone *)

Section Local.

Context {A B : Type} (u : Z).

Lemma local_quiet (m : py A) :
  (forall w, USER_SESSIONS (snd (m w)) = USER_SESSIONS w /\
             fsm (snd (m w)) = fsm w /\ fsm_data (snd (m w)) = fsm_data w) ->
  local u m.
Proof. intros H w v _. destruct (H w) as (-> & -> & ->). now repeat split. Qed.

Lemma local_ret (a : A) : local u (mret a : py A).
Proof. now apply local_quiet. Qed.

Lemma local_raise (e : exn) : local u (raise e : py A).
Proof. now apply local_quiet. Qed.

Lemma local_lift (o : outcome A) : local u (lift o).
Proof. now apply local_quiet. Qed.

Lemma local_bind (m : py A) (k : A -> py B) :
  local u m -> (forall a, local u (k a)) -> local u (m ≫= k).
Proof.
  intros Hm Hk w v Hv. unfold mbind, py_bind.
  specialize (Hm w v Hv). destruct (m w) as [[a|e] w1]; cbn in Hm; [|exact Hm].
  destruct Hm as (E1 & E2 & E3), (Hk a w1 v Hv) as (F1 & F2 & F3).
  repeat split; congruence.
Qed.

Lemma local_if (b : bool) (m1 m2 : py A) :
  local u m1 -> local u m2 -> local u (if b then m1 else m2).
Proof. now destruct b. Qed.

End Local.

Lemma local_mapM {A B} (u : Z) (f : A -> py B) (l : list A) :
  (forall a, local u (f a)) -> local u (mapM f l).
Proof.
  intros Hf. induction l as [|a l IH]; cbn [mapM].
  - apply local_ret.
  - apply local_bind; [apply Hf|]. intros b.
    apply local_bind; [exact IH|]. intros bs. apply local_ret.
Qed.

Section LocalPrimitives.

Variable u : Z.

Lemma local_emit (e : event) : local u (emit e).
Proof. now apply local_quiet. Qed.

Lemma local_answer (m : outmsg) : local u (answer m).
Proof. now apply local_quiet. Qed.

Lemma local_call (api : request -> response) (r : request) : local u (call api r).
Proof. now apply local_quiet. Qed.

Lemma local_read (key : string) : local u (Sessions.read u key).
Proof.
  apply local_quiet. intros w. unfold Sessions.read.
  destruct (USER_SESSIONS w !! u) as [d|]; [destruct (d !! key)|]; now repeat split.
Qed.

Lemma local_write (key : string) (v : pyval) : local u (Sessions.write u key v).
Proof.
  intros w x Hx. unfold Sessions.write.
  destruct (USER_SESSIONS w !! u); cbn; repeat split.
  now apply lookup_insert_ne.
Qed.

Lemma local_replace (d : gmap string pyval) : local u (Sessions.replace u d).
Proof. intros w x Hx. cbn. repeat split. now apply lookup_insert_ne. Qed.

Lemma local_incr (key : string) : local u (Sessions.incr u key).
Proof.
  apply local_bind; [apply local_read|]. intros v.
  destruct v; (apply local_raise || apply local_write).
Qed.

Lemma local_headers : local u (Sessions.headers u).
Proof. apply local_bind; [apply local_read | intros; apply local_ret]. Qed.

Lemma local_not_logged_in : local u (Sessions.not_logged_in u).
Proof. now apply local_quiet. Qed.

Lemma local_set (s : fsm_state) : local u (Fsm.set u s).
Proof. intros w x Hx. cbn. repeat split. now apply lookup_insert_ne. Qed.

Lemma local_finish : local u (Fsm.finish u).
Proof. intros w x Hx. cbn. repeat split; now apply lookup_delete_ne. Qed.

Lemma local_get_state : local u (Fsm.get_state u).
Proof. now apply local_quiet. Qed.

Lemma local_put (key : string) (v : pyval) : local u (Fsm.put u key v).
Proof. intros w x Hx. cbn. repeat split. now apply lookup_insert_ne. Qed.

Lemma local_fetch (key : string) : local u (Fsm.fetch u key).
Proof.
  apply local_quiet. intros w. unfold Fsm.fetch.
  destruct (default ∅ (fsm_data w !! u) !! key); now repeat split.
Qed.

Lemma local_create (name : string) : local u (Files.create name).
Proof. now apply local_quiet. Qed.

Lemma local_open_rb (path : pyval) : local u (Files.open_rb path).
Proof.
  apply local_quiet. intros w. unfold Files.open_rb.
  destruct path; try now repeat split. destruct (decide (s ∈ files w)); now repeat split.
Qed.

Lemma local_unlink (path : string) : local u (Files.unlink path).
Proof.
  apply local_quiet. intros w. unfold Files.unlink.
  destruct (decide (path ∈ files w)); now repeat split.
Qed.

Lemma local_json (r : response) : local u (json r).
Proof. unfold json. destruct (body_of r); (apply local_ret || apply local_raise). Qed.

Lemma local_as_int (v : pyval) : local u (as_int v).
Proof. destruct v; (apply local_ret || apply local_raise). Qed.

Lemma local_as_str (v : pyval) : local u (as_str v).
Proof. destruct v; (apply local_ret || apply local_raise). Qed.

Lemma local_field1 (fields : list string) : local u (field1 fields).
Proof. unfold field1. destruct (fields !! 1%nat); (apply local_ret || apply local_raise). Qed.

Lemma local_percentage_of (correct total : Z) : local u (percentage_of correct total).
Proof. apply local_bind; [apply local_lift | intros ratio; apply local_ret]. Qed.

End LocalPrimitives.

Create HintDb local.
#[export] Hint Resolve local_emit local_answer local_call local_read local_write
  local_replace local_incr local_headers local_not_logged_in local_set local_finish
  local_get_state local_put local_fetch local_create local_open_rb local_unlink
  local_json local_as_int local_as_str local_field1 local_percentage_of : local.

Ltac local_step :=
  first
    [ solve [auto with local]
    | apply local_bind; [| intros ?]
    | apply local_if
    | apply local_mapM; intros ?
    | apply local_ret
    | apply local_raise
    | apply local_lift ].

Ltac local_handler :=
  unfold show_teacher_menu, show_student_menu; repeat local_step.

Lemma local_show_current_flashcard (u : Z) : local u (show_current_flashcard u).
Proof. unfold show_current_flashcard. local_handler. Qed.

Lemma local_show_quiz_question (api : request -> response) (u : Z) :
  local u (show_quiz_question api u).
Proof. unfold show_quiz_question. local_handler. Qed.

#[export] Hint Resolve local_show_current_flashcard local_show_quiz_question : local.

Lemma local_route_callback (api : request -> response) (c : callback_query) :
  local (cb_from_user c) (route_callback api c).
Proof.
  unfold route_callback. apply local_bind; [apply local_get_state|]. intros st.
  repeat apply local_if.
  - unfold process_subject_selection. local_handler.
  - unfold process_content_type. local_handler.
  - unfold show_answer_handler. local_handler.
  - unfold skip_card_handler. local_handler.
  - unfold knew_it_handler, grade_handler. local_handler.
    destruct (decide _); local_handler.
  - unfold still_learning_handler, grade_handler. local_handler.
    destruct (decide _); local_handler.
  - unfold start_quiz. local_handler.
  - unfold quiz_answer_handler. local_handler.
  - apply local_ret.
Qed.

(** X22: a handler works on the records of the user it serves and on no
    other. Whatever the backend answers and whether the handler raises or
    not, a button tap of user [u], routed to whichever callback handler
    takes it, and each of the message handlers called for a message of [u],
    leave the session, the flow state and the draft of every other user as
    they were. *)
Theorem handlers_are_local (api : request -> response) :
  (forall c : callback_query, local (cb_from_user c) (route_callback api c)) /\
  (forall m : message,
     local (from_user m) (login_handler m) /\
     local (from_user m) (process_username m) /\
     local (from_user m) (process_password api m) /\
     local (from_user m) (upload_audio_handler api m) /\
     (forall temp, local (from_user m) (process_audio m temp)) /\
     local (from_user m) (process_title m) /\
     local (from_user m) (process_description m) /\
     local (from_user m) (process_count_and_upload api m) /\
     local (from_user m) (learn_new_flashcards_handler api m) /\
     local (from_user m) (review_flashcards_handler api m) /\
     local (from_user m) (take_quiz_handler api m)).
Proof.
  split; [exact (local_route_callback api)|].
  intros m. repeat match goal with |- _ /\ _ => split end.
  - unfold login_handler. local_handler.
  - unfold process_username. local_handler.
  - unfold process_password. local_handler.
  - unfold upload_audio_handler. local_handler.
  - intros temp. unfold process_audio. local_handler.
  - unfold process_title. local_handler.
  - unfold process_description. local_handler.
  - unfold process_count_and_upload. local_handler.
  - unfold learn_new_flashcards_handler, load_flashcards. local_handler.
  - unfold review_flashcards_handler, load_flashcards. local_handler.
  - unfold take_quiz_handler. local_handler.
Qed.

(** ** The count text *)

Lemma digits_stop (c : ascii) (s : string) (acc : Z) (sep : bool) :
  In c (list_ascii_of_string s) -> is_digit c = false -> Ascii.eqb c "_" = false ->
  digits acc sep s = None.
Proof.
  intros Hin Hd Hu. revert acc sep. induction s as [|b s IH]; intros acc sep; [destruct Hin|].
  cbn [digits]. cbn [list_ascii_of_string In] in Hin.
  destruct (is_digit b) eqn:Eb.
  - destruct Hin as [-> | Hin]; [congruence | now apply IH].
  - destruct (Ascii.eqb b "_") eqn:Eu; [|reflexivity].
    destruct sep; [reflexivity|].
    destruct Hin as [-> | Hin]; [congruence | now apply IH].
Qed.

Lemma lstrip_keeps (space : ascii -> bool) (c : ascii) (s : string) :
  In c (list_ascii_of_string s) -> space c = false ->
  In c (list_ascii_of_string (lstrip space s)).
Proof.
  intros Hin Hc. induction s as [|b s IH]; [destruct Hin|].
  cbn [lstrip]. destruct (space b) eqn:Eb; [|exact Hin].
  destruct Hin as [-> | Hin]; [congruence | now apply IH].
Qed.

Lemma rstrip_keeps (space : ascii -> bool) (c : ascii) (s : string) :
  In c (list_ascii_of_string s) -> space c = false ->
  In c (list_ascii_of_string (rstrip space s)).
Proof.
  intros Hin Hc. induction s as [|b s IH]; [destruct Hin|].
  cbn [rstrip]. destruct Hin as [-> | Hin].
  - destruct (rstrip space s); [rewrite Hc|]; now left.
  - specialize (IH Hin). destruct (rstrip space s); [destruct IH | now right].
Qed.

(** X23: an ASCII count text that holds a character other than a digit,
    [_], [+], [-] or one of the blanks that [int] skips (a letter, a dot, a
    comma, also one of the separators FS to US that [strip] would remove) is
    no integer: the requested count is 10. *)
Theorem count_is_10_for_other_text (t : string) (c : ascii) :
  isascii t = true ->
  In c (list_ascii_of_string t) ->
  count_char c = false ->
  (forall n : Z, ~ spec_integer_text t n) /\ requested_count t = 10.
Proof.
  intros _ Hin Hc. unfold count_char in Hc.
  apply orb_false_elim in Hc as [Hc Hspace].
  apply orb_false_elim in Hc as [Hc Hminus].
  apply orb_false_elim in Hc as [Hc Hplus].
  apply orb_false_elim in Hc as [Hdigit Hunder].
  assert (Hstrip : In c (list_ascii_of_string (rstrip is_int_space (lstrip is_int_space t))))
    by (apply rstrip_keeps; [apply lstrip_keeps|]; assumption).
  assert (Hnone : py_int t = None).
  { unfold py_int.
    destruct (rstrip is_int_space (lstrip is_int_space t)) as [|b r]; [reflexivity|].
    assert (Hall : digits 0 true (String b r) = None)
      by (now apply (digits_stop c)).
    assert (Hsign : b = "-"%char \/ b = "+"%char -> digits 0 true r = None).
    { intros Hb. apply (digits_stop c); [|assumption|assumption].
      destruct Hstrip as [<- | H]; [|exact H].
      destruct Hb as [-> | ->]; [discriminate Hminus | discriminate Hplus]. }
    destruct (Ascii.eqb_spec b "-") as [Hb|_]; [now rewrite Hsign by now left|].
    destruct (Ascii.eqb_spec b "+") as [Hb|_]; [now rewrite Hsign by now right|].
    exact Hall. }
  split.
  - intros n Hn%py_int_spec. congruence.
  - unfold requested_count. now rewrite Hnone.
Qed.

Lemma count_is_10_for_other_text_witness :
  (forall n : Z, ~ spec_integer_text "12 items" n) /\ requested_count "12 items" = 10.
Proof.
  apply (count_is_10_for_other_text "12 items" "i").
  - reflexivity.
  - cbn. tauto.
  - reflexivity.
Defined.

(** ** Card review: walking the batch *)

(** X24: in a card session whose cards all have an [id], the cursor
    counts the actions: after any [k] actions (Skip, I knew it, Still
    learning, in any order) with [k] at most the size of the batch, the
    cursor is [k], and the batch, the token and the card session are still
    there. So the end of a batch of N cards is reached after exactly N
    actions. *)
Theorem cursor_is_number_of_actions
    (api : request -> response) (u : Z) (cards : list pyval)
    (acts : list card_action) (w : world) :
  Forall (fun c => exists id, PyVal.getitem_str c "id" = Ok id) cards ->
  card_session w u cards 0 ->
  (length acts <= length cards)%nat ->
  card_session (taps api w (map (press u) acts)) u cards (Z.of_nat (length acts)) /\
  cursor (taps api w (map (press u) acts)) u = Some (PInt (Z.of_nat (length acts))).
Proof.
  intros Hids Hs Hlen.
  pose proof (cursor_counts_actions api u cards Hids acts w 0 Hs ltac:(lia) ltac:(lia)) as H.
  rewrite Z.add_0_l in H. split; [exact H|]. exact (card_session_cursor _ _ _ _ H).
Qed.

Lemma cursor_is_number_of_actions_witness :
  cursor (taps SampleCards.backend SampleCards.started [press Sample.alice StillLearning])
    Sample.alice = Some (PInt 1).
Proof.
  assert (Hs : card_session SampleCards.started Sample.alice [SampleCards.card] 0).
  { eexists. split; [reflexivity|]. split; [reflexivity|]. split; [reflexivity|].
    split; [eexists; reflexivity | reflexivity]. }
  refine (proj2 (cursor_is_number_of_actions SampleCards.backend Sample.alice
                   [SampleCards.card] [StillLearning] SampleCards.started _ Hs _)).
  - constructor; [now exists (PInt 1) | constructor].
  - cbn. lia.
Defined.

(** X25: Skip has no bound. In a card session at cursor [i], wherever
    [i] is, [n] taps on Skip leave the cursor at [i + n]: once the end of
    the batch is reached, each further Skip moves the cursor one step beyond
    it. *)
Theorem skip_is_not_bounded
    (api : request -> response) (u : Z) (cards : list pyval) (n : nat) (w : world) (i : Z) :
  card_session w u cards i ->
  cursor (taps api w (repeat (press u Skip) n)) u = Some (PInt (i + Z.of_nat n)).
Proof.
  intros Hs. apply (card_session_cursor _ _ cards).
  revert w i Hs. induction n as [|n IH]; intros w i Hs.
  - cbn. now rewrite Z.add_0_r.
  - cbn [repeat taps fold_left].
    replace (i + Z.of_nat (S n)) with (i + 1 + Z.of_nat n) by lia.
    apply IH. now apply skip_moves_cursor.
Qed.

Lemma skip_is_not_bounded_witness :
  cursor (taps SampleCards.backend SampleCards.started (repeat (press Sample.alice Skip) 3))
    Sample.alice = Some (PInt 3).
Proof.
  assert (Hs : card_session SampleCards.started Sample.alice [SampleCards.card] 0).
  { eexists. split; [reflexivity|]. split; [reflexivity|]. split; [reflexivity|].
    split; [eexists; reflexivity | reflexivity]. }
  exact (skip_is_not_bounded SampleCards.backend Sample.alice [SampleCards.card] 3
           SampleCards.started 0 Hs).
Defined.

(** X26: the action on the last card ends the session for the user. With
    the cursor on the last card of the batch, a Skip or a grade sends, after
    its own events, the completion text and the student menu and no card;
    the flow state is not touched by it. *)
Theorem last_action_announces_completion
    (api : request -> response) (w : world) (u : Z) (a : card_action)
    (d : gmap string pyval) (cards : list pyval) (token card card_id : pyval) :
  USER_SESSIONS w !! u = Some d ->
  d !! "current_flashcards" = Some (PList (cards ++ [card])) ->
  d !! "current_index" = Some (PInt (Z.of_nat (length cards))) ->
  d !! "access_token" = Some token ->
  PyVal.getitem_str card "id" = Ok card_id ->
  in_card_session (fsm w !! u) = true ->
  let w' := tap api w (press u a) in
  fsm w' = fsm w /\
  cursor w' u = Some (PInt (Z.of_nat (length (cards ++ [card])))) /\
  exists es : list event,
    trace w' =
      (trace w ++ es ++
       [Answer (Text "You've reviewed all the flashcards in this session! 🎉");
        Answer StudentMenu])%list /\
    Forall (fun e => forall n t v b, e <> AnswerButtons (CardFront n t v) b) es.
Proof.
  intros Hs Hc Hi Ht Hid Hst w'. subst w'. unfold tap.
  rewrite (route_action api u a w Hst).
  assert (Hcard : (cards ++ [card])%list !! Z.to_nat (Z.of_nat (length cards)) = Some card)
    by (rewrite Nat2Z.id; apply list_lookup_middle; reflexivity).
  assert (Hlen : Z.of_nat (length (cards ++ [card])%list) = Z.of_nat (length cards) + 1)
    by (rewrite length_app; cbn [length]; lia).
  assert (Hdone : forall es,
            card_session (moved_on w u d (Z.of_nat (length cards)) es) u (cards ++ [card])%list
              (Z.of_nat (length cards) + 1)).
  { intros es. eexists. unfold moved_on. world_simpl.
    split; [apply lookup_insert_eq|].
    split; [rewrite lookup_insert_ne by discriminate; exact Hc|].
    split; [apply lookup_insert_eq|].
    split; [exists token; now rewrite lookup_insert_ne by discriminate | exact Hst]. }
  assert (Hgoal : forall es,
            Forall (fun e => forall n t v b, e <> AnswerButtons (CardFront n t v) b) es ->
            let w1 := snd (show_current_flashcard u (moved_on w u d (Z.of_nat (length cards)) es)) in
            fsm w1 = fsm w /\
            cursor w1 u = Some (PInt (Z.of_nat (length (cards ++ [card])%list))) /\
            exists es0, trace w1 = (trace w ++ es0 ++
              [Answer (Text "You've reviewed all the flashcards in this session! 🎉");
               Answer StudentMenu])%list /\
              Forall (fun e => forall n t v b, e <> AnswerButtons (CardFront n t v) b) es0).
  { intros es Hes w1. subst w1.
    rewrite (completion_is_announced u (cards ++ [card])%list _ _ (Hdone es)) by lia.
    cbn [snd]. unfold say, moved_on. world_simpl.
    split; [reflexivity|]. split.
    - unfold cursor. world_simpl. rewrite lookup_insert_eq. cbn.
      rewrite lookup_insert_eq, Hlen. reflexivity.
    - exists es. split; [now rewrite <- app_assoc | exact Hes]. }
  destruct a.
  - rewrite (skip_eq w u d (Z.of_nat (length cards)) Hs Hi). apply Hgoal.
    repeat constructor; discriminate.
  - unfold knew_it_handler.
    rewrite (grade_eq api w u d (cards ++ [card])%list _ Hs Hc Hi true
               (press u KnewIt) token card card_id
               eq_refl Ht ltac:(lia) Hcard Hid).
    apply Hgoal. unfold grade_ack. repeat constructor; discriminate.
  - unfold still_learning_handler.
    rewrite (grade_eq api w u d (cards ++ [card])%list _ Hs Hc Hi false
               (press u StillLearning) token card card_id
               eq_refl Ht ltac:(lia) Hcard Hid).
    apply Hgoal. unfold grade_ack. repeat constructor; discriminate.
Qed.

Lemma last_action_announces_completion_witness :
  fsm (tap SampleCards.backend SampleCards.started (press Sample.alice Skip))
  = fsm SampleCards.started.
Proof.
  refine (proj1 (last_action_announces_completion SampleCards.backend SampleCards.started
                   Sample.alice Skip _ [] (PStr "tok-a") SampleCards.card (PInt 1)
                   _ _ _ _ eq_refl eq_refl)); reflexivity.
Defined.

(** ** Lists of subjects and quizzes *)

(** The buttons built from a list of items, each with a label under the
    key [label] and an [id]. *)
Lemma buttons_of_items (label prefix : string) (items : list pyval)
    (fields : list (pyval * pyval)) (w : world) :
  Forall2 (fun item f => PyVal.getitem_str item label = Ok (fst f) /\
                         PyVal.getitem_str item "id" = Ok (snd f)) items fields ->
  mapM (fun item =>
          l ← lift (PyVal.getitem_str item label);
          id ← lift (PyVal.getitem_str item "id");
          mret (l, Fmt prefix id)) items w
  = (Ok (map (fun f => (fst f, Fmt prefix (snd f))) fields), w).
Proof.
  induction 1 as [|item f items fields [Hl Hid] _ IH]; [reflexivity|].
  cbn [mapM map]. rewrite Hl, Hid. rewrite bind_assoc, bind_lift, bind_assoc, bind_lift.
  rewrite bind_ret. unfold mapM in IH. rewrite (bind_ok _ _ _ _ _ IH). reflexivity.
Qed.

(** X27: a logged-in teacher asks to upload. On a 200 answer with a list
    of subjects that each have a name and an id, one message goes out with
    one button per subject, in order, labelled with the name and carrying
    [subject_] followed by the id, and the flow state becomes the subject
    step; this is so for an empty list too, which gives a message without
    buttons. On any other status the failure text is sent and the flow state
    is as it was. *)
Theorem subjects_are_listed
    (api : request -> response) (w : world) (m : message)
    (d : gmap string pyval) (token : pyval) :
  USER_SESSIONS w !! from_user m = Some d ->
  d !! "access_token" = Some token ->
  let request := Request ApiSubjects (Some token) PNone in
  (forall subjects fields,
     status (api request) = 200 ->
     body_of (api request) = Json (PList subjects) ->
     Forall2 (fun item f => PyVal.getitem_str item "name" = Ok (fst f) /\
                            PyVal.getitem_str item "id" = Ok (snd f)) subjects fields ->
     upload_audio_handler api m w =
       (Ok tt,
        World (USER_SESSIONS w) (<[from_user m := Teacher_waiting_for_subject]> (fsm w))
              (fsm_data w) (files w)
              (trace w ++ [Call request;
                           AnswerButtons (Text "Please select a subject:")
                             (map (fun f => (fst f, Fmt "subject_" (snd f))) fields)]))) /\
  (status (api request) <> 200 ->
   upload_audio_handler api m w =
     (Ok tt, say w [Call request;
                    Answer (Text "❌ Failed to load subjects. Please try again later.")])).
Proof.
  intros Hs Ht request.
  assert (Hin : Sessions.not_logged_in (from_user m) w = (Ok false, w))
    by (unfold Sessions.not_logged_in; now rewrite Hs, Ht).
  split.
  - intros subjects fields Hst Hb Hitems. unfold upload_audio_handler.
    rewrite (bind_ok _ _ _ _ _ Hin).
    rewrite (bind_ok _ _ _ _ _ (headers_ok _ _ _ _ Hs Ht)).
    rewrite bind_call. fold request. rewrite Hst. cbn [Z.eqb Pos.eqb].
    rewrite (bind_ok _ _ _ _ _ (json_ok _ _ _ Hb)).
    cbn [PyVal.iter]. rewrite bind_lift.
    rewrite (bind_ok _ _ _ _ _ (buttons_of_items "name" "subject_" subjects fields _ Hitems)).
    unfold mbind, py_bind, Fsm.set, emit, say. cbn. now rewrite <- app_assoc.
  - intros Hst. apply Z.eqb_neq in Hst. unfold upload_audio_handler.
    rewrite (bind_ok _ _ _ _ _ Hin).
    rewrite (bind_ok _ _ _ _ _ (headers_ok _ _ _ _ Hs Ht)).
    rewrite bind_call. fold request. rewrite Hst.
    now rewrite answer_eq, say_say.
Qed.

Lemma subjects_are_listed_witness :
  fsm (after (upload_audio_handler SampleOutcomes.all_good
                (Message SampleUpload.teacher "📝 Upload Audio for Content Generation"))
         SampleUpload.logged_in) !! SampleUpload.teacher
  = Some Teacher_waiting_for_subject.
Proof.
  destruct (subjects_are_listed SampleOutcomes.all_good SampleUpload.logged_in
              (Message SampleUpload.teacher "📝 Upload Audio for Content Generation")
              SampleUpload.session (PStr "tok-t") eq_refl eq_refl) as [H _].
  unfold after.
  rewrite (H [PDict [("id", PInt 3); ("name", PStr "Biology")]] [(PStr "Biology", PInt 3)]
             eq_refl eq_refl ltac:(repeat constructor)).
  reflexivity.
Defined.

(** X28: a logged-in student asks for the quizzes. On a 200 answer with a
    list of at least one quiz, each with a title and an id, one message goes
    out with one button per quiz, in order, labelled with the title and
    carrying [quiz_] followed by the id; on a 200 answer with an empty list
    the student is told that there is none; on any other status the failure
    text is sent. In all three cases session and flow state are as they
    were. *)
Theorem quizzes_are_listed
    (api : request -> response) (w : world) (m : message)
    (d : gmap string pyval) (token : pyval) :
  USER_SESSIONS w !! from_user m = Some d ->
  d !! "access_token" = Some token ->
  let request := Request ApiAllQuizzes (Some token) PNone in
  (forall quiz quizzes fields,
     status (api request) = 200 ->
     body_of (api request) = Json (PList (quiz :: quizzes)) ->
     Forall2 (fun item f => PyVal.getitem_str item "title" = Ok (fst f) /\
                            PyVal.getitem_str item "id" = Ok (snd f))
       (quiz :: quizzes) fields ->
     take_quiz_handler api m w =
       (Ok tt, say w [Call request;
                      AnswerButtons (Text "Select a quiz to take:")
                        (map (fun f => (fst f, Fmt "quiz_" (snd f))) fields)])) /\
  (status (api request) = 200 -> body_of (api request) = Json (PList []) ->
   take_quiz_handler api m w =
     (Ok tt, say w [Call request; Answer (Text "No quizzes available at the moment.")])) /\
  (status (api request) <> 200 ->
   take_quiz_handler api m w =
     (Ok tt, say w [Call request;
                    Answer (Text "❌ Failed to load quizzes. Please try again later.")])).
Proof.
  intros Hs Ht request.
  assert (Hin : Sessions.not_logged_in (from_user m) w = (Ok false, w))
    by (unfold Sessions.not_logged_in; now rewrite Hs, Ht).
  assert (Hsent : take_quiz_handler api m w =
    (if status (api request) =? 200 then
       quizzes ← json (api request);
       if negb (PyVal.truthy quizzes) then answer (Text "No quizzes available at the moment.")
       else
         items ← lift (PyVal.iter quizzes);
         buttons ← mapM (fun quiz =>
                           title ← lift (PyVal.getitem_str quiz "title");
                           id ← lift (PyVal.getitem_str quiz "id");
                           mret (title, Fmt "quiz_" id)) items;
         emit (AnswerButtons (Text "Select a quiz to take:") buttons)
     else answer (Text "❌ Failed to load quizzes. Please try again later."))
      (say w [Call request])).
  { unfold take_quiz_handler. rewrite (bind_ok _ _ _ _ _ Hin).
    rewrite (bind_ok _ _ _ _ _ (headers_ok _ _ _ _ Hs Ht)). now rewrite bind_call. }
  rewrite Hsent. split; [|split].
  - intros quiz quizzes fields Hst Hb Hitems. rewrite Hst. cbn [Z.eqb Pos.eqb].
    rewrite (bind_ok _ _ _ _ _ (json_ok _ _ _ Hb)). cbn [PyVal.truthy negb PyVal.iter].
    rewrite bind_lift.
    rewrite (bind_ok _ _ _ _ _ (buttons_of_items "title" "quiz_" _ fields _ Hitems)).
    unfold emit, say. cbn. now rewrite <- app_assoc.
  - intros Hst Hb. rewrite Hst. cbn [Z.eqb Pos.eqb].
    rewrite (bind_ok _ _ _ _ _ (json_ok _ _ _ Hb)). cbn [PyVal.truthy negb].
    now rewrite answer_eq, say_say.
  - intros Hst. apply Z.eqb_neq in Hst. rewrite Hst. now rewrite answer_eq, say_say.
Qed.

Lemma quizzes_are_listed_witness :
  run (take_quiz_handler SampleQuiz.backend (Message Sample.alice "📝 Take Quiz"))
    Sample.logged_in = Ok tt.
Proof.
  destruct (quizzes_are_listed SampleQuiz.backend Sample.logged_in
              (Message Sample.alice "📝 Take Quiz") Sample.session (PStr "tok-a")
              eq_refl eq_refl) as [H _].
  unfold run.
  rewrite (H (PDict [("id", PInt 5); ("title", PStr "Capitals")])
             [PDict [("id", PInt 6); ("title", PStr "Draft")]]
             [(PStr "Capitals", PInt 5); (PStr "Draft", PInt 6)]
             eq_refl eq_refl ltac:(repeat constructor)).
  reflexivity.
Defined.
